(** * SolanaQuantumFlux: the QRNG client bindings and the request protocol

    A shallow embedding of the TypeScript SDK ([sdk/src/types.ts],
    [sdk/src/client.ts]), of the direct-integration snippets of
    [docs/technical/mainnet-integration.md], and of the on-chain request
    protocol as the specification describes it, followed by the properties
    established about them. *)

From Stdlib Require Import ZArith Lia List String Ascii Bool.
From Stdlib.Strings Require Import Byte.
From Stdlib Require Import Floats Uint63.
From stdpp Require Import base option list gmap strings.

Local Open Scope Z_scope.

(** ** JavaScript and Node.js primitives the client relies on *)

Module Js.

(** A Node [Buffer]: a sequence of octets. *)
Definition Buffer : Type := list byte.

(** The numeric value of an octet, [0 <= v < 256]. *)
Definition byte_val (b : byte) : Z := Z.of_N (Byte.to_N b).

(** Storing a number into a [Uint8Array] slot keeps its low eight bits. *)
Definition byte_of_Z (z : Z) : byte :=
  default x00 (Byte.of_N (Z.to_N (z mod 256))).

(** [Buffer.from(array)] for an array of integers. *)
Definition Buffer_from_array (l : list Z) : Buffer := byte_of_Z <$> l.

(** [Buffer.from(str)] with the default utf8 encoding, for ASCII text. *)
Definition Buffer_from_string (s : string) : Buffer := list_byte_of_string s.

(** [buf[i]]: a number, or [undefined] ([None]) past the end. *)
Definition index (buf : Buffer) (i : nat) : option Z := byte_val <$> buf !! i.

(** [buf.readBigUInt64LE(offset)] as in Node's lib/internal/buffer.js:
    [first] and [last] are probed, a missing one raises a RangeError
    ([None] here), then the two 32-bit halves are assembled. *)
Definition readBigUInt64LE (buf : Buffer) (offset : nat) : option Z :=
  first ← index buf offset;
  last ← index buf (offset + 7);
  b1 ← index buf (offset + 1);
  b2 ← index buf (offset + 2);
  b3 ← index buf (offset + 3);
  b4 ← index buf (offset + 4);
  b5 ← index buf (offset + 5);
  b6 ← index buf (offset + 6);
  let lo := first + b1 * 2 ^ 8 + b2 * 2 ^ 16 + b3 * 2 ^ 24 in
  let hi := b4 + b5 * 2 ^ 8 + b6 * 2 ^ 16 + last * 2 ^ 24 in
  Some (lo + Z.shiftl hi 32).

(** The IEEE-754 binary64 value of a 64-bit pattern (what reading a
    [Float64Array] slot over the same bytes yields). *)
Definition float_of_bits (w : Z) : float :=
  let s := Z.testbit w 63 in
  let e := Z.land (Z.shiftr w 52) 2047 in
  let m := Z.land w (2 ^ 52 - 1) in
  SF2Prim
    (if e =? 0 then
       if m =? 0 then S754_zero s else S754_finite s (Z.to_pos m) (-1074)
     else if e =? 2047 then
       if m =? 0 then S754_infinity s else S754_nan
     else S754_finite s (Z.to_pos (m + 2 ^ 52)) (e - 1075)).

(** [buf.readDoubleLE(offset)]: same bounds probe as the 64-bit integer
    read, the eight bytes reinterpreted as a double. *)
Definition readDoubleLE (buf : Buffer) (offset : nat) : option float :=
  float_of_bits <$> readBigUInt64LE buf offset.

(** [Number(big)] for a non-negative bigint: round to nearest, ties to
    even. *)
Definition Number_of_bigint (z : Z) : float :=
  SF2Prim (binary_normalize prec emax z 0 false).

(** Storing an arbitrary number into a [Uint8Array] slot (ToUint8): [NaN]
    and the infinities give 0, every other number is truncated toward zero
    and reduced modulo 256. *)
Definition to_uint8 (x : float) : byte :=
  match Prim2SF x with
  | S754_finite s m e =>
      let magnitude :=
        if 0 <=? e then Z.pos m * 2 ^ e else Z.pos m / 2 ^ (- e) in
      byte_of_Z (if s then - magnitude else magnitude)
  | _ => x00
  end.

(** [Buffer.from(array)] for an array given by the number each of its
    elements converts to: one slot per element. *)
Definition Buffer_from_numbers (l : list float) : Buffer := to_uint8 <$> l.

(** Truthiness of a number: [0], [-0] and [NaN] are falsy. *)
Definition falsy (x : float) : bool := PrimFloat.is_nan x || PrimFloat.is_zero x.

(** [x || 0] where [x] is [number | null]. *)
Definition or_zero (x : option float) : float :=
  match x with
  | Some v => if falsy v then 0%float else v
  | None => 0%float
  end.

End Js.

(** ** The web3.js / spl-token data the client handles *)

Module Web3.

(** A public key, by its base58 text. *)
Definition PublicKey : Type := string.

(** [Keypair | Signer]; [getTokenBalance] passes an object with a public
    key only, cast to [Signer]. *)
Record Signer : Type := mkSigner {
  publicKey : PublicKey;
  secretKey : option Js.Buffer
}.

Record AccountMeta : Type := mkAccountMeta {
  pubkey : PublicKey;
  isSigner : bool;
  isWritable : bool
}.

Record TransactionInstruction : Type := mkInstruction {
  keys : list AccountMeta;
  programId : PublicKey;
  data : Js.Buffer
}.

(** A [Transaction] is the list of instructions added to it so far. *)
Definition Transaction : Type := list TransactionInstruction.

(** The spl-token [Account] record; only its address is read. *)
Record TokenAccount : Type := mkTokenAccount { address : PublicKey }.

(** [RpcResponseAndContext<TokenAmount>.value]. *)
Record TokenAmount : Type := mkTokenAmount {
  amount : Z;
  decimals : Z;
  uiAmount : option float
}.

(** [meta.returnData.data], which the client reads through [as any]: one
    base64 string, the shape [Buffer.from(data, 'base64')] decodes, or an
    array of strings, the shape web3.js gives it (the pair
    [[encoded, 'base64']] the integration guide destructures). *)
Inductive ReturnDataBytes : Type :=
| DataString (encoded : string)
| DataArray (elements : list string).

(** [!data]: of the two shapes only the empty string is falsy. *)
Definition data_is_falsy (data : ReturnDataBytes) : bool :=
  match data with
  | DataString encoded => bool_decide (encoded = ""%string)
  | DataArray _ => false
  end.

(** [meta.returnData]. *)
Record ReturnData : Type := mkReturnData { rd_data : ReturnDataBytes }.

Record Meta : Type := mkMeta { returnData : option ReturnData }.

(** What [getTransaction] resolves to when it is not [null]. *)
Record TxInfo : Type := mkTxInfo { meta : option Meta }.

Definition Signature : Type := string.

(** A value a library call rejects with, an [Error] object as web3.js and
    spl-token throw them: its [message] property and its string conversion.
    Rejections with [undefined] or [null], on which reading [error.message]
    itself throws, are not among the values of this type. *)
Record HostError : Type := mkHostError {
  he_message : string;
  he_text : string
}.

Definition SYSVAR_CLOCK_PUBKEY : PublicKey :=
  "SysvarC1ock11111111111111111111111111111111"%string.

Definition TOKEN_PROGRAM_ID : PublicKey :=
  "TokenkegQfeZyiNwAJbNbGKPFXCWuBvf9Ss623VQ5DA"%string.

(** The cluster and the libraries in front of it. Every remote call takes
    the cluster state and answers with a value or a rejection, and a new
    cluster state. The conversions of the platform the client leans on
    are taken as they are: the base64 decoder, the text of a number in a
    template literal, and [Number(text)]. *)
Class Host : Type := {
  world : Type;
  getOrCreateAssociatedTokenAccount :
    Signer -> PublicKey -> PublicKey -> bool ->
    world -> (HostError + TokenAccount) * world;
  getTokenAccountBalance :
    PublicKey -> world -> (HostError + TokenAmount) * world;
  sendAndConfirmTransaction :
    Transaction -> list Signer -> world -> (HostError + Signature) * world;
  getTransaction :
    Signature -> world -> (HostError + option TxInfo) * world;
  findProgramAddressSync : list Js.Buffer -> PublicKey -> PublicKey * Z;
  base64_decode : string -> Js.Buffer;
  number_to_string : float -> string;
  string_to_number : string -> float
}.

End Web3.

(** ** sdk/src/types.ts *)

Module Types.
Import Web3.

Record QrngClientOptions : Type := mkOptions {
  opt_programId : option PublicKey;
  opt_tokenMint : option PublicKey;
  opt_treasuryAddress : option PublicKey
}.

Inductive QrngInstructionType : Type :=
| INITIALIZE_PROGRAM
| GENERATE_RANDOM_U64
| GENERATE_RANDOM_DOUBLE
| GENERATE_RANDOM_BOOLEAN.

(** The numeric value of each enum member. *)
Definition tag_value (t : QrngInstructionType) : Z :=
  match t with
  | INITIALIZE_PROGRAM => 0
  | GENERATE_RANDOM_U64 => 1
  | GENERATE_RANDOM_DOUBLE => 2
  | GENERATE_RANDOM_BOOLEAN => 3
  end.

End Types.

(** ** sdk/src/client.ts *)

Module Client.
Import Web3 Types.

(** What an [async] method of the client can reject with: the SDK's own
    [QrngError], or whatever a library call threw. *)
Inductive Thrown : Type :=
| QrngError (message : string)
| Foreign (e : HostError).

(** The RangeError of an out-of-bounds [Buffer] read. *)
Definition out_of_bounds : HostError :=
  mkHostError "Attempt to access memory outside buffer bounds"
              "RangeError [ERR_BUFFER_OUT_OF_BOUNDS]: Attempt to access memory outside buffer bounds".

(** The remote calls a method performs, in order. *)
Inductive Event : Type :=
| CallGetOrCreateAssociatedTokenAccount
    (payer : Signer) (mint owner : PublicKey) (allowOwnerOffCurve : bool)
| CallGetTokenAccountBalance (addr : PublicKey)
| CallSendAndConfirmTransaction (tx : Transaction) (signers : list Signer)
| CallGetTransaction (sig : Signature).

Definition is_submission (ev : Event) : bool :=
  match ev with CallSendAndConfirmTransaction _ _ => true | _ => false end.

Definition DEFAULT_PROGRAM_ID : PublicKey :=
  "F7E268Uek6YJvYCNaeamnxLy1umzPPTfrK2TiATxffQg"%string.
Definition DEFAULT_TOKEN_MINT : PublicKey :=
  "4mbdysBik3jmzD7mt6FGPDsMxnYcxExSQRFjPucdpump"%string.
Definition DEFAULT_TREASURY_ADDRESS : PublicKey :=
  "3vuKcjqows8T19z7amN2XMkSdVcicqBuf5vVa8ZjaVfc"%string.

Definition invalid_return_data : string :=
  "Invalid return data from QRNG service"%string.
Definition no_return_data : string :=
  "No return data found in transaction"%string.

Record QrngClient : Type := mkClient {
  programId : PublicKey;
  tokenMint : PublicKey;
  treasuryAddress : PublicKey;
  configPda : PublicKey
}.

Section WithHost.
Context {host : Host}.

(** The state an [async] computation runs in: the cluster, and the log
    of remote calls made so far. *)
Record Session : Type := mkSession {
  net : world;
  calls : list Event
}.

Definition Async (A : Type) : Type := Session -> (Thrown + A) * Session.

Definition resolve {A} (a : A) : Async A := fun s => (inr a, s).

Definition throw {A} (e : Thrown) : Async A := fun s => (inl e, s).

Definition andThen {A B} (k : A -> Async B) (m : Async A) : Async B :=
  fun s =>
    match m s with
    | (inl e, s') => (inl e, s')
    | (inr a, s') => k a s'
    end.

#[export] Instance Async_ret : MRet Async := @resolve.
#[export] Instance Async_bind : MBind Async := @andThen.

(** [try { body } catch (error) { handler }]. *)
Definition try_catch {A} (body : Async A) (handler : Thrown -> Async A)
  : Async A :=
  fun s =>
    match body s with
    | (inl e, s') => handler e s'
    | (inr a, s') => (inr a, s')
    end.

(** [await] of a remote call: the call is logged, the cluster moves on,
    a rejection becomes a thrown value. *)
Definition await {A} (ev : Event)
    (call : world -> (HostError + A) * world) : Async A :=
  fun s =>
    let '(r, w) := call (net s) in
    (match r with inl e => inl (Foreign e) | inr a => inr a end,
     mkSession w (calls s ++ [ev])).

Definition awaitTokenAccount (payer : Signer) (mint owner : PublicKey)
    (allowOwnerOffCurve : bool) : Async TokenAccount :=
  await (CallGetOrCreateAssociatedTokenAccount payer mint owner allowOwnerOffCurve)
        (getOrCreateAssociatedTokenAccount payer mint owner allowOwnerOffCurve).

Definition awaitBalance (addr : PublicKey) : Async TokenAmount :=
  await (CallGetTokenAccountBalance addr) (getTokenAccountBalance addr).

Definition awaitSend (tx : Transaction) (signers : list Signer)
  : Async Signature :=
  await (CallSendAndConfirmTransaction tx signers)
        (sendAndConfirmTransaction tx signers).

Definition awaitTransaction (sig : Signature) : Async (option TxInfo) :=
  await (CallGetTransaction sig) (getTransaction sig).

(** The constructor: each option falls back to its mainnet default, and
    the config PDA is derived from the seed and the program id. *)
Definition new_QrngClient (options : QrngClientOptions) : QrngClient :=
  let programId := default DEFAULT_PROGRAM_ID (opt_programId options) in
  let tokenMint := default DEFAULT_TOKEN_MINT (opt_tokenMint options) in
  let treasuryAddress :=
    default DEFAULT_TREASURY_ADDRESS (opt_treasuryAddress options) in
  let configPda :=
    fst (findProgramAddressSync
           [Js.Buffer_from_string "token_qrng_config"] programId) in
  mkClient programId tokenMint treasuryAddress configPda.

(** The account list of the request instruction. *)
Definition request_keys (this : QrngClient) (walletPublicKey : PublicKey)
    (userTokenAccount treasuryTokenAccount : TokenAccount)
  : list AccountMeta :=
  [ mkAccountMeta walletPublicKey true true;
    mkAccountMeta (address userTokenAccount) false true;
    mkAccountMeta (address treasuryTokenAccount) false true;
    mkAccountMeta TOKEN_PROGRAM_ID false false;
    mkAccountMeta (configPda this) false false;
    mkAccountMeta SYSVAR_CLOCK_PUBKEY false false ].

(** [Buffer.from(data, 'base64')]: a string is decoded; of an array the
    encoding is ignored and every element is stored as a byte, by the
    number it converts to. *)
Definition Buffer_from_base64 (data : ReturnDataBytes) : Js.Buffer :=
  match data with
  | DataString encoded => base64_decode encoded
  | DataArray elements => Js.Buffer_from_numbers (string_to_number <$> elements)
  end.

(** [error.message || error] inside a template literal. *)
Definition message_or_text (e : HostError) : string :=
  if decide (he_message e = ""%string) then he_text e else he_message e.

(** [private async generateRandom(wallet, instructionType)]. *)
Definition generateRandom (this : QrngClient) (wallet : Signer)
    (instructionType : QrngInstructionType) : Async Js.Buffer :=
  try_catch
    (let walletPublicKey := publicKey wallet in
     userTokenAccount ←
       awaitTokenAccount wallet (tokenMint this) walletPublicKey false;
     treasuryTokenAccount ←
       awaitTokenAccount wallet (tokenMint this) (treasuryAddress this) true;
     userTokenBalance ← awaitBalance (address userTokenAccount);
     let balance := Js.or_zero (uiAmount userTokenBalance) in
     if (balance <? 1)%float then
       throw (QrngError
                ("Insufficient TSOTCHKE tokens. You have "
                 +:+ number_to_string balance
                 +:+ " but need at least 1.0."))
     else
       let instructionData :=
         Js.Buffer_from_array [tag_value instructionType] in
       let transaction : Transaction :=
         [] ++ [ mkInstruction
                   (request_keys this walletPublicKey
                      userTokenAccount treasuryTokenAccount)
                   (programId this)
                   instructionData ] in
       signature ← awaitSend transaction [wallet];
       txInfo ← awaitTransaction signature;
       match txInfo ≫= meta with
       | None => throw (QrngError no_return_data)
       | Some meta =>
           match returnData meta with
           | None => throw (QrngError no_return_data)
           | Some rd =>
               if data_is_falsy (rd_data rd)
               then throw (QrngError no_return_data)
               else mret (Buffer_from_base64 (rd_data rd))
           end
       end)
    (fun error =>
       match error with
       | QrngError _ => throw error
       | Foreign e =>
           throw (QrngError ("Error generating random number: "
                             +:+ message_or_text e))
       end).

(** [async generateRandomU64(wallet)]. *)
Definition generateRandomU64 (this : QrngClient) (wallet : Signer)
  : Async Z :=
  result ← generateRandom this wallet GENERATE_RANDOM_U64;
  if (length result <? 8)%nat then throw (QrngError invalid_return_data)
  else
    match Js.readBigUInt64LE result 0 with
    | Some v => mret v
    | None => throw (Foreign out_of_bounds)
    end.

(** [async generateRandomDouble(wallet)]. *)
Definition generateRandomDouble (this : QrngClient) (wallet : Signer)
  : Async float :=
  result ← generateRandom this wallet GENERATE_RANDOM_DOUBLE;
  if (length result <? 8)%nat then throw (QrngError invalid_return_data)
  else
    match Js.readDoubleLE result 0 with
    | Some v => mret v
    | None => throw (Foreign out_of_bounds)
    end.

(** [async generateRandomBoolean(wallet)]: [result[0] === 1]. *)
Definition generateRandomBoolean (this : QrngClient) (wallet : Signer)
  : Async bool :=
  result ← generateRandom this wallet GENERATE_RANDOM_BOOLEAN;
  if (length result <? 1)%nat then throw (QrngError invalid_return_data)
  else mret (bool_decide (Js.index result 0 = Some 1)).

(** [async getTokenBalance(walletPublicKey)]. *)
Definition getTokenBalance (this : QrngClient) (walletPublicKey : PublicKey)
  : Async float :=
  try_catch
    (tokenAccount ←
       awaitTokenAccount (mkSigner walletPublicKey None) (tokenMint this)
         walletPublicKey true;
     balance ← awaitBalance (address tokenAccount);
     mret (Js.or_zero (uiAmount balance)))
    (fun error => mret 0%float).

End WithHost.

(** Unfolding the [async] plumbing down to the host's calls. *)
Ltac unfold_client :=
  unfold generateRandom, getTokenBalance, try_catch, awaitTokenAccount,
    awaitBalance, awaitSend, awaitTransaction, await, throw, mbind, mret,
    Async_bind, Async_ret, andThen, resolve.

End Client.

(** ** docs/technical/mainnet-integration.md and the README's parameters *)

Module Integration.

(** README.md, Solana Integration Details: [Token Decimals: 9]. *)
Definition TOKEN_DECIMALS : Z := 9.

(** The base units of [1.0] token for a mint with [d] decimal places. *)
Definition one_token (d : Z) : Z := 10 ^ d.

(** The [uiAmount] the cluster reports for [amount] base units of a mint
    with [d] decimal places. *)
Definition ui_amount (amount d : Z) : float :=
  (Js.Number_of_bigint amount / Js.Number_of_bigint (10 ^ d))%float.

(** What [getRandomNumber] returns for the decoded return data; [None]
    is the fall-through to its final [throw]. *)
Inductive Extracted : Type :=
| randomU64 (v : float)
| randomDouble (v : float)
| randomBoolean (b : bool).

Definition extract (data : Js.Buffer) : option Extracted :=
  if (8 <=? length data)%nat then
    (fun big => randomU64 (Js.Number_of_bigint big)) <$> Js.readBigUInt64LE data 0
  else if (8 <=? length data)%nat then
    randomDouble <$> Js.readDoubleLE data 0
  else if (1 <=? length data)%nat then
    Some (randomBoolean (bool_decide (Js.index data 0 = Some 1)))
  else None.

(** The balance gate at the head of [main]: [tokenBalance] is the
    account's [amount] in base units. *)
Inductive MainStep : Type :=
| NotEnoughTokens
| RequestsRandomNumber.

Definition main_gate (tokenBalance : Z) : MainStep :=
  if (Js.Number_of_bigint tokenBalance <? 1000000)%float
  then NotEnoughTokens
  else RequestsRandomNumber.

End Integration.

(** ** The on-chain program, as the specification describes it *)

Module Program.
Import Web3 Types.

(** Modelled from the spec: the address of an account of the host platform,
    by its text. *)
Definition Address : Type := string.

(** Modelled from the spec: the Config singleton of the on-chain program
    (section 3); the program itself is not part of the repository, only
    its client bindings are. *)
Record Config : Type := mkConfig {
  treasury_token_account : Address;
  token_mint : Address;
  price_per_request : Z
}.

(** Modelled from the spec: a token account of the host platform, reduced
    to the mint it belongs to and its balance in base units. *)
Record TokenAccount : Type := mkToken {
  mint : Address;
  balance : Z
}.

(** Modelled from the spec: the persistent state an invocation can
    observe or change, the Config singleton and the token ledger. *)
Record Chain : Type := mkChain {
  config : option Config;
  tokens : gmap Address TokenAccount
}.

(** Modelled from the spec: one Request (section 3), with the chain state
    it samples: the clock sysvar's content when it is readable, and the
    requester's transaction signature. *)
Record Invocation : Type := mkInvocation {
  instruction_data : list byte;
  accounts : list AccountMeta;
  clock : option Z;
  signature : list byte
}.

(** Modelled from the spec: the error taxonomy of section 7. *)
Inductive ProgramError : Type :=
| UnknownTag
| BadAccounts
| AlreadyInitialized
| NotInitialized
| TreasuryMismatch
| MintMismatch
| InsufficientBalance
| EntropyUnavailable.

(** Modelled from the spec: what the specification leaves to the
    deployment. The address of the config PDA, the Config written by
    INITIALIZE_PROGRAM, the mixing function of section 4.1 (an open
    question of section 9), the double formatter and the designated bit
    of section 4.2. *)
Class Deployment : Type := {
  config_address : Address;
  initial_config : Config;
  mix : Z -> list byte -> Z;
  format_double : Z -> list byte;
  designated_bit : Z
}.

(** Modelled from the spec: the execution of one instruction threads the
    chain state and may fail; what a failure leaves behind is discarded
    by [invoke] below. *)
Definition Exec (A : Type) : Type := Chain -> (ProgramError + A) * Chain.

(** Modelled from the spec: an instruction that ends with a value, one that
    fails, and the sequencing of two steps, a failure ending the
    instruction at once (the fail-fast order of section 4.4). *)
Definition done_with {A} (a : A) : Exec A := fun c => (inr a, c).
Definition fail {A} (e : ProgramError) : Exec A := fun c => (inl e, c).
Definition and_then {A B} (k : A -> Exec B) (m : Exec A) : Exec B :=
  fun c =>
    match m c with
    | (inl e, c') => (inl e, c')
    | (inr a, c') => k a c'
    end.
(** Modelled from the spec: reading the chain, writing the token ledger,
    writing Config, and a validation step. *)
Definition read_chain : Exec Chain := fun c => (inr c, c).
Definition write_tokens (m : gmap Address TokenAccount) : Exec unit :=
  fun c => (inr tt, mkChain (config c) m).
Definition write_config (cfg : Config) : Exec unit :=
  fun c => (inr tt, mkChain (Some cfg) (tokens c)).
Definition require (b : bool) (e : ProgramError) : Exec unit :=
  if b then done_with tt else fail e.

#[export] Instance Exec_ret : MRet Exec := @done_with.
#[export] Instance Exec_bind : MBind Exec := @and_then.

(** Modelled from the spec: the wire format of section 6, a payload of
    exactly one byte holding one of the four tag values. *)
Definition decode_tag (payload : list byte) : option QrngInstructionType :=
  match payload with
  | [b] =>
      match Js.byte_val b with
      | 0 => Some INITIALIZE_PROGRAM
      | 1 => Some GENERATE_RANDOM_U64
      | 2 => Some GENERATE_RANDOM_DOUBLE
      | 3 => Some GENERATE_RANDOM_BOOLEAN
      | _ => None
      end
  | _ => None
  end.

(** Modelled from the spec: the three GENERATE_* tags. *)
Definition is_generate (t : QrngInstructionType) : bool :=
  match t with INITIALIZE_PROGRAM => false | _ => true end.

(** Modelled from the spec: the little-endian wire form of an EntropyWord
    (section 4.2, GENERATE_RANDOM_U64). *)
Definition u64_to_le_bytes (W : Z) : list byte :=
  (fun i : nat => Js.byte_of_Z (Z.shiftr W (8 * Z.of_nat i))) <$> seq 0 8.

(** Modelled from the spec: the debit half of [debit_and_credit] (section
    4.3). *)
Definition debit (a : Address) (p : Z) (m : gmap Address TokenAccount)
  : gmap Address TokenAccount :=
  match m !! a with
  | Some t => <[a := mkToken (mint t) (balance t - p)]> m
  | None => m
  end.

(** Modelled from the spec: the credit half of [debit_and_credit]. *)
Definition credit (a : Address) (p : Z) (m : gmap Address TokenAccount)
  : gmap Address TokenAccount :=
  match m !! a with
  | Some t => <[a := mkToken (mint t) (balance t + p)]> m
  | None => m
  end.


(** Modelled from the spec: the balance of a token account, 0 for an
    account the ledger does not hold. *)
Definition balance_of (m : gmap Address TokenAccount) (a : Address) : Z :=
  from_option balance 0 (m !! a).

Section WithDeployment.
Context {dep : Deployment}.

(** Modelled from the spec: step 2 of the validation order of section
    4.4 for a GENERATE_* request, the positional schema of section 6
    and the match against Config. *)
Definition validate_generate (inv : Invocation)
  : Exec (Address * Address * Config) :=
  c ← read_chain;
  match accounts inv with
  | [requester; rta; tta; tokprog; cfgacc; clk] =>
      require (isSigner requester && isWritable requester
               && isWritable rta && isWritable tta
               && negb (isWritable cfgacc) && negb (isWritable clk))
              BadAccounts;;
      require (bool_decide (pubkey tokprog = TOKEN_PROGRAM_ID)
               && bool_decide (pubkey cfgacc = config_address)
               && bool_decide (pubkey clk = SYSVAR_CLOCK_PUBKEY))
              BadAccounts;;
      match config c with
      | None => fail NotInitialized
      | Some cfg =>
          require (bool_decide (pubkey tta = treasury_token_account cfg))
                  TreasuryMismatch;;
          require (bool_decide (mint <$> tokens c !! pubkey rta
                                = Some (token_mint cfg))
                   && bool_decide (mint <$> tokens c !! pubkey tta
                                   = Some (token_mint cfg)))
                  MintMismatch;;
          mret (pubkey rta, pubkey tta, cfg)
      end
  | _ => fail BadAccounts
  end.

(** Modelled from the spec: RequestLedger's [debit_and_credit] (section
    4.3): the balance precondition, then the debit, then the credit. *)
Definition debit_and_credit (rta tta : Address) (price : Z) : Exec unit :=
  c ← read_chain;
  require (bool_decide (price <= balance_of (tokens c) rta))
          InsufficientBalance;;
  write_tokens (debit rta price (tokens c));;
  c' ← read_chain;
  write_tokens (credit tta price (tokens c')).

(** Modelled from the spec: EntropyMixer (section 4.1); it fails when a
    chain-state source is unavailable, and yields one 64-bit word. *)
Definition entropy_word (inv : Invocation) : Exec Z :=
  match clock inv with
  | Some t => mret (mix t (signature inv) mod 2 ^ 64)
  | None => fail EntropyUnavailable
  end.

(** Modelled from the spec: OutputFormatter (section 4.2). *)
Definition format (t : QrngInstructionType) (W : Z) : list byte :=
  match t with
  | INITIALIZE_PROGRAM => []
  | GENERATE_RANDOM_U64 => u64_to_le_bytes W
  | GENERATE_RANDOM_DOUBLE => format_double W
  | GENERATE_RANDOM_BOOLEAN =>
      [Js.byte_of_Z (Z.b2z (Z.testbit W designated_bit))]
  end.

(** Modelled from the spec: INITIALIZE_PROGRAM (sections 4.4, 6, 7):
    initializer signs, the config PDA is writable, and an existing
    Config rejects the call. *)
Definition initialize (inv : Invocation) : Exec (list byte) :=
  c ← read_chain;
  match accounts inv with
  | [initializer; cfgacc] =>
      require (isSigner initializer && isWritable cfgacc
               && bool_decide (pubkey cfgacc = config_address))
              BadAccounts;;
      match config c with
      | Some _ => fail AlreadyInitialized
      | None => write_config initial_config;; mret []
      end
  | _ => fail BadAccounts
  end.

(** Modelled from the spec: ProgramDispatcher (sections 2 and 4.4):
    decode the tag; validate the accounts; for GENERATE_* pay, then
    mix, then format; the bytes returned are the return data. *)
Definition process_instruction (inv : Invocation) : Exec (list byte) :=
  match decode_tag (instruction_data inv) with
  | None => fail UnknownTag
  | Some INITIALIZE_PROGRAM => initialize inv
  | Some t =>
      '(rta, tta, cfg) ← validate_generate inv;
      debit_and_credit rta tta (price_per_request cfg);;
      W ← entropy_word inv;
      mret (format t W)
  end.

(** Modelled from the spec: the host platform's invocation (sections 5
    and 9): a failed instruction is rolled back whole, a successful one
    commits its state and surfaces its return data. *)
Definition invoke (c : Chain) (inv : Invocation)
  : Chain * (ProgramError + list byte) :=
  match process_instruction inv c with
  | (inl e, _) => (c, inl e)
  | (inr out, c') => (c', inr out)
  end.

(** Modelled from the spec: the chain after a sequence of invocations, each
    run to completion before the next (section 5). *)
Definition invoke_all (c : Chain) (invs : list Invocation) : Chain :=
  foldl (fun c inv => fst (invoke c inv)) c invs.

End WithDeployment.

(** Unfolding the steps of an instruction down to functions of the chain. *)
Ltac unfold_exec :=
  unfold require, mbind, mret, Exec_bind, Exec_ret, and_then, done_with,
    fail, read_chain, write_tokens, write_config.

End Program.

(** ** A small cluster to run the definitions on *)

Module Demo.
Import Web3 Types.

(** The value of a character of the base64 alphabet. *)
Definition b64_value (c : ascii) : option Z :=
  let n := Z.of_N (N_of_ascii c) in
  if (65 <=? n) && (n <=? 90) then Some (n - 65)
  else if (97 <=? n) && (n <=? 122) then Some (n - 71)
  else if (48 <=? n) && (n <=? 57) then Some (n + 4)
  else if n =? 43 then Some 62
  else if n =? 47 then Some 63
  else None.

(** A base64 decoder: six bits per alphabet character, characters outside
    the alphabet skipped, a byte emitted whenever eight bits are there. *)
Fixpoint b64_decode_from (s : string) (acc nbits : Z) : Js.Buffer :=
  match s with
  | EmptyString => []
  | String ch rest =>
      match b64_value ch with
      | None => b64_decode_from rest acc nbits
      | Some v =>
          let acc' := acc * 64 + v in
          let n' := nbits + 6 in
          if 8 <=? n' then
            Js.byte_of_Z (Z.shiftr acc' (n' - 8))
              :: b64_decode_from rest (acc' mod 2 ^ (n' - 8)) (n' - 8)
          else b64_decode_from rest acc' n'
      end
  end.

Definition b64_decode (s : string) : Js.Buffer := b64_decode_from s 0 0.

(** [Number(text)] for the texts the clusters below serve: the empty text
    is 0, a run of decimal digits is that number, and any other text is
    taken not to be a numeral ([NaN]); signs, fractions, exponents, radix
    prefixes and white space are not served. *)
Fixpoint digits_value (s : string) (acc : Z) : option Z :=
  match s with
  | EmptyString => Some acc
  | String ch rest =>
      let n := Z.of_N (N_of_ascii ch) in
      if (48 <=? n) && (n <=? 57) then digits_value rest (acc * 10 + (n - 48))
      else None
  end.

Definition number_of_text (s : string) : float :=
  match digits_value s 0 with
  | Some v => Js.Number_of_bigint v
  | None => nan
  end.

(** A cluster that answers every call: the requester holds [user_amount]
    base units of a nine-decimal mint, and every transaction returns
    [return_b64]. *)
Record Canned : Type := mkCanned {
  user_amount : Z;
  return_b64 : string
}.

Definition host (k : Canned) : Host := {|
  world := unit;
  getOrCreateAssociatedTokenAccount := fun _ _ owner _ w =>
    (inr (mkTokenAccount ("ata:" +:+ owner)), w);
  getTokenAccountBalance := fun _ w =>
    (inr (mkTokenAmount (user_amount k) Integration.TOKEN_DECIMALS
            (Some (Integration.ui_amount (user_amount k)
                     Integration.TOKEN_DECIMALS))), w);
  sendAndConfirmTransaction := fun _ _ w => (inr "5igNature"%string, w);
  getTransaction := fun _ w =>
    (inr (Some (mkTxInfo (Some (mkMeta (Some (mkReturnData
                                                (DataString (return_b64 k)))))))), w);
  findProgramAddressSync := fun _ pid => ("pda:" +:+ pid, 255);
  base64_decode := b64_decode;
  number_to_string := fun x =>
    if (x =? 0)%float then "0"%string else "0.001"%string;
  string_to_number := number_of_text
|}.

Definition wallet : Signer := mkSigner "WaLLet" (Some [x01; x02; x03]).

Definition options : QrngClientOptions := mkOptions None None None.

(** The client of a canned cluster, and a fresh session on it. *)
Definition client (k : Canned) : Client.QrngClient :=
  @Client.new_QrngClient (host k) options.

Definition fresh (k : Canned) : @Client.Session (host k) :=
  @Client.mkSession (host k) tt [].

(** A deployment of the on-chain program: one token costs [10 ^ 9] base
    units, and the mixer is a multiply-add over its two sources. *)
Definition deployment : Program.Deployment := {|
  Program.config_address := "pda:cfg";
  Program.initial_config := Program.mkConfig "treasury-ta" "mint" (10 ^ 9);
  Program.mix := fun t sig =>
    t * 6364136223846793005 + Z.of_nat (length sig) + 1442695040888963407;
  Program.format_double := fun W =>
    Program.u64_to_le_bytes (Z.lor (Z.shiftl 1023 52) (Z.shiftr W 12));
  Program.designated_bit := 63
|}.

Definition ledger (requester_balance : Z)
  : gmap Program.Address Program.TokenAccount :=
  <["user-ta" := Program.mkToken "mint" requester_balance]>
    (<["treasury-ta" := Program.mkToken "mint" 5]> ∅).

Definition chain (requester_balance : Z) : Program.Chain :=
  Program.mkChain (Some (Program.initial_config (Deployment := deployment)))
                  (ledger requester_balance).

Definition generate_accounts : list AccountMeta :=
  [ mkAccountMeta "WaLLet" true true;
    mkAccountMeta "user-ta" false true;
    mkAccountMeta "treasury-ta" false true;
    mkAccountMeta TOKEN_PROGRAM_ID false false;
    mkAccountMeta "pda:cfg" false false;
    mkAccountMeta SYSVAR_CLOCK_PUBKEY false false ].

Definition request (tag : byte) : Program.Invocation :=
  Program.mkInvocation [tag] generate_accounts (Some 42) [x0a; x0b].

Definition init_request : Program.Invocation :=
  Program.mkInvocation [x00]
    [ mkAccountMeta "WaLLet" true true; mkAccountMeta "pda:cfg" false true ]
    (Some 42) [x0a; x0b].

(** The request the SDK builds when the requester is the owner of the
    treasury: the treasury's token account is the requester's as well. *)
Definition treasury_accounts : list AccountMeta :=
  [ mkAccountMeta "TreaSury" true true;
    mkAccountMeta "treasury-ta" false true;
    mkAccountMeta "treasury-ta" false true;
    mkAccountMeta TOKEN_PROGRAM_ID false false;
    mkAccountMeta "pda:cfg" false false;
    mkAccountMeta SYSVAR_CLOCK_PUBKEY false false ].

Definition treasury_request (tag : byte) : Program.Invocation :=
  Program.mkInvocation [tag] treasury_accounts (Some 42) [x0a; x0b].

(** An initialized chain on which the treasury holds [treasury_balance]
    base units. *)
Definition treasury_chain (treasury_balance : Z) : Program.Chain :=
  Program.mkChain (Some (Program.initial_config (Deployment := deployment)))
                  (<["treasury-ta" := Program.mkToken "mint" treasury_balance]> ∅).

(** What a cluster has confirmed: the creation of a token account, paid
    by [payer], or a transaction it was sent. *)
Inductive Confirmed : Type :=
| AccountCreated (payer : Signer) (mint owner : PublicKey)
| TransactionProcessed (tx : Transaction) (signers : list Signer).

(** A cluster by the owners whose token account exists and the
    transactions confirmed so far. *)
Record Cluster : Type := mkCluster {
  holders : list PublicKey;
  confirmed : list Confirmed
}.

(** A cluster whose [getOrCreateAssociatedTokenAccount] does what its name
    says, and what docs/technical/mainnet-integration.md says of its
    payer ('Only for account creation if it doesn't exist'): an account
    that exists is returned as it is, one that does not is created first,
    by a transaction the payer pays for. A new account holds no token. *)
Definition creating : Host := {|
  world := Cluster;
  getOrCreateAssociatedTokenAccount := fun payer mint owner _ w =>
    (inr (mkTokenAccount ("ata:" +:+ owner)),
     if bool_decide (owner ∈ holders w) then w
     else mkCluster (owner :: holders w)
                    (confirmed w ++ [AccountCreated payer mint owner]));
  getTokenAccountBalance := fun _ w =>
    (inr (mkTokenAmount 0 Integration.TOKEN_DECIMALS (Some 0%float)), w);
  sendAndConfirmTransaction := fun tx signers w =>
    (inr "5igNature"%string,
     mkCluster (holders w) (confirmed w ++ [TransactionProcessed tx signers]));
  getTransaction := fun _ w => (inr None, w);
  findProgramAddressSync := fun _ pid => ("pda:" +:+ pid, 255);
  base64_decode := b64_decode;
  number_to_string := fun x =>
    if (x =? 0)%float then "0"%string else "0.001"%string;
  string_to_number := number_of_text
|}.

(** Canned clusters used to run the client: a funded requester whose
    transaction returns one byte [0x02], no byte at all, or the eight bytes
    [01 02 .. 08]; and a requester holding [10 ^ 6] base units. *)
Definition one_byte : Canned := mkCanned (10 ^ 9) "Ag==".
Definition no_byte : Canned := mkCanned (10 ^ 9) "=".
Definition eight_bytes : Canned := mkCanned (10 ^ 9) "AQIDBAUGBwg=".
Definition small_holder : Canned := mkCanned (10 ^ 6) "AQIDBAUGBwg=".

Definition run_generateRandom (k : Canned) (t : QrngInstructionType) :=
  Client.generateRandom (host := host k) (client k) wallet t
    (fresh k).
Definition run_generateRandomU64 (k : Canned) :=
  Client.generateRandomU64 (host := host k) (client k) wallet
    (fresh k).
Definition run_generateRandomDouble (k : Canned) :=
  Client.generateRandomDouble (host := host k) (client k) wallet
    (fresh k).
Definition run_generateRandomBoolean (k : Canned) :=
  Client.generateRandomBoolean (host := host k) (client k) wallet
    (fresh k).

End Demo.


(** ** Reading the log of remote calls *)

Module Trace.
Import Web3 Types Client.

(** How many of the calls are submissions of a transaction. *)
Definition submissions (evs : list Event) : nat :=
  length (List.filter is_submission evs).

(** The five remote calls of one complete [generateRandom], in order. *)
Definition request_calls (this : QrngClient) (wallet : Signer)
    (t : QrngInstructionType) (userTokenAccount treasuryTokenAccount : TokenAccount)
    (signature : Signature) : list Event :=
  [ CallGetOrCreateAssociatedTokenAccount wallet (tokenMint this)
      (publicKey wallet) false;
    CallGetOrCreateAssociatedTokenAccount wallet (tokenMint this)
      (treasuryAddress this) true;
    CallGetTokenAccountBalance (address userTokenAccount);
    CallSendAndConfirmTransaction
      [ mkInstruction
          (request_keys this (publicKey wallet) userTokenAccount
             treasuryTokenAccount)
          (programId this) (Js.Buffer_from_array [tag_value t]) ]
      [wallet];
    CallGetTransaction signature ].

(** The return data [generateRandom] finds in a fetched transaction: the
    chain [txInfo?.meta], [meta.returnData], [meta.returnData.data], each
    link possibly missing, an empty string counting as missing. *)
Definition return_data_of (txInfo : option TxInfo) : option ReturnDataBytes :=
  m ← txInfo ≫= meta;
  rd ← returnData m;
  if data_is_falsy (rd_data rd) then None else Some (rd_data rd).

End Trace.

(** ** A scripted cluster *)

Module Scripted.
Import Web3.

(** What the cluster answers: one answer per kind of call, and for
    [getTransaction] a queue of answers served in order (then [null]). *)
Record Script : Type := mkScript {
  user_account : HostError + TokenAccount;
  treasury_account : HostError + TokenAccount;
  balance : HostError + TokenAmount;
  confirmation : HostError + Signature
}.

Definition host (k : Script) : Host := {|
  world := list (HostError + option TxInfo);
  getOrCreateAssociatedTokenAccount := fun _ _ _ allowOwnerOffCurve w =>
    (if allowOwnerOffCurve then treasury_account k else user_account k, w);
  getTokenAccountBalance := fun _ w => (balance k, w);
  sendAndConfirmTransaction := fun _ _ w => (confirmation k, w);
  getTransaction := fun _ w =>
    match w with
    | [] => (inr None, [])
    | r :: w' => (r, w')
    end;
  findProgramAddressSync := fun _ pid => ("pda:" +:+ pid, 255);
  base64_decode := Demo.b64_decode;
  number_to_string := fun _ => "0"%string;
  string_to_number := Demo.number_of_text
|}.

(** A transaction info carrying the base64 return data [s]. *)
Definition returning (s : string) : HostError + option TxInfo :=
  inr (Some (mkTxInfo (Some (mkMeta (Some (mkReturnData (DataString s))))))).

(** A transaction info carrying its return data the way web3.js types it:
    the pair of the base64 text and the name of the encoding. *)
Definition returning_pair (s : string) : HostError + option TxInfo :=
  inr (Some (mkTxInfo
               (Some (mkMeta (Some (mkReturnData (DataArray [s; "base64"%string]))))))).

Definition funded : HostError + TokenAmount :=
  inr (mkTokenAmount (5 * 10 ^ 9) 9 (Some 5%float)).

(** Every call succeeds. *)
Definition healthy : Script :=
  mkScript (inr (mkTokenAccount "user-ata")) (inr (mkTokenAccount "treasury-ata"))
           funded (inr "5igNature"%string).

(** The connection drops on submission. *)
Definition timeout : HostError :=
  mkHostError "Transaction was not confirmed" "Error: Transaction was not confirmed".

Definition unconfirmed : Script :=
  mkScript (inr (mkTokenAccount "user-ata")) (inr (mkTokenAccount "treasury-ata"))
           funded (inl timeout).

(** The token-account lookup fails, with an empty message. *)
Definition no_account : Script :=
  mkScript (inl (mkHostError "" "TokenAccountNotFoundError"))
           (inr (mkTokenAccount "treasury-ata")) funded (inr "5igNature"%string).

Definition client (k : Script) : Client.QrngClient :=
  @Client.new_QrngClient (host k) (Types.mkOptions None None None).

Definition session (k : Script) (answers : list (HostError + option TxInfo))
  : @Client.Session (host k) :=
  @Client.mkSession (host k) answers [].

(** Return data of eight bytes: the little-endian u64 values 5, 1 and
    [0x0807060504030201], and the double 0.5. *)
Definition five : HostError + option TxInfo := returning "BQAAAAAAAAA=".
Definition one : HostError + option TxInfo := returning "AQAAAAAAAAA=".
Definition a_half : HostError + option TxInfo := returning "AAAAAAAA4D8=".

End Scripted.


(** ** More of JavaScript's arithmetic *)

Module JsNum.

(** The number with integer value [z]; [negative_zero] is the sign given to
    a zero. *)
Definition of_Z (z : Z) (negative_zero : bool) : float :=
  SF2Prim (binary_normalize prec emax z 0 negative_zero).

(** [Math.floor(x)]: NaN, the infinities and the zeros are kept. *)
Definition Math_floor (x : float) : float :=
  match Prim2SF x with
  | S754_finite s m e =>
      if 0 <=? e then x
      else
        let d := 2 ^ (- e) in
        let q := Z.pos m / d in
        let exact := Z.pos m mod d =? 0 in
        if s then of_Z (- (if exact then q else q + 1)) true
        else of_Z q false
  | _ => x
  end.



(** [BigInt(x)] for a number: its value when [x] is an integer, a
    RangeError ([None]) otherwise (fractions, NaN, infinities). *)
Definition BigInt (x : float) : option Z :=
  match Prim2SF x with
  | S754_zero _ => Some 0
  | S754_finite s m e =>
      let magnitude :=
        if 0 <=? e then Some (Z.pos m * 2 ^ e)
        else if Z.pos m mod 2 ^ (- e) =? 0 then Some (Z.pos m / 2 ^ (- e))
        else None in
      (fun v => if s then - v else v) <$> magnitude
  | _ => None
  end.

(** [a % b] on bigints: the remainder has the sign of [a]; a zero divisor
    is a RangeError ([None]). *)
Definition rem (a b : Z) : option Z :=
  if b =? 0 then None else Some (Z.rem a b).

(** [array[i]] for a bigint-derived index: [undefined] out of range. *)
Definition at_index {A} (l : list A) (i : Z) : option A :=
  if i <? 0 then None else l !! Z.to_nat i.

(** [array.splice(i, 1)] on a copy: the array without its element [i]. *)
Definition splice_one {A} (l : list A) (i : Z) : list A :=
  if i <? 0 then l else delete (Z.to_nat i) l.

End JsNum.

(** ** The integration guides *)

Module Guide.
Import Web3 Types Client.

(** docs/technical/INTEGRATION_GUIDE.md, Extracting Multiple Values: the
    eight 8-bit values taken from one 64-bit number. *)
Definition byte_values (randomU64 : Z) : list float :=
  (fun i : nat =>
     Js.Number_of_bigint (Z.land (Z.shiftr randomU64 (Z.of_nat i * 8)) 255))
    <$> seq 0 8.

(** docs/technical/mainnet-integration.md, step 3 and 4. *)
Definition PROGRAM_ID : PublicKey :=
  "F7E268Uek6YJvYCNaeamnxLy1umzPPTfrK2TiATxffQg"%string.
Definition TSOTCHKE_TOKEN_MINT : PublicKey :=
  "4mbdysBik3jmzD7mt6FGPDsMxnYcxExSQRFjPucdpump"%string.
Definition TREASURY_ADDRESS : PublicKey :=
  "3vuKcjqows8T19z7amN2XMkSdVcicqBuf5vVa8ZjaVfc"%string.

Definition GENERATE_RANDOM_U64 : Z := 1.
Definition GENERATE_RANDOM_DOUBLE : Z := 2.
Definition GENERATE_RANDOM_BOOLEAN : Z := 3.

(** [meta.returnData] as [getRandomNumber] looks at it: an array (of
    strings), or some other object. *)
Inductive ReturnDataValue : Type :=
| AnArray (elements : list string)
| AnObject (fields : ReturnData).

Section WithHost.
Context {host : Host}.

(** [requestRandomNumber()]; [payer] and the two token accounts are the
    module-level constants of step 3, [setComputeUnitLimit] is
    [ComputeBudgetProgram.setComputeUnitLimit] applied to [{ units }]. *)
Definition requestRandomNumber
    (setComputeUnitLimit : Z -> TransactionInstruction)
    (payer : Signer) (userTokenAccount treasuryTokenAccount : TokenAccount)
  : Async Signature :=
  let configAddress :=
    fst (findProgramAddressSync
           [Js.Buffer_from_string "token_qrng_config"] PROGRAM_ID) in
  let instructionData := Js.Buffer_from_array [GENERATE_RANDOM_U64] in
  let computeBudgetIx := setComputeUnitLimit 200000 in
  let SYSVAR_CLOCK_PUBKEY : PublicKey :=
    "SysvarC1ock11111111111111111111111111111111"%string in
  let transaction : Transaction :=
    ([] ++ [computeBudgetIx])
      ++ [ mkInstruction
             [ mkAccountMeta (publicKey payer) true true;
               mkAccountMeta (address userTokenAccount) false true;
               mkAccountMeta (address treasuryTokenAccount) false true;
               mkAccountMeta TOKEN_PROGRAM_ID false false;
               mkAccountMeta configAddress false false;
               mkAccountMeta SYSVAR_CLOCK_PUBKEY false false ]
             PROGRAM_ID instructionData ] in
  signature ← awaitSend transaction [payer];
  mret signature.

(** [getRandomNumber(signature)] from [const meta = txInfo?.meta] on:
    [returnData] is [meta.returnData] when [meta] and it are there; [None]
    is the final [throw new Error('Failed to extract random number from
    transaction')]. *)
Definition read_return_data (returnData : option ReturnDataValue)
  : option Integration.Extracted :=
  match returnData with
  | Some rd =>
      let encoded :=
        match rd with AnArray l => default ""%string (l !! 0%nat) | _ => ""%string end in
      let encoding :=
        match rd with AnArray l => default ""%string (l !! 1%nat) | _ => ""%string end in
      if bool_decide (encoding = "base64"%string)
         && negb (bool_decide (encoded = ""%string))
      then Integration.extract (base64_decode encoded)
      else None
  | None => None
  end.

End WithHost.

End Guide.


(** ** The example applications built on the client *)

Module Errors.
Import Web3.

(** The errors JavaScript itself raises in the examples. *)
Definition RangeError (message : string) : HostError :=
  mkHostError message ("RangeError: " +:+ message).
Definition TypeError (message : string) : HostError :=
  mkHostError message ("TypeError: " +:+ message).

Definition not_an_integer : HostError :=
  RangeError "The number cannot be converted to a BigInt because it is not an integer".
Definition division_by_zero : HostError := RangeError "Division by zero".
Definition undefined_property : HostError :=
  TypeError "Cannot read properties of undefined".

End Errors.

(** *** examples/gamefi/gamefi-randomness.ts *)

Module GameFi.
Import Web3 Types Client Errors.

Inductive Rarity : Type := common | uncommon | rare | epic | legendary.

#[export] Instance Rarity_eq_dec : EqDecision Rarity.
Proof. solve_decision. Defined.

Record GameItem : Type := mkItem {
  id : Z;
  name : string;
  rarity : Rarity;
  power : Z
}.



Definition GAME_ITEMS : list GameItem :=
  [ mkItem 1 "Wooden Sword" common 5;
    mkItem 2 "Iron Dagger" common 8;
    mkItem 3 "Steel Axe" uncommon 15;
    mkItem 4 "Enchanted Bow" rare 25;
    mkItem 5 "Dragonbone Staff" epic 40;
    mkItem 6 "Excalibur" legendary 100;
    mkItem 7 "Leather Armor" common 3;
    mkItem 8 "Chain Mail" uncommon 12;
    mkItem 9 "Crystal Shield" rare 20;
    mkItem 10 "Phoenix Feather" epic 35 ].

(** [RARITY_CHANCES], chances out of 100. *)
Definition RARITY_CHANCES (r : Rarity) : float :=
  match r with
  | common => 60
  | uncommon => 25
  | rare => 10
  | epic => 4
  | legendary => 1
  end%float.

Record GameFiApp : Type := mkApp {
  qrngClient : QrngClient;
  gameWallet : Signer
}.


(** The rarity a roll falls in, by the chain of [roll <= ...] tests. *)
Definition rarity_of_roll (roll : float) : Rarity :=
  if (roll <=? RARITY_CHANCES legendary)%float then legendary
  else if (roll <=? RARITY_CHANCES legendary + RARITY_CHANCES epic)%float
  then epic
  else if (roll <=? RARITY_CHANCES legendary + RARITY_CHANCES epic
                    + RARITY_CHANCES rare)%float
  then rare
  else if (roll <=? RARITY_CHANCES legendary + RARITY_CHANCES epic
                    + RARITY_CHANCES rare + RARITY_CHANCES uncommon)%float
  then uncommon
  else common.

Section WithHost.
Context {host : Host}.

(** [constructor(connection, gameWallet)]. *)
Definition new_GameFiApp (gameWallet : Signer) : GameFiApp :=
  mkApp (new_QrngClient (mkOptions None None None)) gameWallet.


(** [async rollDice(sides)]: the request comes first, then
    [Number(randomNumber % BigInt(sides)) + 1]. *)
Definition rollDice (this : GameFiApp) (sides : float) : Async float :=
  randomNumber ← generateRandomU64 (qrngClient this) (gameWallet this);
  match JsNum.BigInt sides with
  | None => throw (Foreign not_an_integer)
  | Some n =>
      match JsNum.rem randomNumber n with
      | None => throw (Foreign division_by_zero)
      | Some r => mret (Js.Number_of_bigint r + 1)%float
      end
  end.

(** The body of the loop of [generateLootDrop], [n] iterations to go. *)
Fixpoint lootLoop (this : GameFiApp) (n : nat) (loot : list GameItem)
  : Async (list GameItem) :=
  match n with
  | O => mret loot
  | S n' =>
      rarityRoll ← generateRandomDouble (qrngClient this) (gameWallet this);
      let roll := (JsNum.Math_floor (rarityRoll * 100) + 1)%float in
      let rarity_rolled := rarity_of_roll roll in
      let possibleItems :=
        List.filter (fun item => bool_decide (rarity item = rarity_rolled))
                    GAME_ITEMS in
      itemRandom ← generateRandomU64 (qrngClient this) (gameWallet this);
      match JsNum.rem itemRandom (Z.of_nat (length possibleItems)) with
      | None => throw (Foreign division_by_zero)
      | Some index =>
          match JsNum.at_index possibleItems index with
          | None => throw (Foreign undefined_property)
          | Some selectedItem => lootLoop this n' (loot ++ [selectedItem])
          end
      end
  end.

(** [async generateLootDrop(count)], for an integer [count]. *)
Definition generateLootDrop (this : GameFiApp) (count : Z)
  : Async (list GameItem) :=
  lootLoop this (Z.to_nat count) [].

End WithHost.

End GameFi.

(** *** examples/nft/nft-trait-generator.ts *)

Module Nft.
Import Web3 Types Client Errors.

Record TraitOption : Type := mkOption {
  name : string;
  weight : float;
  rarity : float
}.

Record TraitCategory : Type := mkCategory {
  category_name : string;
  options : list TraitOption
}.

Record NFT : Type := mkNFT {
  id : Z;
  nft_name : string;
  traits : list (string * string);
  rarityScore : float
}.

Record NFTCollectionGenerator : Type := mkGenerator {
  qrngClient : QrngClient;
  creatorWallet : Signer
}.

Record Mint : Type := mkMint {
  nft : NFT;
  mintIndex : float;
  mintTransaction : string
}.

(** The loop of [selectRandomTrait]: the first option whose cumulative
    share reaches [randomValue]. *)
Fixpoint firstReached (randomValue totalWeight cumulativeWeight : float)
    (opts : list TraitOption) : option TraitOption :=
  match opts with
  | [] => None
  | option :: rest =>
      let cumulativeWeight := (cumulativeWeight + weight option)%float in
      if (randomValue <=? cumulativeWeight / totalWeight)%float
      then Some option
      else firstReached randomValue totalWeight cumulativeWeight rest
  end.

(** [findRarestNFT(nfts)]: [nfts.reduce(..., nfts[0])]; [None] is the
    [undefined] that reducing an empty array from [nfts[0]] returns. *)
Definition findRarestNFT (nfts : list NFT) : option NFT :=
  match nfts !! 0%nat with
  | None => None
  | Some first =>
      Some (foldl (fun rarest current =>
                     if (rarityScore rarest <? rarityScore current)%float
                     then current else rarest)
                  first nfts)
  end.

Section WithHost.
Context {host : Host}.

Definition new_NFTCollectionGenerator (creatorWallet : Signer)
  : NFTCollectionGenerator :=
  mkGenerator (new_QrngClient (mkOptions None None None)) creatorWallet.

(** [private async selectRandomTrait(category)]; [None] is [undefined]
    (the fallback [category.options[0]] of a category without options). *)
Definition selectRandomTrait (this : NFTCollectionGenerator)
    (category : TraitCategory) : Async (option TraitOption) :=
  randomValue ← generateRandomDouble (qrngClient this) (creatorWallet this);
  let totalWeight :=
    foldl (fun sum option => (sum + weight option)%float) 0%float
          (options category) in
  match firstReached randomValue totalWeight 0 (options category) with
  | Some option => mret (Some option)
  | None => mret (options category !! 0%nat)
  end.

(** [async getRandomMintIndex(maxIndex)]. *)
Definition getRandomMintIndex (this : NFTCollectionGenerator)
    (maxIndex : float) : Async float :=
  randomValue ← generateRandomU64 (qrngClient this) (creatorWallet this);
  match JsNum.BigInt maxIndex with
  | None => throw (Foreign not_an_integer)
  | Some n =>
      match JsNum.rem randomValue n with
      | None => throw (Foreign division_by_zero)
      | Some r => mret (Js.Number_of_bigint r)
      end
  end.

(** [async simulateMint(collection, userWallet)]; [mockTxId] is the
    simulated transaction id built from the clock and the wallet. *)
Definition simulateMint (this : NFTCollectionGenerator) (collection : list NFT)
    (userWallet : PublicKey) (mockTxId : string) : Async Mint :=
  mintIndex ←
    getRandomMintIndex this
      (Js.Number_of_bigint (Z.of_nat (length collection)));
  match JsNum.BigInt mintIndex ≫= JsNum.at_index collection with
  | None => throw (Foreign undefined_property)
  | Some nft => mret (mkMint nft mintIndex mockTxId)
  end.

End WithHost.

End Nft.

(** *** examples/defi/defi-fairness.ts *)

Module DeFi.
Import Web3 Types Client Errors.

Record Position : Type := mkPosition {
  id : string;
  borrower : PublicKey;
  collateralAmount : float;
  borrowedAmount : float;
  healthFactor : float;
  lastUpdated : float
}.

Record Feed : Type := mkFeed {
  provider : string;
  price : float
}.

Record OracleSample : Type := mkSample {
  sample_provider : string;
  sample_price : float;
  averagePrice : float
}.

Record RewardParticipant : Type := mkParticipant {
  wallet : PublicKey;
  stakedAmount : float;
  stakeDuration : float;
  weight : float
}.

Record Reward : Type := mkReward {
  recipient : PublicKey;
  amount : float
}.

Record DeFiProtocol : Type := mkProtocol {
  qrngClient : QrngClient;
  protocolWallet : Signer
}.

(** The inner loop of [distributeBonusYield]: the index [j] of the first
    participant at which the cumulative weight fraction reaches
    [randomValue]; [None] when [selectedIndex] stays [-1]. *)
Fixpoint firstReachedIndex (randomValue totalWeight cumulativeWeight : float)
    (j : nat) (participants : list RewardParticipant) : option nat :=
  match participants with
  | [] => None
  | participant :: rest =>
      let weightFraction := (weight participant / totalWeight)%float in
      let cumulativeWeight := (cumulativeWeight + weightFraction)%float in
      if (randomValue <=? cumulativeWeight)%float then Some j
      else firstReachedIndex randomValue totalWeight cumulativeWeight (S j) rest
  end.

Section WithHost.
Context {host : Host}.

Definition new_DeFiProtocol (protocolWallet : Signer) : DeFiProtocol :=
  mkProtocol (new_QrngClient (mkOptions None None None)) protocolWallet.

(** One draw without replacement, the step the selection loops share:
    a request, [Number(randomU64 % BigInt(remaining.length))], the element
    there (read for the log line), and [splice(randomIndex, 1)]. *)
Definition draw {A} (this : DeFiProtocol) (remaining : list A)
  : Async (A * list A) :=
  randomU64 ← generateRandomU64 (qrngClient this) (protocolWallet this);
  match JsNum.rem randomU64 (Z.of_nat (length remaining)) with
  | None => throw (Foreign division_by_zero)
  | Some randomIndex =>
      match JsNum.at_index remaining randomIndex with
      | None => throw (Foreign undefined_property)
      | Some selected =>
          mret (selected, JsNum.splice_one remaining randomIndex)
      end
  end.

(** The loop of [selectPositionsForLiquidation]:
    [i < maxLiquidations && remainingPositions.length > 0]. *)
Fixpoint liquidationLoop (this : DeFiProtocol) (n : nat)
    (remainingPositions selectedPositions : list Position)
  : Async (list Position) :=
  match n with
  | O => mret selectedPositions
  | S n' =>
      if (0 <? length remainingPositions)%nat then
        '(selectedPosition, rest) ← draw this remainingPositions;
        liquidationLoop this n' rest (selectedPositions ++ [selectedPosition])
      else mret selectedPositions
  end.

(** [async selectPositionsForLiquidation(allPositions, maxLiquidations)],
    for an integer [maxLiquidations]. *)
Definition selectPositionsForLiquidation (this : DeFiProtocol)
    (allPositions : list Position) (maxLiquidations : Z)
  : Async (list Position) :=
  let liquidatablePositions :=
    List.filter (fun position => (healthFactor position <? 1)%float)
                allPositions in
  if (length liquidatablePositions =? 0)%nat then mret []
  else if Z.of_nat (length liquidatablePositions) <=? maxLiquidations
  then mret liquidatablePositions
  else liquidationLoop this (Z.to_nat maxLiquidations)
         liquidatablePositions [].

(** The loop of [selectGovernanceCommittee] and of
    [getRandomOracleSample]: [i < actualSize]. *)
Fixpoint selectionLoop {A} (this : DeFiProtocol) (n : nat)
    (remaining selected : list A) : Async (list A) :=
  match n with
  | O => mret selected
  | S n' =>
      '(chosen, rest) ← draw this remaining;
      selectionLoop this n' rest (selected ++ [chosen])
  end.

(** [async selectGovernanceCommittee(allValidators, committeeSize,
    proposalId)], for an integer [committeeSize]. *)
Definition selectGovernanceCommittee (this : DeFiProtocol)
    (allValidators : list PublicKey) (committeeSize : Z) (proposalId : string)
  : Async (list PublicKey) :=
  let actualSize := Z.min committeeSize (Z.of_nat (length allValidators)) in
  selectionLoop this (Z.to_nat actualSize) allValidators [].

(** [async getRandomOracleSample(oracleFeeds, sampleSize)], for an integer
    [sampleSize]. *)
Definition getRandomOracleSample (this : DeFiProtocol)
    (oracleFeeds : list Feed) (sampleSize : Z) : Async OracleSample :=
  let actualSampleSize := Z.min sampleSize (Z.of_nat (length oracleFeeds)) in
  selectedFeeds ← selectionLoop this (Z.to_nat actualSampleSize) oracleFeeds [];
  let totalPrice :=
    foldl (fun sum feed => (sum + price feed)%float) 0%float selectedFeeds in
  let averagePrice :=
    (totalPrice / Js.Number_of_bigint (Z.of_nat (length selectedFeeds)))%float in
  match selectedFeeds !! 0%nat with
  | None => throw (Foreign undefined_property)
  | Some first => mret (mkSample (provider first) (price first) averagePrice)
  end.

(** The outer loop of [distributeBonusYield]:
    [i < numberOfRecipients && remainingParticipants.length > 0]. *)
Fixpoint bonusLoop (this : DeFiProtocol) (n : nat)
    (totalWeight bonusAmount : float)
    (remainingParticipants : list RewardParticipant)
    (selectedRecipients : list Reward) : Async (list Reward) :=
  match n with
  | O => mret selectedRecipients
  | S n' =>
      if (0 <? length remainingParticipants)%nat then
        randomValue ←
          generateRandomDouble (qrngClient this) (protocolWallet this);
        let selectedIndex :=
          match firstReachedIndex randomValue totalWeight 0 0
                  remainingParticipants with
          | Some j => j
          | None => (length remainingParticipants - 1)%nat
          end in
        match remainingParticipants !! selectedIndex with
        | None => throw (Foreign undefined_property)
        | Some selected =>
            bonusLoop this n' totalWeight bonusAmount
              (delete selectedIndex remainingParticipants)
              (selectedRecipients ++ [mkReward (wallet selected) bonusAmount])
        end
      else mret selectedRecipients
  end.

(** [async distributeBonusYield(participants, totalBonusAmount,
    numberOfRecipients)], for an integer [numberOfRecipients]. *)
Definition distributeBonusYield (this : DeFiProtocol)
    (participants : list RewardParticipant) (totalBonusAmount : float)
    (numberOfRecipients : Z) : Async (list Reward) :=
  let totalWeight :=
    foldl (fun sum p => (sum + weight p)%float) 0%float participants in
  bonusLoop this (Z.to_nat numberOfRecipients) totalWeight
    (totalBonusAmount / JsNum.of_Z numberOfRecipients false)%float
    participants [].

End WithHost.

End DeFi.


(** ** The examples on the scripted cluster *)

Module Scenario.
Import Web3 Scripted.

Definition game : GameFi.GameFiApp :=
  GameFi.new_GameFiApp (host := host healthy) Demo.wallet.

Definition generator : Nft.NFTCollectionGenerator :=
  Nft.new_NFTCollectionGenerator (host := host healthy) Demo.wallet.

Definition protocol : DeFi.DeFiProtocol :=
  DeFi.new_DeFiProtocol (host := host healthy) Demo.wallet.

Definition validators : list PublicKey := ["Val-A"; "Val-B"; "Val-C"]%string.

Definition positions : list DeFi.Position :=
  [ DeFi.mkPosition "pos1" "b1" 1000 800 1.25 0;
    DeFi.mkPosition "pos2" "b2" 500 600 0.75 0;
    DeFi.mkPosition "pos3" "b3" 1500 1700 0.5 0;
    DeFi.mkPosition "pos4" "b4" 2000 1900 0.875 0 ]%float.

Definition stakers : list DeFi.RewardParticipant :=
  [ DeFi.mkParticipant "staker-1" 1000 30 1;
    DeFi.mkParticipant "staker-2" 5000 90 2;
    DeFi.mkParticipant "staker-3" 500 180 1 ]%float.

Definition background : Nft.TraitCategory :=
  Nft.mkCategory "Background"
    [ Nft.mkOption "Blue Sky" 40 40;
      Nft.mkOption "Night Sky" 30 30;
      Nft.mkOption "Cyberpunk City" 15 15;
      Nft.mkOption "Cosmic Void" 10 10;
      Nft.mkOption "Golden Paradise" 5 5 ]%float.

End Scenario.

(** * Properties *)

(** Case analysis on the condition or the scrutinee the goal branches on,
    innermost condition first. *)
Ltac break_match :=
  match goal with
  | |- context [if ?b then _ else _] => destruct b eqn:?
  | |- context [match ?x with _ => _ end] => destruct x eqn:?
  end.

(** ** Octets and the 64-bit reads *)

Lemma byte_val_range (b : byte) : 0 <= Js.byte_val b < 256.
Proof.
  unfold Js.byte_val. pose proof (Byte.to_N_bounded b) as Hb. lia.
Qed.

Lemma byte_val_of_Z (z : Z) : Js.byte_val (Js.byte_of_Z z) = z mod 256.
Proof.
  unfold Js.byte_val, Js.byte_of_Z.
  assert (Hr : 0 <= z mod 256 < 256) by (apply Z.mod_pos_bound; lia).
  destruct (Byte.of_N (Z.to_N (z mod 256))) as [b|] eqn:E; simpl.
  - apply Byte.to_of_N in E. rewrite E. lia.
  - apply Byte.of_N_None_iff in E. lia.
Qed.

(** Reading back the eight little-endian bytes of a 64-bit word. *)
Lemma readBigUInt64LE_u64_to_le_bytes (W : Z) :
  0 <= W < 2 ^ 64 ->
  Js.readBigUInt64LE (Program.u64_to_le_bytes W) 0 = Some W.
Proof.
  intros HW.
  unfold Program.u64_to_le_bytes, Js.readBigUInt64LE, Js.index. simpl.
  rewrite !byte_val_of_Z. f_equal.
  rewrite !Z.shiftr_div_pow2, Z.shiftl_mul_pow2 by lia.
  change (2 ^ 0) with 1. rewrite Z.div_1_r.
  Z.div_mod_to_equations; lia.
Qed.

(** A read at offset 0 of a buffer of eight bytes or more is in bounds. *)
Lemma readBigUInt64LE_in_bounds (buf : Js.Buffer) :
  (8 <= length buf)%nat -> is_Some (Js.readBigUInt64LE buf 0).
Proof.
  intros Hlen.
  do 8 (destruct buf as [|? buf]; [simpl in Hlen; lia|]).
  unfold Js.readBigUInt64LE, Js.index. simpl. eauto.
Qed.

Lemma readDoubleLE_in_bounds (buf : Js.Buffer) :
  (8 <= length buf)%nat -> is_Some (Js.readDoubleLE buf 0).
Proof.
  intros Hlen. unfold Js.readDoubleLE.
  destruct (readBigUInt64LE_in_bounds buf Hlen) as [v ->]. simpl. eauto.
Qed.

(** The value read is a 64-bit unsigned integer. *)
Lemma readBigUInt64LE_range (buf : Js.Buffer) (v : Z) :
  Js.readBigUInt64LE buf 0 = Some v -> 0 <= v < 2 ^ 64.
Proof.
  unfold Js.readBigUInt64LE, Js.index. intros Hr.
  do 8 (destruct buf as [|? buf]; [simpl in Hr; discriminate|]).
  simpl in Hr. injection Hr as <-.
  rewrite Z.shiftl_mul_pow2 by lia.
  repeat match goal with
         | |- context [Js.byte_val ?b] =>
             let H := fresh in
             pose proof (byte_val_range b) as H;
             generalize dependent (Js.byte_val b); intros
         end.
  lia.
Qed.

(** ** The client's decoding methods *)

Section Decoding.
Context {host : Web3.Host}.
Import Web3 Types Client.

Variables (this : QrngClient) (wallet : Signer).

(** [generateRandom] rejects with a [QrngError] only: whatever a library
    call throws is wrapped by its [catch]. *)
Lemma generateRandom_wraps (t : QrngInstructionType) (s : Session) (e : HostError) :
  fst (generateRandom this wallet t s) <> inl (Foreign e).
Proof.
  unfold_client.
  repeat (break_match; simpl in *; try discriminate; simplify_eq).
Qed.

Lemma generateRandomU64_after (s s' : Session) (buf : Js.Buffer) :
  generateRandom this wallet GENERATE_RANDOM_U64 s = (inr buf, s') ->
  generateRandomU64 this wallet s =
    (if (length buf <? 8)%nat then inl (QrngError invalid_return_data)
     else match Js.readBigUInt64LE buf 0 with
          | Some v => inr v
          | None => inl (Foreign out_of_bounds)
          end, s').
Proof.
  intros Hg. unfold generateRandomU64, mbind, Async_bind, andThen.
  rewrite Hg. destruct (length buf <? 8)%nat; [reflexivity|].
  destruct (Js.readBigUInt64LE buf 0); reflexivity.
Qed.

Lemma generateRandomDouble_after (s s' : Session) (buf : Js.Buffer) :
  generateRandom this wallet GENERATE_RANDOM_DOUBLE s = (inr buf, s') ->
  generateRandomDouble this wallet s =
    (if (length buf <? 8)%nat then inl (QrngError invalid_return_data)
     else match Js.readDoubleLE buf 0 with
          | Some v => inr v
          | None => inl (Foreign out_of_bounds)
          end, s').
Proof.
  intros Hg. unfold generateRandomDouble, mbind, Async_bind, andThen.
  rewrite Hg. destruct (length buf <? 8)%nat; [reflexivity|].
  destruct (Js.readDoubleLE buf 0); reflexivity.
Qed.

Lemma generateRandomBoolean_after (s s' : Session) (buf : Js.Buffer) :
  generateRandom this wallet GENERATE_RANDOM_BOOLEAN s = (inr buf, s') ->
  generateRandomBoolean this wallet s =
    (if (length buf <? 1)%nat then inl (QrngError invalid_return_data)
     else inr (bool_decide (Js.index buf 0 = Some 1)), s').
Proof.
  intros Hg. unfold generateRandomBoolean, mbind, Async_bind, andThen.
  rewrite Hg. destruct (length buf <? 1)%nat; reflexivity.
Qed.

(** A rejection of [generateRandom] passes through each public method. *)
Lemma generateRandomU64_rejected (s s' : Session) (e : Thrown) :
  generateRandom this wallet GENERATE_RANDOM_U64 s = (inl e, s') ->
  generateRandomU64 this wallet s = (inl e, s').
Proof.
  intros Hg. unfold generateRandomU64, mbind, Async_bind, andThen.
  now rewrite Hg.
Qed.

Lemma generateRandomDouble_rejected (s s' : Session) (e : Thrown) :
  generateRandom this wallet GENERATE_RANDOM_DOUBLE s = (inl e, s') ->
  generateRandomDouble this wallet s = (inl e, s').
Proof.
  intros Hg. unfold generateRandomDouble, mbind, Async_bind, andThen.
  now rewrite Hg.
Qed.

Lemma generateRandomBoolean_rejected (s s' : Session) (e : Thrown) :
  generateRandom this wallet GENERATE_RANDOM_BOOLEAN s = (inl e, s') ->
  generateRandomBoolean this wallet s = (inl e, s').
Proof.
  intros Hg. unfold generateRandomBoolean, mbind, Async_bind, andThen.
  now rewrite Hg.
Qed.

(** What [generateRandomBoolean] makes of a non-empty buffer: [true] exactly
    when the first byte is 1. *)
Lemma generateRandomBoolean_first_byte (s s' : Session) (b : byte) (rest : Js.Buffer) :
  generateRandom this wallet GENERATE_RANDOM_BOOLEAN s = (inr (b :: rest), s') ->
  generateRandomBoolean this wallet s
  = (inr (bool_decide (Js.byte_val b = 1)), s').
Proof.
  intros Hg. rewrite (generateRandomBoolean_after _ _ _ Hg). simpl.
  do 2 f_equal. apply bool_decide_ext. unfold Js.index. simpl.
  split; [intros [= ->]; reflexivity | intros ->; reflexivity].
Qed.

End Decoding.

(** ** The request [generateRandom] builds *)

Section Requests.
Context {host : Web3.Host}.
Import Web3 Types Client.

Variables (this : QrngClient) (wallet : Signer) (t : QrngInstructionType).

(** The transaction [generateRandom] builds. *)
Lemma generateRandom_gate (w w1 w2 w3 : world) (l : list Event)
    (uta tta : TokenAccount) (bal : TokenAmount) :
  getOrCreateAssociatedTokenAccount wallet (tokenMint this)
    (publicKey wallet) false w = (inr uta, w1) ->
  getOrCreateAssociatedTokenAccount wallet (tokenMint this)
    (treasuryAddress this) true w1 = (inr tta, w2) ->
  getTokenAccountBalance (address uta) w2 = (inr bal, w3) ->
  let lookups :=
    [ CallGetOrCreateAssociatedTokenAccount wallet (tokenMint this)
        (publicKey wallet) false;
      CallGetOrCreateAssociatedTokenAccount wallet (tokenMint this)
        (treasuryAddress this) true;
      CallGetTokenAccountBalance (address uta) ] in
  let tx :=
    [ mkInstruction (request_keys this (publicKey wallet) uta tta)
        (programId this) (Js.Buffer_from_array [tag_value t]) ] in
  if (Js.or_zero (uiAmount bal) <? 1)%float then
    generateRandom this wallet t (mkSession w l)
    = (inl (QrngError
              ("Insufficient TSOTCHKE tokens. You have "
               +:+ number_to_string (Js.or_zero (uiAmount bal))
               +:+ " but need at least 1.0.")),
       mkSession w3 (l ++ lookups))
  else
    exists r w' rest,
      generateRandom this wallet t (mkSession w l)
      = (r, mkSession w'
              (l ++ lookups
                 ++ CallSendAndConfirmTransaction tx [wallet] :: rest))
      /\ Forall (fun ev => is_submission ev = false) rest.
Proof.
  intros E1 E2 E3 lookups tx.
  destruct (Js.or_zero (uiAmount bal) <? 1)%float eqn:Hlt.
  - unfold_client. simpl. rewrite E1. simpl. rewrite E2. simpl.
    rewrite E3. simpl. rewrite Hlt. simpl.
    rewrite <- !app_assoc. reflexivity.
  - unfold_client. simpl. rewrite E1. simpl. rewrite E2. simpl.
    rewrite E3. simpl. rewrite Hlt. simpl.
    destruct (sendAndConfirmTransaction _ _ w3) as [[e|sig] w4] eqn:E4; simpl.
    + eexists _, _, []. rewrite <- !app_assoc. simpl. split; [reflexivity|constructor].
    + destruct (getTransaction sig w4) as [[e|txInfo] w5] eqn:E5; simpl.
      * eexists _, _, [_]. rewrite <- !app_assoc. simpl. split; [reflexivity|].
        repeat constructor.
      * destruct txInfo as [[[m|]]|]; simpl;
          [destruct (returnData m) as [rd|]; simpl;
           [destruct (data_is_falsy (rd_data rd))|]| |];
          eexists _, _, [_]; rewrite <- !app_assoc; simpl;
          (split; [reflexivity | repeat constructor]).
Qed.

(** Whatever [generateRandom] submits went through the balance gate and
    is the request transaction, signed by the wallet. *)
Lemma generateRandom_submission (w : world)
    (tx : Transaction) (signers : list Signer) :
  In (CallSendAndConfirmTransaction tx signers)
     (calls (snd (generateRandom this wallet t (mkSession w [])))) ->
  exists uta w1 tta w2 bal w3,
    getOrCreateAssociatedTokenAccount wallet (tokenMint this)
      (publicKey wallet) false w = (inr uta, w1)
    /\ getOrCreateAssociatedTokenAccount wallet (tokenMint this)
         (treasuryAddress this) true w1 = (inr tta, w2)
    /\ getTokenAccountBalance (address uta) w2 = (inr bal, w3)
    /\ (Js.or_zero (uiAmount bal) <? 1)%float = false
    /\ tx = [ mkInstruction (request_keys this (publicKey wallet) uta tta)
                (programId this) (Js.Buffer_from_array [tag_value t]) ]
    /\ signers = [wallet].
Proof.
  intros Hin.
  destruct (getOrCreateAssociatedTokenAccount wallet (tokenMint this)
              (publicKey wallet) false w) as [[e|uta] w1] eqn:E1.
  { revert Hin. unfold_client. simpl. rewrite E1. simpl.
    intuition discriminate. }
  destruct (getOrCreateAssociatedTokenAccount wallet (tokenMint this)
              (treasuryAddress this) true w1) as [[e|tta] w2] eqn:E2.
  { revert Hin. unfold_client. simpl. rewrite E1. simpl. rewrite E2. simpl.
    intuition discriminate. }
  destruct (getTokenAccountBalance (address uta) w2) as [[e|bal] w3] eqn:E3.
  { revert Hin. unfold_client. simpl. rewrite E1. simpl. rewrite E2. simpl.
    rewrite E3. simpl. intuition discriminate. }
  pose proof (generateRandom_gate w w1 w2 w3 [] uta tta bal E1 E2 E3) as Hg.
  simpl in Hg.
  destruct (Js.or_zero (uiAmount bal) <? 1)%float eqn:Hlt.
  - rewrite Hg in Hin. simpl in Hin. intuition discriminate.
  - destruct Hg as (r & w' & rest & Hg & Hrest).
    rewrite Hg in Hin. simpl in Hin.
    destruct Hin as [H|[H|[H|[H|Hin]]]]; try discriminate.
    + injection H as <- <-. exists uta, w1, tta, w2, bal, w3. auto 10.
    + rewrite Forall_forall in Hrest. apply list_elem_of_In in Hin.
      apply Hrest in Hin. discriminate.
Qed.
End Requests.

(** ** Claims about the client's decoding *)

Section DecodingClaims.
Context {host : Web3.Host}.
Import Web3 Types Client.

(** C9. A return-data buffer shorter than the requested type's width makes
    the client method reject with the QrngError 'Invalid return data from
    QRNG service': fewer than 8 bytes for [generateRandomU64] and
    [generateRandomDouble], no byte for [generateRandomBoolean]. The
    buffer reads behind the length checks are never out of bounds: no
    method rejects with a library error. *)
Theorem short_return_data_is_rejected
    (this : QrngClient) (wallet : Signer) (s : Session) :
  (forall buf s',
      generateRandom this wallet GENERATE_RANDOM_U64 s = (inr buf, s') ->
      (length buf < 8)%nat ->
      generateRandomU64 this wallet s
      = (inl (QrngError "Invalid return data from QRNG service"), s'))
  /\ (forall buf s',
      generateRandom this wallet GENERATE_RANDOM_DOUBLE s = (inr buf, s') ->
      (length buf < 8)%nat ->
      generateRandomDouble this wallet s
      = (inl (QrngError "Invalid return data from QRNG service"), s'))
  /\ (forall buf s',
      generateRandom this wallet GENERATE_RANDOM_BOOLEAN s = (inr buf, s') ->
      (length buf < 1)%nat ->
      generateRandomBoolean this wallet s
      = (inl (QrngError "Invalid return data from QRNG service"), s'))
  /\ (forall e,
      fst (generateRandomU64 this wallet s) <> inl (Foreign e)
      /\ fst (generateRandomDouble this wallet s) <> inl (Foreign e)
      /\ fst (generateRandomBoolean this wallet s) <> inl (Foreign e)).
Proof.
  repeat split.
  - intros buf s' Hg Hlen. rewrite (generateRandomU64_after _ _ _ _ _ Hg).
    apply Nat.ltb_lt in Hlen. now rewrite Hlen.
  - intros buf s' Hg Hlen. rewrite (generateRandomDouble_after _ _ _ _ _ Hg).
    apply Nat.ltb_lt in Hlen. now rewrite Hlen.
  - intros buf s' Hg Hlen. rewrite (generateRandomBoolean_after _ _ _ _ _ Hg).
    apply Nat.ltb_lt in Hlen. now rewrite Hlen.
  - pose proof (generateRandom_wraps this wallet GENERATE_RANDOM_U64 s e) as Hw.
    destruct (generateRandom this wallet GENERATE_RANDOM_U64 s)
      as [[e'|buf] s'] eqn:Hg.
    + rewrite (generateRandomU64_rejected _ _ _ _ _ Hg). simpl in *.
      intros [= ->]. now apply Hw.
    + rewrite (generateRandomU64_after _ _ _ _ _ Hg). simpl.
      destruct (length buf <? 8)%nat eqn:Hlen; [discriminate|].
      apply Nat.ltb_ge in Hlen.
      destruct (readBigUInt64LE_in_bounds buf Hlen) as [v ->]. discriminate.
  - pose proof (generateRandom_wraps this wallet GENERATE_RANDOM_DOUBLE s e) as Hw.
    destruct (generateRandom this wallet GENERATE_RANDOM_DOUBLE s)
      as [[e'|buf] s'] eqn:Hg.
    + rewrite (generateRandomDouble_rejected _ _ _ _ _ Hg). simpl in *.
      intros [= ->]. now apply Hw.
    + rewrite (generateRandomDouble_after _ _ _ _ _ Hg). simpl.
      destruct (length buf <? 8)%nat eqn:Hlen; [discriminate|].
      apply Nat.ltb_ge in Hlen.
      destruct (readDoubleLE_in_bounds buf Hlen) as [v ->]. discriminate.
  - pose proof (generateRandom_wraps this wallet GENERATE_RANDOM_BOOLEAN s e) as Hw.
    destruct (generateRandom this wallet GENERATE_RANDOM_BOOLEAN s)
      as [[e'|buf] s'] eqn:Hg.
    + rewrite (generateRandomBoolean_rejected _ _ _ _ _ Hg). simpl in *.
      intros [= ->]. now apply Hw.
    + rewrite (generateRandomBoolean_after _ _ _ _ _ Hg). simpl.
      destruct (length buf <? 1)%nat; discriminate.
Qed.

(** C3. The GENERATE_RANDOM_U64 path is the identity through the wire:
    for every 64-bit word [W], the eight little-endian bytes of [W] read
    back with [readBigUInt64LE] at offset 0 give [W], and
    [generateRandomU64] resolves to [W] whenever the transaction returns
    those bytes. *)
Theorem u64_wire_roundtrip {dep : Program.Deployment}
    (this : QrngClient) (wallet : Signer) (s s' : Session) (W : Z) :
  0 <= W < 2 ^ 64 ->
  generateRandom this wallet GENERATE_RANDOM_U64 s
  = (inr (Program.format GENERATE_RANDOM_U64 W), s') ->
  length (Program.format GENERATE_RANDOM_U64 W) = 8%nat
  /\ Js.readBigUInt64LE (Program.format GENERATE_RANDOM_U64 W) 0 = Some W
  /\ generateRandomU64 this wallet s = (inr W, s').
Proof.
  intros HW Hg.
  change (Program.format GENERATE_RANDOM_U64 W)
    with (Program.u64_to_le_bytes W) in *.
  pose proof (readBigUInt64LE_u64_to_le_bytes W HW) as Hr.
  split; [reflexivity|]. split; [exact Hr|].
  rewrite (generateRandomU64_after _ _ _ _ _ Hg), Hr. reflexivity.
Qed.

(** C10. [getTokenBalance] never rejects: it resolves to 0 when the
    token-account lookup fails, when the balance lookup fails and when
    the reported [uiAmount] is absent (or falsy), and to the reported
    amount otherwise. *)
Theorem getTokenBalance_never_throws
    (this : QrngClient) (walletPublicKey : PublicKey) (s : Session) :
  fst (getTokenBalance this walletPublicKey s)
  = inr
      match
        getOrCreateAssociatedTokenAccount (mkSigner walletPublicKey None)
          (tokenMint this) walletPublicKey true (net s)
      with
      | (inl _, _) => 0%float
      | (inr tokenAccount, w) =>
          match getTokenAccountBalance (address tokenAccount) w with
          | (inl _, _) => 0%float
          | (inr balance, _) =>
              match uiAmount balance with
              | None => 0%float
              | Some v => if Js.falsy v then 0%float else v
              end
          end
      end.
Proof.
  unfold_client. simpl.
  destruct (getOrCreateAssociatedTokenAccount _ _ _ _ _) as [[e|ta] w];
    simpl; [reflexivity|].
  destruct (getTokenAccountBalance _ _) as [[e|bal] w']; reflexivity.
Qed.

End DecodingClaims.

Lemma short_return_data_is_rejected_witness :
  Demo.run_generateRandomU64 Demo.one_byte
  = (inl (Client.QrngError "Invalid return data from QRNG service"),
     snd (Demo.run_generateRandom Demo.one_byte Types.GENERATE_RANDOM_U64))
  /\ Demo.run_generateRandomDouble Demo.one_byte
     = (inl (Client.QrngError "Invalid return data from QRNG service"),
        snd (Demo.run_generateRandom Demo.one_byte Types.GENERATE_RANDOM_DOUBLE))
  /\ Demo.run_generateRandomBoolean Demo.no_byte
     = (inl (Client.QrngError "Invalid return data from QRNG service"),
        snd (Demo.run_generateRandom Demo.no_byte Types.GENERATE_RANDOM_BOOLEAN)).
Proof.
  pose proof (short_return_data_is_rejected (host := Demo.host Demo.one_byte)
                (Demo.client Demo.one_byte) Demo.wallet (Demo.fresh Demo.one_byte))
    as (HU & HD & _ & _).
  pose proof (short_return_data_is_rejected (host := Demo.host Demo.no_byte)
                (Demo.client Demo.no_byte) Demo.wallet (Demo.fresh Demo.no_byte))
    as (_ & _ & HB & _).
  split; [|split].
  - apply (HU [x02]); [reflexivity | simpl; lia].
  - apply (HD [x02]); [reflexivity | simpl; lia].
  - apply (HB []); [reflexivity | simpl; lia].
Defined.

Lemma u64_wire_roundtrip_witness :
  Demo.run_generateRandomU64 Demo.eight_bytes
  = (inr 578437695752307201,
     snd (Demo.run_generateRandom Demo.eight_bytes Types.GENERATE_RANDOM_U64)).
Proof.
  apply (u64_wire_roundtrip (host := Demo.host Demo.eight_bytes)
           (dep := Demo.deployment) (Demo.client Demo.eight_bytes) Demo.wallet
           (Demo.fresh Demo.eight_bytes) _ 578437695752307201);
    [lia | reflexivity].
Defined.

(** ** Claims about the requests the client submits *)

Section RequestClaims.
Context {host : Web3.Host}.
Import Web3 Types Client.

(** C6. Every request [generateRandom] submits carries one instruction whose
    account list is, in this order and with these flags: the requester
    (signer, writable), the requester's token account (writable), the
    treasury's token account (writable), the token program (read-only), the
    config PDA (read-only) and the clock sysvar (read-only); the list does
    not depend on the instruction tag, and the requester is the only
    signer handed over. *)
Theorem generate_request_accounts
    (this : QrngClient) (wallet : Signer) (t : QrngInstructionType)
    (w : world) (tx : Transaction) (signers : list Signer) :
  In (CallSendAndConfirmTransaction tx signers)
     (calls (snd (generateRandom this wallet t (mkSession w [])))) ->
  exists userTokenAccount w1 treasuryTokenAccount w2 payload,
    getOrCreateAssociatedTokenAccount wallet (tokenMint this)
      (publicKey wallet) false w = (inr userTokenAccount, w1)
    /\ getOrCreateAssociatedTokenAccount wallet (tokenMint this)
         (treasuryAddress this) true w1 = (inr treasuryTokenAccount, w2)
    /\ signers = [wallet]
    /\ tx =
       [ mkInstruction
           [ mkAccountMeta (publicKey wallet) true true;
             mkAccountMeta (address userTokenAccount) false true;
             mkAccountMeta (address treasuryTokenAccount) false true;
             mkAccountMeta TOKEN_PROGRAM_ID false false;
             mkAccountMeta (configPda this) false false;
             mkAccountMeta SYSVAR_CLOCK_PUBKEY false false ]
           (programId this) payload ].
Proof.
  intros Hin.
  destruct (generateRandom_submission this wallet t w tx signers Hin)
    as (uta & w1 & tta & w2 & bal & w3 & E1 & E2 & _ & _ & -> & ->).
  exists uta, w1, tta, w2, (Js.Buffer_from_array [tag_value t]).
  repeat split; assumption.
Qed.

(** C7. The payload of every request [generateRandom] submits is exactly one
    byte, the value of the instruction tag, in a transaction of exactly one
    instruction; the tag values are INITIALIZE_PROGRAM = 0,
    GENERATE_RANDOM_U64 = 1, GENERATE_RANDOM_DOUBLE = 2 and
    GENERATE_RANDOM_BOOLEAN = 3. *)
Theorem request_payload_is_the_tag
    (this : QrngClient) (wallet : Signer) (t : QrngInstructionType)
    (w : world) (tx : Transaction) (signers : list Signer) :
  In (CallSendAndConfirmTransaction tx signers)
     (calls (snd (generateRandom this wallet t (mkSession w [])))) ->
  (exists accounts b,
      tx = [ mkInstruction accounts (programId this) [b] ]
      /\ Js.byte_val b = tag_value t)
  /\ tag_value INITIALIZE_PROGRAM = 0
  /\ tag_value GENERATE_RANDOM_U64 = 1
  /\ tag_value GENERATE_RANDOM_DOUBLE = 2
  /\ tag_value GENERATE_RANDOM_BOOLEAN = 3.
Proof.
  intros Hin.
  destruct (generateRandom_submission this wallet t w tx signers Hin)
    as (uta & w1 & tta & w2 & bal & w3 & _ & _ & _ & _ & -> & _).
  split; [|repeat split].
  eexists _, (Js.byte_of_Z (tag_value t)). split; [reflexivity|].
  rewrite byte_val_of_Z. destruct t; reflexivity.
Qed.

(** The client's half of the balance gate: once the two token accounts and
    the balance are fetched, [generateRandom] rejects with a QrngError
    without submitting exactly when the balance is below 1.0. *)
Lemma client_balance_gate
    (this : QrngClient) (wallet : Signer) (t : QrngInstructionType)
    (w w1 w2 w3 : world) (uta tta : TokenAccount) (bal : TokenAmount) :
  getOrCreateAssociatedTokenAccount wallet (tokenMint this)
    (publicKey wallet) false w = (inr uta, w1) ->
  getOrCreateAssociatedTokenAccount wallet (tokenMint this)
    (treasuryAddress this) true w1 = (inr tta, w2) ->
  getTokenAccountBalance (address uta) w2 = (inr bal, w3) ->
  let r := generateRandom this wallet t (mkSession w []) in
  (((exists msg, fst r = inl (QrngError msg))
    /\ Forall (fun ev => is_submission ev = false) (calls (snd r)))
   <-> (Js.or_zero (uiAmount bal) <? 1)%float = true)
  /\ ((Js.or_zero (uiAmount bal) <? 1)%float = true ->
      r = (inl (QrngError
                  ("Insufficient TSOTCHKE tokens. You have "
                   +:+ number_to_string (Js.or_zero (uiAmount bal))
                   +:+ " but need at least 1.0.")),
           mkSession w3
             [ CallGetOrCreateAssociatedTokenAccount wallet (tokenMint this)
                 (publicKey wallet) false;
               CallGetOrCreateAssociatedTokenAccount wallet (tokenMint this)
                 (treasuryAddress this) true;
               CallGetTokenAccountBalance (address uta) ]))
  /\ (uiAmount bal = Some 1%float ->
      exists tx, In (CallSendAndConfirmTransaction tx [wallet]) (calls (snd r))).
Proof.
  intros E1 E2 E3 r.
  pose proof (generateRandom_gate this wallet t w w1 w2 w3 [] uta tta bal
                E1 E2 E3) as Hg.
  simpl in Hg. subst r.
  destruct (Js.or_zero (uiAmount bal) <? 1)%float eqn:Hlt.
  - rewrite Hg. simpl. split; [split|split].
    + reflexivity.
    + intros _. split; [eauto|repeat constructor].
    + reflexivity.
    + intros Hone. rewrite Hone in Hlt. discriminate.
  - destruct Hg as (r & w' & rest & -> & Hrest). simpl. split; [split|split].
    + intros [_ Hall]. do 3 (apply Forall_cons in Hall as [_ Hall]).
      apply Forall_cons in Hall as [Hsend _]. discriminate.
    + discriminate.
    + discriminate.
    + intros _. eexists. do 3 right. left. reflexivity.
Qed.

End RequestClaims.

Lemma generate_request_accounts_witness :
  exists userTokenAccount w1 treasuryTokenAccount w2 payload,
    Web3.getOrCreateAssociatedTokenAccount (Host := Demo.host Demo.one_byte)
      Demo.wallet (Client.tokenMint (Demo.client Demo.one_byte))
      (Web3.publicKey Demo.wallet) false tt = (inr userTokenAccount, w1)
    /\ Web3.getOrCreateAssociatedTokenAccount (Host := Demo.host Demo.one_byte)
         Demo.wallet (Client.tokenMint (Demo.client Demo.one_byte))
         (Client.treasuryAddress (Demo.client Demo.one_byte)) true w1
       = (inr treasuryTokenAccount, w2)
    /\ [Demo.wallet] = [Demo.wallet]
    /\ [ Web3.mkInstruction
           (Client.request_keys (Demo.client Demo.one_byte) "WaLLet"
              (Web3.mkTokenAccount "ata:WaLLet")
              (Web3.mkTokenAccount
                 "ata:3vuKcjqows8T19z7amN2XMkSdVcicqBuf5vVa8ZjaVfc"))
           "F7E268Uek6YJvYCNaeamnxLy1umzPPTfrK2TiATxffQg" [x03] ]
       = [ Web3.mkInstruction
             [ Web3.mkAccountMeta (Web3.publicKey Demo.wallet) true true;
               Web3.mkAccountMeta (Web3.address userTokenAccount) false true;
               Web3.mkAccountMeta (Web3.address treasuryTokenAccount) false true;
               Web3.mkAccountMeta Web3.TOKEN_PROGRAM_ID false false;
               Web3.mkAccountMeta
                 (Client.configPda (Demo.client Demo.one_byte)) false false;
               Web3.mkAccountMeta Web3.SYSVAR_CLOCK_PUBKEY false false ]
             (Client.programId (Demo.client Demo.one_byte)) payload ].
Proof.
  apply (generate_request_accounts (host := Demo.host Demo.one_byte)
           (Demo.client Demo.one_byte) Demo.wallet
           Types.GENERATE_RANDOM_BOOLEAN tt).
  do 3 right. left. reflexivity.
Defined.

Lemma request_payload_is_the_tag_witness :
  exists accounts b,
    [ Web3.mkInstruction
        (Client.request_keys (Demo.client Demo.one_byte) "WaLLet"
           (Web3.mkTokenAccount "ata:WaLLet")
           (Web3.mkTokenAccount
              "ata:3vuKcjqows8T19z7amN2XMkSdVcicqBuf5vVa8ZjaVfc"))
        "F7E268Uek6YJvYCNaeamnxLy1umzPPTfrK2TiATxffQg" [x03] ]
    = [ Web3.mkInstruction accounts
          (Client.programId (Demo.client Demo.one_byte)) [b] ]
    /\ Js.byte_val b = Types.tag_value Types.GENERATE_RANDOM_BOOLEAN.
Proof.
  apply (request_payload_is_the_tag (host := Demo.host Demo.one_byte)
           (Demo.client Demo.one_byte) Demo.wallet
           Types.GENERATE_RANDOM_BOOLEAN tt _ [Demo.wallet]).
  do 3 right. left. reflexivity.
Defined.

(** ** The ledger and the dispatcher of the on-chain model *)

Section Ledger.
Import Program.
Implicit Types (m : gmap Address TokenAccount) (a b : Address) (p : Z).

Lemma balance_of_debit m a p :
  is_Some (m !! a) -> balance_of (debit a p m) a = balance_of m a - p.
Proof.
  intros [t Ht]. unfold balance_of, debit. rewrite Ht.
  rewrite lookup_insert_eq. reflexivity.
Qed.

Lemma balance_of_debit_ne m a b p :
  a <> b -> balance_of (debit a p m) b = balance_of m b.
Proof.
  intros Hne. unfold balance_of, debit.
  destruct (m !! a); [|reflexivity]. now rewrite lookup_insert_ne.
Qed.

Lemma balance_of_credit m a p :
  is_Some (m !! a) -> balance_of (credit a p m) a = balance_of m a + p.
Proof.
  intros [t Ht]. unfold balance_of, credit. rewrite Ht.
  rewrite lookup_insert_eq. reflexivity.
Qed.

Lemma balance_of_credit_ne m a b p :
  a <> b -> balance_of (credit a p m) b = balance_of m b.
Proof.
  intros Hne. unfold balance_of, credit.
  destruct (m !! a); [|reflexivity]. now rewrite lookup_insert_ne.
Qed.

(** A payment from an account to itself leaves the ledger as it was. *)
Lemma self_transfer m a p : credit a p (debit a p m) = m.
Proof.
  unfold credit, debit. destruct (m !! a) as [[mt bl]|] eqn:Ha.
  - rewrite lookup_insert_eq. simpl. rewrite insert_insert_eq.
    replace (bl - p + p) with bl by lia. now apply insert_id.
  - now rewrite Ha.
Qed.

Lemma debit_is_Some m a b p : is_Some (m !! b) -> is_Some (debit a p m !! b).
Proof.
  intros Hb. unfold debit. destruct (m !! a) eqn:Ha; [|exact Hb].
  destruct (decide (a = b)) as [->|Hne].
  - rewrite lookup_insert_eq. eauto.
  - now rewrite lookup_insert_ne.
Qed.
End Ledger.

Section Dispatcher.
Context {dep : Program.Deployment}.
Import Web3 Types Program.

(** Validation reads the chain and never writes it. *)
Lemma validate_generate_pure (inv : Invocation) (c c' : Chain) r :
  validate_generate inv c = (r, c') -> c' = c.
Proof.
  unfold validate_generate. unfold_exec.
  repeat (break_match; simpl in *); intros; simplify_eq; reflexivity.
Qed.

(** What validation establishes. *)
Lemma validate_generate_ok (inv : Invocation) (c c' : Chain) rta tta cfg :
  validate_generate inv c = (inr (rta, tta, cfg), c') ->
  config c = Some cfg
  /\ tta = treasury_token_account cfg
  /\ mint <$> tokens c !! rta = Some (token_mint cfg)
  /\ mint <$> tokens c !! tta = Some (token_mint cfg)
  /\ pubkey <$> accounts inv !! 1%nat = Some rta
  /\ pubkey <$> accounts inv !! 2%nat = Some tta.
Proof.
  unfold validate_generate. unfold_exec.
  repeat (break_match; simpl in *); intros; simplify_eq.
  repeat match goal with
         | H : _ && _ = true |- _ => apply andb_true_iff in H as [? ?]
         | H : bool_decide _ = true |- _ => apply bool_decide_eq_true in H
         end.
  auto 10.
Qed.

Lemma process_generate (inv : Invocation) (c : Chain)
    (t : QrngInstructionType) rta tta cfg :
  decode_tag (instruction_data inv) = Some t ->
  is_generate t = true ->
  validate_generate inv c = (inr (rta, tta, cfg), c) ->
  process_instruction inv c =
    if bool_decide (price_per_request cfg <= balance_of (tokens c) rta) then
      let paid :=
        mkChain (config c)
          (credit tta (price_per_request cfg)
             (debit rta (price_per_request cfg) (tokens c))) in
      match clock inv with
      | Some tm => (inr (format t (mix tm (signature inv) mod 2 ^ 64)), paid)
      | None => (inl EntropyUnavailable, paid)
      end
    else (inl InsufficientBalance, c).
Proof.
  intros Htag Hgen Hval. unfold process_instruction. rewrite Htag.
  destruct t; [discriminate| | |];
    unfold debit_and_credit, entropy_word; unfold_exec; rewrite Hval; simpl;
    (destruct (bool_decide _); simpl; [destruct (clock inv)|]; reflexivity).
Qed.

Lemma process_generate_rejected (inv : Invocation) (c c' : Chain)
    (t : QrngInstructionType) e :
  decode_tag (instruction_data inv) = Some t ->
  is_generate t = true ->
  validate_generate inv c = (inl e, c') ->
  process_instruction inv c = (inl e, c).
Proof.
  intros Htag Hgen Hval. unfold process_instruction. rewrite Htag.
  pose proof (validate_generate_pure _ _ _ _ Hval) as ->.
  destruct t; [discriminate| | |]; unfold_exec; rewrite Hval; reflexivity.
Qed.

(** INITIALIZE_PROGRAM on an initialized chain fails and writes nothing. *)
Lemma initialize_existing (inv : Invocation) (c : Chain) (cfg : Config) :
  config c = Some cfg -> exists e, initialize inv c = (inl e, c).
Proof.
  intros Hcfg. unfold initialize. unfold_exec. rewrite Hcfg.
  repeat (break_match; simpl in *); eauto.
Qed.

(** A successful INITIALIZE_PROGRAM found no Config and wrote the
    deployment's. *)
Lemma initialize_ok (inv : Invocation) (c c' : Chain) out :
  initialize inv c = (inr out, c') ->
  config c = None /\ c' = mkChain (Some initial_config) (tokens c).
Proof.
  unfold initialize. unfold_exec.
  repeat (break_match; simpl in *); intros; simplify_eq; auto.
Qed.

(** An invocation never replaces an existing Config. *)
Lemma invoke_keeps_config (c : Chain) (inv : Invocation) (cfg : Config) :
  config c = Some cfg -> config (fst (invoke c inv)) = Some cfg.
Proof.
  intros Hcfg. unfold invoke.
  destruct (process_instruction inv c) as [[e|out] c'] eqn:Hp; [exact Hcfg|].
  simpl. destruct (decode_tag (instruction_data inv)) as [t|] eqn:Htag;
    [|unfold process_instruction in Hp; rewrite Htag in Hp; discriminate].
  destruct (is_generate t) eqn:Hgen.
  - destruct (validate_generate inv c) as [[e|[[rta tta] cfg']] c1] eqn:Hval.
    + rewrite (process_generate_rejected _ _ _ _ _ Htag Hgen Hval) in Hp.
      discriminate.
    + pose proof (validate_generate_pure _ _ _ _ Hval) as ->.
      rewrite (process_generate _ _ _ _ _ _ Htag Hgen Hval) in Hp.
      destruct (bool_decide _); [|discriminate].
      destruct (clock inv); simpl in Hp; simplify_eq. exact Hcfg.
  - destruct t; try discriminate.
    unfold process_instruction in Hp. rewrite Htag in Hp.
    destruct (initialize_existing inv c cfg Hcfg) as [e He]. congruence.
Qed.

Lemma invoke_all_keeps_config (invs : list Invocation) (c : Chain) (cfg : Config) :
  config c = Some cfg -> config (invoke_all c invs) = Some cfg.
Proof.
  revert c. induction invs as [|inv invs IH]; intros c Hcfg; [exact Hcfg|].
  simpl. apply IH. now apply invoke_keeps_config.
Qed.

Lemma invoke_initialize_existing (c : Chain) (inv : Invocation) (cfg : Config) :
  config c = Some cfg ->
  decode_tag (instruction_data inv) = Some INITIALIZE_PROGRAM ->
  exists e, invoke c inv = (c, inl e).
Proof.
  intros Hcfg Htag. unfold invoke, process_instruction. rewrite Htag.
  destruct (initialize_existing inv c cfg Hcfg) as [e ->]. eauto.
Qed.
End Dispatcher.

(** ** Claims about the on-chain request protocol *)

Section ProtocolClaims.
Context {dep : Program.Deployment}.
Import Web3 Types Program.

(** The balances after a payment between two distinct accounts the ledger
    holds. *)
Lemma transfer_balances (m : gmap Address TokenAccount) (rta tta : Address) (p : Z) :
  is_Some (m !! rta) -> is_Some (m !! tta) -> rta <> tta ->
  balance_of (credit tta p (debit rta p m)) rta = balance_of m rta - p
  /\ balance_of (credit tta p (debit rta p m)) tta = balance_of m tta + p.
Proof.
  intros Hr Ht Hne. split.
  - rewrite balance_of_credit_ne by congruence. now apply balance_of_debit.
  - rewrite balance_of_credit by now apply debit_is_Some.
    now rewrite balance_of_debit_ne.
Qed.

(** A GENERATE_* invocation leaves Config as it found it. *)
Lemma invoke_generate_keeps_config (c : Chain) (inv : Invocation)
    (t : QrngInstructionType) :
  decode_tag (instruction_data inv) = Some t -> is_generate t = true ->
  config (fst (invoke c inv)) = config c.
Proof.
  intros Htag Hgen. unfold invoke.
  destruct (validate_generate inv c) as [[e|[[rta tta] cfg]] c1] eqn:Hval.
  - now rewrite (process_generate_rejected _ _ _ _ _ Htag Hgen Hval).
  - pose proof (validate_generate_pure _ _ _ _ Hval) as ->.
    rewrite (process_generate _ _ _ _ _ _ Htag Hgen Hval).
    destruct (bool_decide _); [|reflexivity].
    destruct (clock inv); reflexivity.
Qed.




(** The on-chain half of the balance gate. *)
Lemma program_balance_gate
    (c : Chain) (inv : Invocation) (t : QrngInstructionType)
    (rta tta : Address) (cfg : Config) :
  decode_tag (instruction_data inv) = Some t ->
  is_generate t = true ->
  validate_generate inv c = (inr (rta, tta, cfg), c) ->
  (balance_of (tokens c) rta = price_per_request cfg ->
   is_Some (clock inv) ->
   exists out,
     snd (invoke c inv) = inr out
     /\ (rta <> tta -> balance_of (tokens (fst (invoke c inv))) rta = 0)
     /\ (rta = tta ->
         fst (invoke c inv) = c
         /\ balance_of (tokens (fst (invoke c inv))) rta
            = price_per_request cfg))
  /\ (balance_of (tokens c) rta < price_per_request cfg ->
      process_instruction inv c = (inl InsufficientBalance, c)
      /\ invoke c inv = (c, inl InsufficientBalance)).
Proof.
  intros Htag Hgen Hval.
  destruct (validate_generate_ok _ _ _ _ _ _ Hval)
    as (Hcfg & Htre & Hmr & Hmt & Hr & Ht).
  unfold invoke. rewrite (process_generate _ _ _ _ _ _ Htag Hgen Hval).
  split.
  - intros Heq [tm ->].
    rewrite bool_decide_eq_true_2 by lia. simpl.
    eexists. split; [reflexivity|]. split.
    + intros Hne.
      destruct (transfer_balances (tokens c) rta tta (price_per_request cfg))
        as [-> _]; try assumption; try lia.
      all: rewrite <- (fmap_is_Some mint); rewrite ?Hmr, ?Hmt; eauto.
    + intros <-. rewrite self_transfer. split; [now destruct c|exact Heq].
  - intros Hlt. rewrite bool_decide_eq_false_2 by lia. split; reflexivity.
Qed.

(** C8. Config is created at most once: a successful INITIALIZE_PROGRAM
    found no Config and wrote one; after it, whatever invocations follow,
    Config keeps its fields, every further INITIALIZE_PROGRAM fails and
    changes nothing, and no GENERATE_* invocation alters Config. *)
Theorem config_is_created_once
    (c c' : Chain) (inv : Invocation) (out : list byte) :
  decode_tag (instruction_data inv) = Some INITIALIZE_PROGRAM ->
  invoke c inv = (c', inr out) ->
  config c = None
  /\ config c' = Some initial_config
  /\ forall (later : list Invocation) (next : Invocation),
       config (invoke_all c' later) = Some initial_config
       /\ config (fst (invoke (invoke_all c' later) next)) = Some initial_config
       /\ (decode_tag (instruction_data next) = Some INITIALIZE_PROGRAM ->
           exists e, invoke (invoke_all c' later) next
                     = (invoke_all c' later, inl e))
       /\ (forall t, decode_tag (instruction_data next) = Some t ->
                     is_generate t = true ->
                     config (fst (invoke (invoke_all c' later) next))
                     = config (invoke_all c' later)).
Proof.
  intros Htag Hinv. unfold invoke, process_instruction in Hinv.
  rewrite Htag in Hinv.
  destruct (initialize inv c) as [[e|out'] c1] eqn:Hinit; [discriminate|].
  injection Hinv as <- <-.
  destruct (initialize_ok _ _ _ _ Hinit) as [Hnone ->].
  split; [exact Hnone|]. split; [reflexivity|].
  intros later next.
  assert (Hnow : config (invoke_all (mkChain (Some initial_config) (tokens c)) later)
                 = Some initial_config)
    by now apply invoke_all_keeps_config.
  split; [exact Hnow|]. split; [now apply invoke_keeps_config|]. split.
  - intros Hnext. now apply (invoke_initialize_existing _ _ initial_config).
  - intros t' Ht' Hgen. now apply (invoke_generate_keeps_config _ _ t').
Qed.

End ProtocolClaims.

(** ** The balance gate, on both sides of the wire *)

Section BalanceGate.
Context {host : Web3.Host} {dep : Program.Deployment}.
Import Web3 Types.

(** C5. In the client, once the two token-account lookups and the balance
    fetch have answered, [generateRandom] rejects with a QrngError without
    calling [sendAndConfirmTransaction] exactly when the fetched balance is
    below 1.0; it has then made those three calls and no other, the two
    lookups with the wallet as payer, and leaves the cluster as they left
    it (which need not be as it found it: a lookup may create the account);
    a balance of exactly 1.0 goes on to the submission. On chain, a
    validated GENERATE_* request whose requester holds less than
    [price_per_request] fails before any write and leaves the chain
    unchanged; one whose requester holds exactly [price_per_request]
    succeeds when the clock is readable, and leaves that balance at 0 when
    the requester's token account is not the treasury's; when it is the
    treasury's the payment is from the account to itself and the balance
    stays at [price_per_request]. *)
Theorem payment_balance_gate
    (this : Client.QrngClient) (wallet : Signer) (t : QrngInstructionType)
    (w w1 w2 w3 : world) (uta tta : TokenAccount) (bal : TokenAmount)
    (c : Program.Chain) (inv : Program.Invocation) (tag : QrngInstructionType)
    (requester_ta treasury_ta : Program.Address) (cfg : Program.Config) :
  getOrCreateAssociatedTokenAccount wallet (Client.tokenMint this)
    (publicKey wallet) false w = (inr uta, w1) ->
  getOrCreateAssociatedTokenAccount wallet (Client.tokenMint this)
    (Client.treasuryAddress this) true w1 = (inr tta, w2) ->
  getTokenAccountBalance (address uta) w2 = (inr bal, w3) ->
  Program.decode_tag (Program.instruction_data inv) = Some tag ->
  Program.is_generate tag = true ->
  Program.validate_generate inv c = (inr (requester_ta, treasury_ta, cfg), c) ->
  let r := Client.generateRandom this wallet t (Client.mkSession w []) in
  ((((exists msg, fst r = inl (Client.QrngError msg))
     /\ Forall (fun ev => Client.is_submission ev = false) (Client.calls (snd r)))
    <-> (Js.or_zero (uiAmount bal) <? 1)%float = true)
   /\ ((Js.or_zero (uiAmount bal) <? 1)%float = true ->
       snd r
       = Client.mkSession w3
           [ Client.CallGetOrCreateAssociatedTokenAccount wallet
               (Client.tokenMint this) (publicKey wallet) false;
             Client.CallGetOrCreateAssociatedTokenAccount wallet
               (Client.tokenMint this) (Client.treasuryAddress this) true;
             Client.CallGetTokenAccountBalance (address uta) ])
   /\ (uiAmount bal = Some 1%float ->
       exists tx, In (Client.CallSendAndConfirmTransaction tx [wallet])
                     (Client.calls (snd r))))
  /\ (Program.balance_of (Program.tokens c) requester_ta
      = Program.price_per_request cfg ->
      is_Some (Program.clock inv) ->
      exists out,
        snd (Program.invoke c inv) = inr out
        /\ (requester_ta <> treasury_ta ->
            Program.balance_of (Program.tokens (fst (Program.invoke c inv)))
              requester_ta = 0)
        /\ (requester_ta = treasury_ta ->
            fst (Program.invoke c inv) = c
            /\ Program.balance_of (Program.tokens (fst (Program.invoke c inv)))
                 requester_ta = Program.price_per_request cfg))
  /\ (Program.balance_of (Program.tokens c) requester_ta
      < Program.price_per_request cfg ->
      Program.process_instruction inv c = (inl Program.InsufficientBalance, c)
      /\ Program.invoke c inv = (c, inl Program.InsufficientBalance)).
Proof.
  intros E1 E2 E3 Htag Hgen Hval r.
  destruct (client_balance_gate this wallet t w w1 w2 w3 uta tta bal E1 E2 E3)
    as (Hiff & Hbelow_client & Hone).
  destruct (program_balance_gate c inv tag requester_ta treasury_ta cfg
              Htag Hgen Hval) as (Hexact & Hbelow).
  split; [split; [exact Hiff | split; [|exact Hone]]
         | split; [exact Hexact | exact Hbelow]].
  intros Hlt. fold r in Hbelow_client. now rewrite (Hbelow_client Hlt).
Qed.

End BalanceGate.

(** ** The claims run on the demo cluster and deployment *)

Local Set Warnings "-inexact-float".

(** The payment of a request is committed with its output. *)
Example paid_request_commits :
  Program.invoke (dep := Demo.deployment) (Demo.chain (10 ^ 9)) (Demo.request x03)
  = (Program.mkChain (Some (Program.mkConfig "treasury-ta" "mint" (10 ^ 9)))
       (Program.credit "treasury-ta" (10 ^ 9)
          (Program.debit "user-ta" (10 ^ 9) (Demo.ledger (10 ^ 9)))),
     inr [x01]).
Proof. reflexivity. Qed.

(** Without a readable clock the instruction fails after the debit; the
    invocation shows none of it. *)
Example rollback_hides_the_debit :
  let inv := Program.mkInvocation [x01] Demo.generate_accounts None [] in
  Program.balance_of
    (Program.tokens
       (snd (Program.process_instruction (dep := Demo.deployment) inv
               (Demo.chain (10 ^ 9))))) "user-ta" = 0
  /\ Program.invoke (dep := Demo.deployment) (Demo.chain (10 ^ 9)) inv
     = (Demo.chain (10 ^ 9), inl Program.EntropyUnavailable).
Proof. split; reflexivity. Qed.


Lemma payment_balance_gate_witness :
  (exists tx,
      In (Client.CallSendAndConfirmTransaction tx [Demo.wallet])
         (Client.calls
            (snd (Demo.run_generateRandom Demo.eight_bytes
                    Types.GENERATE_RANDOM_U64))))
  /\ (exists out,
         snd (Program.invoke (dep := Demo.deployment) (Demo.chain (10 ^ 9))
                (Demo.request x01)) = inr out
         /\ Program.balance_of
              (Program.tokens
                 (fst (Program.invoke (dep := Demo.deployment)
                         (Demo.chain (10 ^ 9)) (Demo.request x01))))
              "user-ta" = 0)
  /\ ((exists msg,
          fst (Demo.run_generateRandom Demo.small_holder
                 Types.GENERATE_RANDOM_U64) = inl (Client.QrngError msg))
      /\ Forall (fun ev => Client.is_submission ev = false)
           (Client.calls
              (snd (Demo.run_generateRandom Demo.small_holder
                      Types.GENERATE_RANDOM_U64))))
  /\ Program.invoke (dep := Demo.deployment) (Demo.chain (10 ^ 9 - 1))
       (Demo.request x01)
     = (Demo.chain (10 ^ 9 - 1), inl Program.InsufficientBalance).
Proof.
  destruct (payment_balance_gate (host := Demo.host Demo.eight_bytes)
              (dep := Demo.deployment)
              (Demo.client Demo.eight_bytes) Demo.wallet
              Types.GENERATE_RANDOM_U64 tt tt tt tt
              (Web3.mkTokenAccount "ata:WaLLet")
              (Web3.mkTokenAccount
                 "ata:3vuKcjqows8T19z7amN2XMkSdVcicqBuf5vVa8ZjaVfc")
              (Web3.mkTokenAmount (10 ^ 9) 9 (Some 1%float))
              (Demo.chain (10 ^ 9)) (Demo.request x01)
              Types.GENERATE_RANDOM_U64 "user-ta" "treasury-ta"
              (Program.mkConfig "treasury-ta" "mint" (10 ^ 9))
              eq_refl eq_refl eq_refl eq_refl eq_refl eq_refl)
    as ((_ & Hone) & Hexact & _).
  destruct (payment_balance_gate (host := Demo.host Demo.small_holder)
              (dep := Demo.deployment)
              (Demo.client Demo.small_holder) Demo.wallet
              Types.GENERATE_RANDOM_U64 tt tt tt tt
              (Web3.mkTokenAccount "ata:WaLLet")
              (Web3.mkTokenAccount
                 "ata:3vuKcjqows8T19z7amN2XMkSdVcicqBuf5vVa8ZjaVfc")
              (Web3.mkTokenAmount (10 ^ 6) 9
                 (Some (Integration.ui_amount (10 ^ 6) 9)))
              (Demo.chain (10 ^ 9 - 1)) (Demo.request x01)
              Types.GENERATE_RANDOM_U64 "user-ta" "treasury-ta"
              (Program.mkConfig "treasury-ta" "mint" (10 ^ 9))
              eq_refl eq_refl eq_refl eq_refl eq_refl eq_refl)
    as ((Hiff & _) & _ & Hbelow).
  split; [|split; [|split]].
  - apply Hone. reflexivity.
  - destruct Hexact as (out & Hout & Hzero & _);
      [reflexivity | eexists; reflexivity |].
    exists out. split; [exact Hout | apply Hzero; discriminate].
  - apply Hiff. reflexivity.
  - apply Hbelow. reflexivity.
Defined.


(** Where the balance gate is not what C5 says as it is worded. On chain:
    the treasury,
    holding exactly the price, requests; the request succeeds and its
    balance is still the price, not 0. In the client: the requester has no
    token account yet; [generateRandom] rejects for a balance below 1.0
    without calling [sendAndConfirmTransaction], and by then the cluster
    has confirmed the creation of two token accounts, paid by the
    wallet. *)
Lemma balance_gate_after_the_lookups :
  (Program.balance_of (Program.tokens (Demo.treasury_chain (10 ^ 9)))
     "treasury-ta"
   = Program.price_per_request
       (Program.initial_config (Deployment := Demo.deployment))
   /\ (exists out,
          Program.invoke (dep := Demo.deployment) (Demo.treasury_chain (10 ^ 9))
            (Demo.treasury_request x01)
          = (Demo.treasury_chain (10 ^ 9), inr out))
   /\ Program.balance_of
        (Program.tokens
           (fst (Program.invoke (dep := Demo.deployment)
                   (Demo.treasury_chain (10 ^ 9))
                   (Demo.treasury_request x01)))) "treasury-ta"
      = 10 ^ 9)
  /\ (let r :=
        Client.generateRandom (host := Demo.creating)
          (Client.new_QrngClient (host := Demo.creating) Demo.options)
          Demo.wallet Types.GENERATE_RANDOM_U64
          (Client.mkSession (host := Demo.creating) (Demo.mkCluster [] []) []) in
      fst r
      = inl (Client.QrngError
               "Insufficient TSOTCHKE tokens. You have 0 but need at least 1.0.")
      /\ Forall (fun ev => Client.is_submission ev = false)
           (Client.calls (snd r))
      /\ Demo.confirmed (Client.net (snd r))
         = [ Demo.AccountCreated Demo.wallet
               "4mbdysBik3jmzD7mt6FGPDsMxnYcxExSQRFjPucdpump" "WaLLet";
             Demo.AccountCreated Demo.wallet
               "4mbdysBik3jmzD7mt6FGPDsMxnYcxExSQRFjPucdpump"
               "3vuKcjqows8T19z7amN2XMkSdVcicqBuf5vVa8ZjaVfc" ]).
Proof.
  split.
  - split; [reflexivity|]. split; [eexists; vm_compute; reflexivity|].
    reflexivity.
  - split; [reflexivity|]. split; [repeat constructor|reflexivity].
Qed.


Lemma config_is_created_once_witness :
  Program.config (Program.mkChain None (Demo.ledger 3)) = None
  /\ Program.config
       (Program.mkChain
          (Some (Program.initial_config (Deployment := Demo.deployment)))
          (Demo.ledger 3))
     = Some (Program.initial_config (Deployment := Demo.deployment))
  /\ forall (later : list Program.Invocation) (next : Program.Invocation),
       let now :=
         Program.invoke_all (dep := Demo.deployment)
           (Program.mkChain
              (Some (Program.initial_config (Deployment := Demo.deployment)))
              (Demo.ledger 3)) later in
       Program.config now
       = Some (Program.initial_config (Deployment := Demo.deployment))
       /\ Program.config (fst (Program.invoke (dep := Demo.deployment) now next))
          = Some (Program.initial_config (Deployment := Demo.deployment))
       /\ (Program.decode_tag (Program.instruction_data next)
           = Some Types.INITIALIZE_PROGRAM ->
           exists e, Program.invoke (dep := Demo.deployment) now next
                     = (now, inl e))
       /\ (forall t,
              Program.decode_tag (Program.instruction_data next) = Some t ->
              Program.is_generate t = true ->
              Program.config
                (fst (Program.invoke (dep := Demo.deployment) now next))
              = Program.config now).
Proof.
  apply (config_is_created_once (dep := Demo.deployment)
           (Program.mkChain None (Demo.ledger 3))
           (Program.mkChain
              (Some (Program.initial_config (Deployment := Demo.deployment)))
              (Demo.ledger 3))
           Demo.init_request []);
    reflexivity.
Defined.

(** C2. A boolean return payload whose byte is nonzero but not 1 is
    interpreted as false: on the return data [0x02], [generateRandom]
    resolves to that one byte, [generateRandomBoolean] resolves to [false],
    and so does the extraction of the integration guide. *)
Theorem generateRandomBoolean_nonzero_byte_is_false :
  fst (Demo.run_generateRandom Demo.one_byte Types.GENERATE_RANDOM_BOOLEAN)
  = inr [x02]
  /\ Js.index [x02] 0 = Some 2
  /\ fst (Demo.run_generateRandomBoolean Demo.one_byte) = inr false
  /\ Integration.extract [x02] = Some (Integration.randomBoolean false).
Proof. repeat split; reflexivity. Qed.

(** The guide's [main] goes on to request from [1_000_000] base units on,
    the amount it displays as 1.0 TSOTCHKE: one token of a mint of six
    decimal places. *)
Example main_gate_boundary :
  Integration.main_gate (10 ^ 6) = Integration.RequestsRandomNumber
  /\ Integration.main_gate (10 ^ 6 - 1) = Integration.NotEnoughTokens
  /\ Integration.one_token 6 = 10 ^ 6.
Proof. repeat split; reflexivity. Qed.

(** * Further properties of the client and of the example applications *)

(** ** The remote calls of the client, in order *)

Section Calls.
Context {host : Web3.Host}.
Import Web3 Types Client Trace.

(** One run of [generateRandom] from any session: the calls it adds are a
    non-empty prefix of the five calls of a complete request, the whole of
    them when it resolves, and what it resolves to is the decoded return
    data of the fetched transaction. *)
Lemma generateRandom_effect
    (this : QrngClient) (wallet : Signer) (t : QrngInstructionType) (s : Session) :
  exists evs uta tta sig,
    calls (snd (generateRandom this wallet t s)) = calls s ++ evs
    /\ evs `prefix_of` request_calls this wallet t uta tta sig
    /\ evs <> []
    /\ (forall buf, fst (generateRandom this wallet t s) = inr buf ->
        evs = request_calls this wallet t uta tta sig).
Proof.
  destruct s as [w l]. unfold request_calls. unfold_client. simpl.
  destruct (getOrCreateAssociatedTokenAccount wallet (tokenMint this)
              (publicKey wallet) false w) as [[e|uta] w1]; simpl.
  { eexists [_], (mkTokenAccount ""), (mkTokenAccount ""), ""%string.
    split; [reflexivity|]. split; [eexists; reflexivity|].
    split; [discriminate|]. discriminate. }
  destruct (getOrCreateAssociatedTokenAccount wallet (tokenMint this)
              (treasuryAddress this) true w1) as [[e|tta] w2]; simpl.
  { eexists [_; _], uta, (mkTokenAccount ""), ""%string.
    rewrite <- !app_assoc.
    split; [reflexivity|]. split; [eexists; reflexivity|].
    split; [discriminate|]. discriminate. }
  destruct (getTokenAccountBalance (address uta) w2) as [[e|bal] w3]; simpl.
  { eexists [_; _; _], uta, tta, ""%string.
    rewrite <- !app_assoc.
    split; [reflexivity|]. split; [eexists; reflexivity|].
    split; [discriminate|]. discriminate. }
  destruct (Js.or_zero (uiAmount bal) <? 1)%float; simpl.
  { eexists [_; _; _], uta, tta, ""%string.
    rewrite <- !app_assoc.
    split; [reflexivity|]. split; [eexists; reflexivity|].
    split; [discriminate|]. discriminate. }
  destruct (sendAndConfirmTransaction _ _ w3) as [[e|sig] w4]; simpl.
  { eexists [_; _; _; _], uta, tta, ""%string.
    rewrite <- !app_assoc.
    split; [reflexivity|]. split; [eexists; reflexivity|].
    split; [discriminate|]. discriminate. }
  exists (request_calls this wallet t uta tta sig), uta, tta, sig.
  destruct (getTransaction sig w4) as [[e|txInfo] w5]; simpl;
    [|destruct txInfo as [[[m|]]|]; simpl;
      [destruct (returnData m) as [rd|]; simpl;
       [destruct (data_is_falsy (rd_data rd))|]| |]];
    rewrite <- !app_assoc; (split; [reflexivity|]);
    (split; [reflexivity|]); (split; [discriminate|]); reflexivity.
Qed.

End Calls.

(** A value that is not a number is stored as the byte 0. *)
Lemma to_uint8_nan (x : float) :
  PrimFloat.is_nan x = true -> Js.to_uint8 x = x00.
Proof.
  unfold PrimFloat.is_nan, Js.to_uint8. rewrite FloatAxioms.eqb_spec.
  destruct (Prim2SF x) as [[]|[]| |[] m e]; try reflexivity;
    unfold SFeqb, SFcompare; rewrite Z.compare_refl;
    change (Pos.compare_cont Eq m m) with (Pos.compare m m);
    rewrite Pos.compare_refl; discriminate.
Qed.

Section CallLog.
Context {host : Web3.Host}.
Import Web3 Types Client Trace.

Lemma submissions_app (l k : list Event) :
  submissions (l ++ k) = (submissions l + submissions k)%nat.
Proof. unfold submissions. now rewrite List.filter_app, length_app. Qed.

Lemma submissions_prefix (l k : list Event) :
  l `prefix_of` k -> (submissions l <= submissions k)%nat.
Proof. intros [r ->]. rewrite submissions_app. lia. Qed.

(** What a resolved [generateRandom] went through. *)
Lemma generateRandom_resolved
    (this : QrngClient) (wallet : Signer) (t : QrngInstructionType)
    (w : world) (l : list Event) (buf : Js.Buffer) (s' : Session) :
  generateRandom this wallet t (mkSession w l) = (inr buf, s') ->
  exists uta w1 tta w2 bal w3 sig w4 txInfo w5 data,
    getOrCreateAssociatedTokenAccount wallet (tokenMint this)
      (publicKey wallet) false w = (inr uta, w1)
    /\ getOrCreateAssociatedTokenAccount wallet (tokenMint this)
         (treasuryAddress this) true w1 = (inr tta, w2)
    /\ getTokenAccountBalance (address uta) w2 = (inr bal, w3)
    /\ (Js.or_zero (uiAmount bal) <? 1)%float = false
    /\ sendAndConfirmTransaction
         [ mkInstruction (request_keys this (publicKey wallet) uta tta)
             (programId this) (Js.Buffer_from_array [tag_value t]) ]
         [wallet] w3 = (inr sig, w4)
    /\ getTransaction sig w4 = (inr txInfo, w5)
    /\ return_data_of txInfo = Some data
    /\ buf = Buffer_from_base64 data
    /\ s' = mkSession w5 (l ++ request_calls this wallet t uta tta sig).
Proof.
  unfold request_calls, return_data_of. unfold_client. simpl.
  destruct (getOrCreateAssociatedTokenAccount wallet (tokenMint this)
              (publicKey wallet) false w) as [[e|uta] w1] eqn:E1; simpl;
    [discriminate|].
  destruct (getOrCreateAssociatedTokenAccount wallet (tokenMint this)
              (treasuryAddress this) true w1) as [[e|tta] w2] eqn:E2; simpl;
    [discriminate|].
  destruct (getTokenAccountBalance (address uta) w2) as [[e|bal] w3] eqn:E3;
    simpl; [discriminate|].
  destruct (Js.or_zero (uiAmount bal) <? 1)%float eqn:Hlt; simpl;
    [discriminate|].
  destruct (sendAndConfirmTransaction _ _ w3) as [[e|sig] w4] eqn:E4; simpl;
    [discriminate|].
  destruct (getTransaction sig w4) as [[e|txInfo] w5] eqn:E5; simpl;
    [discriminate|].
  destruct txInfo as [[[m|]]|]; simpl; try discriminate.
  destruct (returnData m) as [rd|] eqn:Hrd; simpl; try discriminate.
  destruct (data_is_falsy (rd_data rd)) eqn:Hdata; simpl;
    [discriminate|].
  intros [= <- <-].
  exists uta, w1, tta, w2, bal, w3, sig, w4, (Some (mkTxInfo (Some m))), w5,
    (rd_data rd).
  simpl. rewrite Hrd. simpl. rewrite Hdata.
  rewrite <- !app_assoc. auto 12.
Qed.

(** X1. One [generateRandom] stops at the first step that fails, and each
    step runs on the cluster as the step before left it: a failed lookup
    of the requester's token account ends it after that one call; a failed
    lookup of the treasury's after two; a failed balance fetch, or a
    fetched balance below 1.0, after three, the balance being asked for
    the account the first lookup answered; a rejected submission after
    four; and otherwise the transaction is fetched under the signature
    the submission answered, whatever that fetch gives. The client itself
    calls [sendAndConfirmTransaction] at most once (what the lookups do
    inside the library is not part of the log). *)
Theorem generateRandom_calls_in_order
    (this : QrngClient) (wallet : Signer) (t : QrngInstructionType)
    (w : world) (l : list Event) :
  let lookup_requester :=
    CallGetOrCreateAssociatedTokenAccount wallet (tokenMint this)
      (publicKey wallet) false in
  let lookup_treasury :=
    CallGetOrCreateAssociatedTokenAccount wallet (tokenMint this)
      (treasuryAddress this) true in
  let after := snd (generateRandom this wallet t (mkSession w l)) in
  match
    getOrCreateAssociatedTokenAccount wallet (tokenMint this)
      (publicKey wallet) false w
  with
  | (inl _, w1) => after = mkSession w1 (l ++ [lookup_requester])
  | (inr userTokenAccount, w1) =>
      match
        getOrCreateAssociatedTokenAccount wallet (tokenMint this)
          (treasuryAddress this) true w1
      with
      | (inl _, w2) =>
          after = mkSession w2 (l ++ [lookup_requester; lookup_treasury])
      | (inr treasuryTokenAccount, w2) =>
          let fetch_balance :=
            CallGetTokenAccountBalance (address userTokenAccount) in
          let submission :=
            CallSendAndConfirmTransaction
              [ mkInstruction
                  (request_keys this (publicKey wallet) userTokenAccount
                     treasuryTokenAccount)
                  (programId this) (Js.Buffer_from_array [tag_value t]) ]
              [wallet] in
          match getTokenAccountBalance (address userTokenAccount) w2 with
          | (inl _, w3) =>
              after = mkSession w3
                        (l ++ [lookup_requester; lookup_treasury; fetch_balance])
          | (inr userTokenBalance, w3) =>
              if (Js.or_zero (uiAmount userTokenBalance) <? 1)%float then
                after = mkSession w3
                          (l ++ [lookup_requester; lookup_treasury;
                                 fetch_balance])
              else
                match
                  sendAndConfirmTransaction
                    [ mkInstruction
                        (request_keys this (publicKey wallet) userTokenAccount
                           treasuryTokenAccount)
                        (programId this) (Js.Buffer_from_array [tag_value t]) ]
                    [wallet] w3
                with
                | (inl _, w4) =>
                    after = mkSession w4
                              (l ++ [lookup_requester; lookup_treasury;
                                     fetch_balance; submission])
                | (inr signature, w4) =>
                    after = mkSession (snd (getTransaction signature w4))
                              (l ++ [lookup_requester; lookup_treasury;
                                     fetch_balance; submission;
                                     CallGetTransaction signature])
                end
          end
      end
  end
  /\ exists evs, calls after = l ++ evs /\ (submissions evs <= 1)%nat.
Proof.
  intros lookup_requester lookup_treasury after. split.
  - subst after lookup_requester lookup_treasury. unfold_client. simpl.
    destruct (getOrCreateAssociatedTokenAccount wallet (tokenMint this)
                (publicKey wallet) false w) as [[e|uta] w1]; simpl;
      [reflexivity|].
    destruct (getOrCreateAssociatedTokenAccount wallet (tokenMint this)
                (treasuryAddress this) true w1) as [[e|tta] w2]; simpl;
      [now rewrite <- !app_assoc|].
    destruct (getTokenAccountBalance (address uta) w2) as [[e|bal] w3]; simpl;
      [now rewrite <- !app_assoc|].
    destruct (Js.or_zero (uiAmount bal) <? 1)%float; simpl;
      [now rewrite <- !app_assoc|].
    destruct (sendAndConfirmTransaction _ _ w3) as [[e|sig] w4]; simpl;
      [now rewrite <- !app_assoc|].
    destruct (getTransaction sig w4) as [[e|txInfo] w5]; simpl;
      [|destruct txInfo as [[[m|]]|]; simpl;
        [destruct (returnData m) as [rd|]; simpl;
         [destruct (data_is_falsy (rd_data rd))|]| |]];
      now rewrite <- !app_assoc.
  - destruct (generateRandom_effect this wallet t (mkSession w l))
      as (evs & uta & tta & sig & Hcalls & Hpre & _ & _).
    exists evs. split; [exact Hcalls|].
    apply submissions_prefix in Hpre. exact Hpre.
Qed.

(** X2. When [generateRandom] resolves, every step answered: both lookups,
    a balance of at least 1.0, the submission, and the fetch of the
    transaction under the signature the submission answered, each on the
    cluster as the step before left it. It has made exactly the five calls
    of a complete request, one of them a submission, and the buffer it
    resolves to is [Buffer.from(data, 'base64')] of the [returnData.data]
    it fetched: the base64 decoding when [data] is a (non-empty) string,
    and when [data] is an array one byte per element, the element's number
    modulo 256, so that the pair [[encoded, 'base64']] of two texts that
    are not numerals resolves to the two bytes [00 00], not to the decoded
    data. *)
Theorem resolved_request_is_paid_once
    (this : QrngClient) (wallet : Signer) (t : QrngInstructionType)
    (w : world) (l : list Event) (s' : Session) (buf : Js.Buffer) :
  generateRandom this wallet t (mkSession w l) = (inr buf, s') ->
  exists userTokenAccount w1 treasuryTokenAccount w2 userTokenBalance w3
         signature w4 txInfo w5 data,
    getOrCreateAssociatedTokenAccount wallet (tokenMint this)
      (publicKey wallet) false w = (inr userTokenAccount, w1)
    /\ getOrCreateAssociatedTokenAccount wallet (tokenMint this)
         (treasuryAddress this) true w1 = (inr treasuryTokenAccount, w2)
    /\ getTokenAccountBalance (address userTokenAccount) w2
       = (inr userTokenBalance, w3)
    /\ (Js.or_zero (uiAmount userTokenBalance) <? 1)%float = false
    /\ sendAndConfirmTransaction
         [ mkInstruction
             (request_keys this (publicKey wallet) userTokenAccount
                treasuryTokenAccount)
             (programId this) (Js.Buffer_from_array [tag_value t]) ]
         [wallet] w3 = (inr signature, w4)
    /\ getTransaction signature w4 = (inr txInfo, w5)
    /\ s' = mkSession w5
              (l ++ request_calls this wallet t userTokenAccount
                      treasuryTokenAccount signature)
    /\ submissions (request_calls this wallet t userTokenAccount
                      treasuryTokenAccount signature) = 1%nat
    /\ return_data_of txInfo = Some data
    /\ data <> DataString ""
    /\ match data with
       | DataString encoded => buf = base64_decode encoded
       | DataArray elements =>
           buf = Js.to_uint8 <$> (string_to_number <$> elements)
           /\ length buf = length elements
           /\ (forall encoded encoding,
                  elements = [encoded; encoding] ->
                  PrimFloat.is_nan (string_to_number encoded) = true ->
                  PrimFloat.is_nan (string_to_number encoding) = true ->
                  buf = [x00; x00])
       end.
Proof.
  intros Hg.
  destruct (generateRandom_resolved this wallet t w l buf s' Hg)
    as (uta & w1 & tta & w2 & bal & w3 & sig & w4 & txInfo & w5 & data
        & E1 & E2 & E3 & Hlt & E4 & E5 & Hdata & -> & ->).
  exists uta, w1, tta, w2, bal, w3, sig, w4, txInfo, w5, data.
  do 6 (split; [assumption|]). split; [reflexivity|]. split; [reflexivity|].
  split; [exact Hdata|]. split.
  - intros ->. unfold return_data_of in Hdata.
    destruct (txInfo ≫= meta) as [m|]; simpl in Hdata; [|discriminate].
    destruct (returnData m) as [rd|]; simpl in Hdata; [|discriminate].
    destruct (data_is_falsy (rd_data rd)) eqn:Hf; [discriminate|].
    injection Hdata as Hrd. rewrite Hrd in Hf. discriminate.
  - destruct data as [encoded|elements]; [reflexivity|].
    split; [reflexivity|]. split.
    + unfold Buffer_from_base64, Js.Buffer_from_numbers.
      now rewrite !length_fmap.
    + intros encoded encoding -> Hn1 Hn2.
      unfold Buffer_from_base64, Js.Buffer_from_numbers. simpl.
      now rewrite !to_uint8_nan.
Qed.

(** X3. A confirmed request whose fetched transaction carries no return
    data ([getTransaction] gives [null], or no [meta], no [returnData], or
    an empty [data]) is rejected with 'No return data found in
    transaction' after the submission: the log holds all five calls. *)
Theorem paid_request_without_return_data
    (this : QrngClient) (wallet : Signer) (t : QrngInstructionType)
    (w w1 w2 w3 w4 w5 : world) (l : list Event)
    (uta tta : TokenAccount) (bal : TokenAmount) (sig : Signature)
    (txInfo : option TxInfo) :
  getOrCreateAssociatedTokenAccount wallet (tokenMint this)
    (publicKey wallet) false w = (inr uta, w1) ->
  getOrCreateAssociatedTokenAccount wallet (tokenMint this)
    (treasuryAddress this) true w1 = (inr tta, w2) ->
  getTokenAccountBalance (address uta) w2 = (inr bal, w3) ->
  (Js.or_zero (uiAmount bal) <? 1)%float = false ->
  sendAndConfirmTransaction
    [ mkInstruction (request_keys this (publicKey wallet) uta tta)
        (programId this) (Js.Buffer_from_array [tag_value t]) ]
    [wallet] w3 = (inr sig, w4) ->
  getTransaction sig w4 = (inr txInfo, w5) ->
  return_data_of txInfo = None ->
  generateRandom this wallet t (mkSession w l)
  = (inl (QrngError "No return data found in transaction"),
     mkSession w5 (l ++ request_calls this wallet t uta tta sig))
  /\ submissions (request_calls this wallet t uta tta sig) = 1%nat.
Proof.
  intros E1 E2 E3 Hlt E4 E5 Hnone. split; [|reflexivity].
  unfold request_calls. unfold_client. simpl.
  rewrite E1. simpl. rewrite E2. simpl. rewrite E3. simpl. rewrite Hlt. simpl.
  simpl in E4. rewrite E4. simpl. rewrite E5. simpl.
  unfold return_data_of in Hnone.
  destruct txInfo as [[[m|]]|]; simpl in *;
    [destruct (returnData m) as [rd|]; simpl in *;
     [destruct (data_is_falsy (rd_data rd)); [|discriminate]|]| |];
    rewrite <- !app_assoc; reflexivity.
Qed.

(** X4. When the library calls reject with [Error] objects, values that
    have a message or a string form as every [HostError] has, each
    rejection of [generateRandom] is a QrngError whose message is one of
    three: the insufficient-balance message, 'No return data found in
    transaction', or 'Error generating random number: ' followed by the
    message of the library error (its text when the message is empty). A
    rejection with [undefined] or [null], on which the handler's
    [error.message] itself throws, is not covered. *)
Theorem generateRandom_rejections
    (this : QrngClient) (wallet : Signer) (t : QrngInstructionType)
    (s : Session) (e : Thrown) :
  fst (generateRandom this wallet t s) = inl e ->
  (exists balance : float,
      (balance <? 1)%float = true
      /\ e = QrngError ("Insufficient TSOTCHKE tokens. You have "
                        +:+ number_to_string balance
                        +:+ " but need at least 1.0."))
  \/ e = QrngError "No return data found in transaction"
  \/ (exists cause : HostError,
         e = QrngError ("Error generating random number: "
                        +:+ (if decide (he_message cause = ""%string)
                             then he_text cause else he_message cause))).
Proof.
  destruct s as [w l]. unfold_client. unfold message_or_text. simpl.
  destruct (getOrCreateAssociatedTokenAccount wallet (tokenMint this)
              (publicKey wallet) false w) as [[c|uta] w1]; simpl.
  { intros [= <-]. right. right. eauto. }
  destruct (getOrCreateAssociatedTokenAccount wallet (tokenMint this)
              (treasuryAddress this) true w1) as [[c|tta] w2]; simpl.
  { intros [= <-]. right. right. eauto. }
  destruct (getTokenAccountBalance (address uta) w2) as [[c|bal] w3]; simpl.
  { intros [= <-]. right. right. eauto. }
  destruct (Js.or_zero (uiAmount bal) <? 1)%float eqn:Hlt; simpl.
  { intros [= <-]. left. eauto. }
  destruct (sendAndConfirmTransaction _ _ w3) as [[c|sig] w4]; simpl.
  { intros [= <-]. right. right. eauto. }
  destruct (getTransaction sig w4) as [[c|txInfo] w5]; simpl.
  { intros [= <-]. right. right. eauto. }
  destruct txInfo as [[[m|]]|]; simpl;
    [destruct (returnData m) as [rd|]; simpl;
     [destruct (data_is_falsy (rd_data rd)); simpl|]| |];
    try discriminate; intros [= <-]; right; left; reflexivity.
Qed.

(** X5. A submission the cluster does not confirm is reported as a
    QrngError carrying the library's message, and the transaction is not
    fetched: the log ends with the submission. *)
Theorem unconfirmed_submission_is_wrapped
    (this : QrngClient) (wallet : Signer) (t : QrngInstructionType)
    (w w1 w2 w3 w4 : world) (l : list Event)
    (uta tta : TokenAccount) (bal : TokenAmount) (cause : HostError) :
  getOrCreateAssociatedTokenAccount wallet (tokenMint this)
    (publicKey wallet) false w = (inr uta, w1) ->
  getOrCreateAssociatedTokenAccount wallet (tokenMint this)
    (treasuryAddress this) true w1 = (inr tta, w2) ->
  getTokenAccountBalance (address uta) w2 = (inr bal, w3) ->
  (Js.or_zero (uiAmount bal) <? 1)%float = false ->
  sendAndConfirmTransaction
    [ mkInstruction (request_keys this (publicKey wallet) uta tta)
        (programId this) (Js.Buffer_from_array [tag_value t]) ]
    [wallet] w3 = (inl cause, w4) ->
  generateRandom this wallet t (mkSession w l)
  = (inl (QrngError ("Error generating random number: "
                     +:+ (if decide (he_message cause = ""%string)
                          then he_text cause else he_message cause))),
     mkSession w4
       (l ++ [ CallGetOrCreateAssociatedTokenAccount wallet (tokenMint this)
                 (publicKey wallet) false;
               CallGetOrCreateAssociatedTokenAccount wallet (tokenMint this)
                 (treasuryAddress this) true;
               CallGetTokenAccountBalance (address uta);
               CallSendAndConfirmTransaction
                 [ mkInstruction (request_keys this (publicKey wallet) uta tta)
                     (programId this) (Js.Buffer_from_array [tag_value t]) ]
                 [wallet] ])).
Proof.
  intros E1 E2 E3 Hlt E4. unfold_client. unfold message_or_text. simpl.
  rewrite E1. simpl. rewrite E2. simpl. rewrite E3. simpl. rewrite Hlt. simpl.
  simpl in E4. rewrite E4. simpl. rewrite <- !app_assoc. reflexivity.
Qed.

(** X6. [getTokenBalance] only reads: whatever the cluster answers, its
    calls are a non-empty prefix of one token-account lookup (payer without
    secret key, owner allowed off curve) and one balance fetch, and none
    of them is a submission. *)
Theorem getTokenBalance_is_read_only
    (this : QrngClient) (walletPublicKey : PublicKey) (s : Session) :
  exists evs tokenAccount,
    calls (snd (getTokenBalance this walletPublicKey s)) = calls s ++ evs
    /\ evs <> []
    /\ evs `prefix_of`
         [ CallGetOrCreateAssociatedTokenAccount
             (mkSigner walletPublicKey None) (tokenMint this)
             walletPublicKey true;
           CallGetTokenAccountBalance (address tokenAccount) ]
    /\ submissions evs = 0%nat.
Proof.
  destruct s as [w l]. unfold_client. simpl.
  destruct (getOrCreateAssociatedTokenAccount _ _ _ _ w) as [[e|ta] w1]; simpl.
  - eexists [_], (mkTokenAccount "").
    split; [reflexivity|]. split; [discriminate|].
    split; [eexists; reflexivity | reflexivity].
  - exists [ CallGetOrCreateAssociatedTokenAccount
               (mkSigner walletPublicKey None) (tokenMint this)
               walletPublicKey true;
             CallGetTokenAccountBalance (address ta) ], ta.
    destruct (getTokenAccountBalance (address ta) w1) as [[e|bal] w2]; simpl;
      rewrite <- !app_assoc; (split; [reflexivity|]);
      (split; [discriminate|]); (split; reflexivity).
Qed.

End CallLog.

Lemma resolved_request_is_paid_once_witness :
  exists data,
    data <> Web3.DataString ""
    /\ match data with
       | Web3.DataString encoded => [x00; x00] = Demo.b64_decode encoded
       | Web3.DataArray elements =>
           [x00; x00] = Js.to_uint8 <$> (Demo.number_of_text <$> elements)
           /\ length [x00; x00] = length elements
           /\ (forall encoded encoding,
                  elements = [encoded; encoding] ->
                  PrimFloat.is_nan (Demo.number_of_text encoded) = true ->
                  PrimFloat.is_nan (Demo.number_of_text encoding) = true ->
                  [x00; x00] = [x00; x00])
       end.
Proof.
  destruct (resolved_request_is_paid_once (host := Scripted.host Scripted.healthy)
              (Scripted.client Scripted.healthy) Demo.wallet
              Types.GENERATE_RANDOM_U64
              [Scripted.returning_pair "AQIDBAUGBwg="] []
              (snd (Client.generateRandom (host := Scripted.host Scripted.healthy)
                      (Scripted.client Scripted.healthy) Demo.wallet
                      Types.GENERATE_RANDOM_U64
                      (Scripted.session Scripted.healthy
                         [Scripted.returning_pair "AQIDBAUGBwg="])))
              [x00; x00] eq_refl)
    as (uta & w1 & tta & w2 & bal & w3 & sig & w4 & txInfo & w5 & data
        & _ & _ & _ & _ & _ & _ & _ & _ & _ & Hne & Hbuf).
  exists data. split; assumption.
Defined.

Lemma paid_request_without_return_data_witness :
  fst (Client.generateRandom (host := Scripted.host Scripted.healthy)
         (Scripted.client Scripted.healthy) Demo.wallet
         Types.GENERATE_RANDOM_DOUBLE
         (Scripted.session Scripted.healthy []))
  = inl (Client.QrngError "No return data found in transaction").
Proof.
  destruct (paid_request_without_return_data
              (host := Scripted.host Scripted.healthy)
              (Scripted.client Scripted.healthy) Demo.wallet
              Types.GENERATE_RANDOM_DOUBLE [] [] [] [] [] [] []
              (Web3.mkTokenAccount "user-ata")
              (Web3.mkTokenAccount "treasury-ata")
              (Web3.mkTokenAmount (5 * 10 ^ 9) 9 (Some 5%float))
              "5igNature" None
              eq_refl eq_refl eq_refl eq_refl eq_refl eq_refl eq_refl)
    as [Hg _].
  unfold Scripted.session. rewrite Hg. reflexivity.
Defined.

Lemma generateRandom_rejections_witness :
  (exists balance : float,
      (balance <? 1)%float = true
      /\ Client.QrngError "Error generating random number: TokenAccountNotFoundError"
         = Client.QrngError ("Insufficient TSOTCHKE tokens. You have "
                             +:+ "0" +:+ " but need at least 1.0."))
  \/ Client.QrngError "Error generating random number: TokenAccountNotFoundError"
     = Client.QrngError "No return data found in transaction"
  \/ (exists cause : Web3.HostError,
         Client.QrngError "Error generating random number: TokenAccountNotFoundError"
         = Client.QrngError
             ("Error generating random number: "
              +:+ (if decide (Web3.he_message cause = ""%string)
                   then Web3.he_text cause else Web3.he_message cause))).
Proof.
  apply (generateRandom_rejections (host := Scripted.host Scripted.no_account)
           (Scripted.client Scripted.no_account) Demo.wallet
           Types.GENERATE_RANDOM_U64
           (Scripted.session Scripted.no_account [])).
  reflexivity.
Defined.

Lemma unconfirmed_submission_is_wrapped_witness :
  fst (Client.generateRandom (host := Scripted.host Scripted.unconfirmed)
         (Scripted.client Scripted.unconfirmed) Demo.wallet
         Types.GENERATE_RANDOM_BOOLEAN
         (Scripted.session Scripted.unconfirmed []))
  = inl (Client.QrngError
           "Error generating random number: Transaction was not confirmed").
Proof.
  unfold Scripted.session.
  rewrite (unconfirmed_submission_is_wrapped
             (host := Scripted.host Scripted.unconfirmed)
             (Scripted.client Scripted.unconfirmed) Demo.wallet
             Types.GENERATE_RANDOM_BOOLEAN [] [] [] [] [] []
             (Web3.mkTokenAccount "user-ata")
             (Web3.mkTokenAccount "treasury-ata")
             (Web3.mkTokenAmount (5 * 10 ^ 9) 9 (Some 5%float))
             Scripted.timeout
             eq_refl eq_refl eq_refl eq_refl eq_refl).
  reflexivity.
Defined.

(** ** What one paid request leaves behind *)

Section Outcomes.
Context {host : Web3.Host}.
Import Web3 Types Client Trace.

(** Sequencing in [Async], as an equation. *)
Lemma bind_run {A B} (m : Async A) (k : A -> Async B) (s : Session) :
  (m ≫= k) s
  = match m s with
    | (inl e, s') => (inl e, s')
    | (inr a, s') => k a s'
    end.
Proof. reflexivity. Qed.

(** The three public methods add to the log what [generateRandom] adds. *)
Lemma generateRandomU64_calls (this : QrngClient) (wallet : Signer) (s : Session) :
  calls (snd (generateRandomU64 this wallet s))
  = calls (snd (generateRandom this wallet GENERATE_RANDOM_U64 s)).
Proof.
  unfold generateRandomU64. rewrite bind_run.
  destruct (generateRandom this wallet GENERATE_RANDOM_U64 s) as [[e|buf] s'];
    [reflexivity|].
  destruct (length buf <? 8)%nat; [reflexivity|].
  destruct (Js.readBigUInt64LE buf 0); reflexivity.
Qed.

Lemma generateRandomDouble_calls (this : QrngClient) (wallet : Signer) (s : Session) :
  calls (snd (generateRandomDouble this wallet s))
  = calls (snd (generateRandom this wallet GENERATE_RANDOM_DOUBLE s)).
Proof.
  unfold generateRandomDouble. rewrite bind_run.
  destruct (generateRandom this wallet GENERATE_RANDOM_DOUBLE s) as [[e|buf] s'];
    [reflexivity|].
  destruct (length buf <? 8)%nat; [reflexivity|].
  destruct (Js.readDoubleLE buf 0); reflexivity.
Qed.

Lemma generateRandomBoolean_calls (this : QrngClient) (wallet : Signer) (s : Session) :
  calls (snd (generateRandomBoolean this wallet s))
  = calls (snd (generateRandom this wallet GENERATE_RANDOM_BOOLEAN s)).
Proof.
  unfold generateRandomBoolean. rewrite bind_run.
  destruct (generateRandom this wallet GENERATE_RANDOM_BOOLEAN s) as [[e|buf] s'];
    [reflexivity|].
  destruct (length buf <? 1)%nat; reflexivity.
Qed.

(** A run of [generateRandom], by its result: the calls added hold at most
    one submission, exactly one when it resolves, and a rejection is a
    QrngError. *)
Lemma generateRandom_outcome
    (this : QrngClient) (wallet : Signer) (t : QrngInstructionType)
    (s s' : Session) (r : Thrown + Js.Buffer) :
  generateRandom this wallet t s = (r, s') ->
  exists evs,
    calls s' = calls s ++ evs
    /\ (submissions evs <= 1)%nat
    /\ match r with
       | inl e => exists message, e = QrngError message
       | inr _ => submissions evs = 1%nat
       end.
Proof.
  intros Hg.
  destruct (generateRandom_effect this wallet t s)
    as (evs & uta & tta & sig & Hcalls & Hpre & _ & Hfull).
  rewrite Hg in Hcalls, Hfull. simpl in Hcalls, Hfull.
  exists evs. split; [exact Hcalls|]. split.
  - apply submissions_prefix in Hpre. exact Hpre.
  - destruct r as [e|buf].
    + destruct e as [m|c]; [eauto|].
      exfalso. apply (generateRandom_wraps this wallet t s c).
      now rewrite Hg.
    + rewrite (Hfull buf eq_refl). reflexivity.
Qed.

(** The same for [generateRandomU64]; what it resolves to is a 64-bit
    unsigned integer. *)
Lemma generateRandomU64_outcome
    (this : QrngClient) (wallet : Signer) (s s' : Session) (r : Thrown + Z) :
  generateRandomU64 this wallet s = (r, s') ->
  exists evs,
    calls s' = calls s ++ evs
    /\ (submissions evs <= 1)%nat
    /\ match r with
       | inl e => exists message, e = QrngError message
       | inr v => submissions evs = 1%nat /\ 0 <= v < 2 ^ 64
       end.
Proof.
  intros Hu.
  destruct (generateRandom this wallet GENERATE_RANDOM_U64 s) as [r0 s0] eqn:Hg.
  destruct (generateRandom_outcome _ _ _ _ _ _ Hg) as (evs & Hcalls & Hle & Hr).
  destruct r0 as [e|buf].
  - rewrite (generateRandomU64_rejected _ _ _ _ _ Hg) in Hu.
    injection Hu as <- <-. exists evs. auto.
  - rewrite (generateRandomU64_after _ _ _ _ _ Hg) in Hu.
    injection Hu as <- <-. exists evs. split; [exact Hcalls|]. split; [exact Hle|].
    destruct (length buf <? 8)%nat eqn:Hlen; [eauto|].
    apply Nat.ltb_ge in Hlen.
    destruct (readBigUInt64LE_in_bounds buf Hlen) as [v Hv]. rewrite Hv.
    split; [exact Hr|]. now apply (readBigUInt64LE_range buf).
Qed.

Lemma generateRandomDouble_outcome
    (this : QrngClient) (wallet : Signer) (s s' : Session) (r : Thrown + float) :
  generateRandomDouble this wallet s = (r, s') ->
  exists evs,
    calls s' = calls s ++ evs
    /\ (submissions evs <= 1)%nat
    /\ match r with
       | inl e => exists message, e = QrngError message
       | inr _ => submissions evs = 1%nat
       end.
Proof.
  intros Hu.
  destruct (generateRandom this wallet GENERATE_RANDOM_DOUBLE s) as [r0 s0] eqn:Hg.
  destruct (generateRandom_outcome _ _ _ _ _ _ Hg) as (evs & Hcalls & Hle & Hr).
  destruct r0 as [e|buf].
  - rewrite (generateRandomDouble_rejected _ _ _ _ _ Hg) in Hu.
    injection Hu as <- <-. exists evs. auto.
  - rewrite (generateRandomDouble_after _ _ _ _ _ Hg) in Hu.
    injection Hu as <- <-. exists evs. split; [exact Hcalls|]. split; [exact Hle|].
    destruct (length buf <? 8)%nat eqn:Hlen; [eauto|].
    apply Nat.ltb_ge in Hlen.
    destruct (readDoubleLE_in_bounds buf Hlen) as [v ->]. exact Hr.
Qed.

End Outcomes.

(** ** Indexing by a remainder *)

(** A non-negative bigint modulo the length of a non-empty array is an
    index of the array. *)
Lemma rem_is_an_index {A} (l : list A) (v : Z) :
  0 <= v -> l <> [] ->
  exists r x,
    JsNum.rem v (Z.of_nat (length l)) = Some r
    /\ 0 <= r < Z.of_nat (length l)
    /\ JsNum.at_index l r = Some x
    /\ l !! Z.to_nat r = Some x
    /\ JsNum.splice_one l r = delete (Z.to_nat r) l.
Proof.
  intros Hv Hne.
  assert (Hlen : 0 < Z.of_nat (length l)) by (destruct l; [congruence|simpl; lia]).
  unfold JsNum.rem, JsNum.at_index, JsNum.splice_one.
  destruct (Z.of_nat (length l) =? 0) eqn:Hz; [lia|].
  pose proof (Z.rem_bound_pos v (Z.of_nat (length l)) Hv Hlen) as Hr.
  destruct (Z.rem v (Z.of_nat (length l)) <? 0) eqn:Hneg; [lia|].
  destruct (lookup_lt_is_Some_2 l (Z.to_nat (Z.rem v (Z.of_nat (length l)))))
    as [x Hx]; [lia|].
  exists (Z.rem v (Z.of_nat (length l))), x. rewrite Hneg.
  repeat split; auto; lia.
Qed.

(** ** Selection without replacement in the DeFi example *)

Section Selection.
Context {host : Web3.Host}.
Import Web3 Types Client Trace Errors DeFi.

(** One draw from a non-empty array: a rejection is a failed request; a
    resolved draw has paid one request and splits the array into the
    element drawn and the rest. *)
Lemma draw_outcome {A} (this : DeFiProtocol) (remaining : list A)
    (s s' : Session) (r : Thrown + A * list A) :
  remaining <> [] ->
  draw this remaining s = (r, s') ->
  exists evs,
    calls s' = calls s ++ evs
    /\ match r with
       | inl e => exists message, e = QrngError message
       | inr (x, rest) =>
           submissions evs = 1%nat
           /\ remaining ≡ₚ x :: rest
           /\ S (length rest) = length remaining
       end.
Proof.
  intros Hne. unfold draw. rewrite bind_run.
  destruct (generateRandomU64 (qrngClient this) (protocolWallet this) s)
    as [[e|v] s1] eqn:Hu; intros Hd.
  - injection Hd as <- <-.
    destruct (generateRandomU64_outcome _ _ _ _ _ Hu) as (evs & Hc & _ & Hr).
    exists evs. auto.
  - destruct (generateRandomU64_outcome _ _ _ _ _ Hu)
      as (evs & Hc & _ & Hone & Hv).
    destruct (rem_is_an_index remaining v (proj1 Hv) Hne)
      as (i & x & Hrem & Hi & Hat & Hx & Hsp).
    rewrite Hrem, Hat, Hsp in Hd. injection Hd as <- <-.
    exists evs. split; [exact Hc|]. split; [exact Hone|]. split.
    + now apply delete_Permutation.
    + rewrite length_delete by eauto.
      apply lookup_lt_Some in Hx. lia.
Qed.

(** The loop [i < actualSize] run [n] times on an array of at least [n]
    elements. *)
Lemma selectionLoop_outcome {A} (this : DeFiProtocol) (n : nat) :
  forall (remaining selected : list A) (s s' : Session)
         (r : Thrown + list A),
    (n <= length remaining)%nat ->
    selectionLoop this n remaining selected s = (r, s') ->
    exists evs,
      calls s' = calls s ++ evs
      /\ match r with
         | inl e => exists message, e = QrngError message
         | inr result =>
             submissions evs = n
             /\ exists chosen rest,
                 result = selected ++ chosen
                 /\ length chosen = n
                 /\ chosen ++ rest ≡ₚ remaining
         end.
Proof.
  induction n as [|n IH]; intros remaining selected s s' r Hn; simpl.
  - intros [= <- <-]. exists []. rewrite app_nil_r. split; [reflexivity|].
    split; [reflexivity|]. exists [], remaining.
    rewrite app_nil_r. auto.
  - rewrite bind_run.
    destruct (draw this remaining s) as [[e|[x rest]] s1] eqn:Hd; intros Hl.
    + injection Hl as <- <-.
      apply draw_outcome in Hd; [|destruct remaining; [simpl in Hn; lia|congruence]].
      exact Hd.
    + apply draw_outcome in Hd; [|destruct remaining; [simpl in Hn; lia|congruence]].
      destruct Hd as (evs1 & Hc1 & Hone & Hperm & Hlen).
      apply IH in Hl; [|lia].
      destruct Hl as (evs2 & Hc2 & Hr).
      exists (evs1 ++ evs2). split; [rewrite Hc2, Hc1; now rewrite app_assoc|].
      destruct r as [e|result]; [exact Hr|].
      destruct Hr as (Hsub & chosen & rest' & -> & Hch & Hp).
      split; [rewrite submissions_app; lia|].
      exists (x :: chosen), rest'. split; [now rewrite <- app_assoc|].
      split; [simpl; lia|]. simpl. now rewrite Hp.
Qed.

(** The loop [i < maxLiquidations && remainingPositions.length > 0]. *)
Lemma liquidationLoop_outcome (this : DeFiProtocol) (n : nat) :
  forall (remaining selected : list Position) (s s' : Session)
         (r : Thrown + list Position),
    (n <= length remaining)%nat ->
    liquidationLoop this n remaining selected s = (r, s') ->
    exists evs,
      calls s' = calls s ++ evs
      /\ match r with
         | inl e => exists message, e = QrngError message
         | inr result =>
             submissions evs = n
             /\ exists chosen rest,
                 result = selected ++ chosen
                 /\ length chosen = n
                 /\ chosen ++ rest ≡ₚ remaining
         end.
Proof.
  induction n as [|n IH]; intros remaining selected s s' r Hn; simpl.
  - intros [= <- <-]. exists []. rewrite app_nil_r. split; [reflexivity|].
    split; [reflexivity|]. exists [], remaining.
    rewrite app_nil_r. auto.
  - assert (Hne : remaining <> []) by (destruct remaining; [simpl in Hn; lia|congruence]).
    destruct (0 <? length remaining)%nat eqn:Hpos;
      [|apply Nat.ltb_ge in Hpos; lia].
    rewrite bind_run.
    destruct (draw this remaining s) as [[e|[x rest]] s1] eqn:Hd; intros Hl.
    + injection Hl as <- <-. now apply draw_outcome in Hd.
    + apply draw_outcome in Hd; [|exact Hne].
      destruct Hd as (evs1 & Hc1 & Hone & Hperm & Hlen).
      apply IH in Hl; [|lia].
      destruct Hl as (evs2 & Hc2 & Hr).
      exists (evs1 ++ evs2). split; [rewrite Hc2, Hc1; now rewrite app_assoc|].
      destruct r as [e|result]; [exact Hr|].
      destruct Hr as (Hsub & chosen & rest' & -> & Hch & Hp).
      split; [rewrite submissions_app; lia|].
      exists (x :: chosen), rest'. split; [now rewrite <- app_assoc|].
      split; [simpl; lia|]. simpl. now rewrite Hp.
Qed.

(** X7. [selectGovernanceCommittee] draws without replacement: when it
    resolves, the committee has [min(committeeSize, allValidators.length)]
    members (none for a negative size), it is part of a rearrangement of
    [allValidators] (so no validator is seated more often than it is
    listed), and each member cost one request; when it rejects, it is with
    the QrngError of a failed request, never with a RangeError or a
    TypeError of its own arithmetic. *)
Theorem committee_is_drawn_without_replacement
    (this : DeFiProtocol) (allValidators : list PublicKey)
    (committeeSize : Z) (proposalId : string) (s s' : Session)
    (r : Thrown + list PublicKey) :
  selectGovernanceCommittee this allValidators committeeSize proposalId s
  = (r, s') ->
  exists evs,
    calls s' = calls s ++ evs
    /\ match r with
       | inl e => exists message, e = QrngError message
       | inr committee =>
           length committee
           = Z.to_nat (Z.min committeeSize (Z.of_nat (length allValidators)))
           /\ (exists rest, committee ++ rest ≡ₚ allValidators)
           /\ (NoDup allValidators -> NoDup committee)
           /\ submissions evs = length committee
       end.
Proof.
  unfold selectGovernanceCommittee. intros Hl.
  apply selectionLoop_outcome in Hl; [|lia].
  destruct Hl as (evs & Hc & Hr). exists evs. split; [exact Hc|].
  destruct r as [e|committee]; [exact Hr|].
  destruct Hr as (Hsub & chosen & rest & -> & Hch & Hp). simpl.
  split; [exact Hch|]. split; [eauto|]. split; [|lia].
  intros Hnd. rewrite <- Hp in Hnd. now apply NoDup_app in Hnd as [? _].
Qed.

(** X8. [selectPositionsForLiquidation]: when it resolves, every position
    returned is underwater ([healthFactor < 1.0]), the result is part of a
    rearrangement of the underwater positions, and it holds
    [min(underwater, maxLiquidations)] of them (none for a negative bound);
    when the underwater positions do not exceed the bound they are all
    returned, in order, without any remote call, and otherwise each
    position returned cost one request. A rejection is the QrngError of a
    failed request. *)
Theorem liquidation_selection
    (this : DeFiProtocol) (allPositions : list Position)
    (maxLiquidations : Z) (s s' : Session) (r : Thrown + list Position) :
  selectPositionsForLiquidation this allPositions maxLiquidations s = (r, s') ->
  let underwater :=
    List.filter (fun position => (healthFactor position <? 1)%float)
                allPositions in
  exists evs,
    calls s' = calls s ++ evs
    /\ match r with
       | inl e => exists message, e = QrngError message
       | inr selected =>
           Forall (fun position => (healthFactor position <? 1)%float = true)
                  selected
           /\ (exists rest, selected ++ rest ≡ₚ underwater)
           /\ length selected
              = Z.to_nat (Z.min (Z.of_nat (length underwater)) maxLiquidations)
           /\ (if Z.of_nat (length underwater) <=? maxLiquidations
               then selected = underwater /\ evs = []
               else submissions evs = length selected)
       end.
Proof.
  unfold selectPositionsForLiquidation. intros Hl.
  set (underwater := List.filter _ allPositions) in *.
  assert (Hall : Forall (fun position => (healthFactor position <? 1)%float = true)
                        underwater).
  { apply List.Forall_forall. intros p Hp.
    apply List.filter_In in Hp. tauto. }
  clearbody underwater.
  destruct (length underwater =? 0)%nat eqn:Hz.
  { apply Nat.eqb_eq in Hz. simpl in Hl; injection Hl as <- <-.
    exists []. rewrite app_nil_r. split; [reflexivity|].
    destruct underwater; [|discriminate].
    split; [constructor|]. split; [exists []; reflexivity|].
    split; [simpl; lia|].
    destruct (Z.of_nat (length (@nil Position)) <=? maxLiquidations);
      [split|]; reflexivity. }
  apply Nat.eqb_neq in Hz.
  destruct (Z.of_nat (length underwater) <=? maxLiquidations) eqn:Hle.
  { apply Z.leb_le in Hle. simpl in Hl; injection Hl as <- <-.
    exists []. rewrite app_nil_r. split; [reflexivity|].
    split; [exact Hall|]. split; [exists []; now rewrite app_nil_r|].
    split; [lia|auto]. }
  apply Z.leb_gt in Hle.
  apply liquidationLoop_outcome in Hl; [|lia].
  destruct Hl as (evs & Hc & Hr). exists evs. split; [exact Hc|].
  destruct r as [e|selected]; [exact Hr|].
  destruct Hr as (Hsub & chosen & rest & -> & Hch & Hp). simpl.
  split.
  - rewrite <- Hp in Hall. now apply Forall_app in Hall as [? _].
  - split; [eauto|]. split; lia.
Qed.

(** X9. [getRandomOracleSample] with nothing to sample (no feed, or a sample
    size of zero or less) makes no request and rejects with the TypeError
    of reading [price] of [undefined]. *)
Theorem empty_oracle_sample_is_a_type_error
    (this : DeFiProtocol) (oracleFeeds : list Feed) (sampleSize : Z)
    (s : Session) :
  oracleFeeds = [] \/ sampleSize <= 0 ->
  getRandomOracleSample this oracleFeeds sampleSize s
  = (inl (Foreign undefined_property), s).
Proof.
  intros Hempty. unfold getRandomOracleSample.
  replace (Z.to_nat (Z.min sampleSize (Z.of_nat (length oracleFeeds)))) with O
    by (destruct Hempty as [->|?]; simpl; lia).
  reflexivity.
Qed.

End Selection.

(** ** The GameFi example *)




Section GameFiExample.
Context {host : Web3.Host}.
Import Web3 Types Client Trace Errors GameFi.


(** X11. [rollDice]: when it resolves, [sides] is a non-zero integer [n] and
    the roll is [Number(r) + 1] for a remainder [0 <= r < |n|], at the
    price of exactly one request. *)
Theorem dice_roll_is_a_remainder_plus_one
    (this : GameFiApp) (sides : float) (s s' : Session) (roll : float) :
  rollDice this sides s = (inr roll, s') ->
  exists n r,
    JsNum.BigInt sides = Some n
    /\ n <> 0
    /\ 0 <= r < Z.abs n
    /\ roll = (Js.Number_of_bigint r + 1)%float
    /\ exists evs, calls s' = calls s ++ evs /\ submissions evs = 1%nat.
Proof.
  unfold rollDice. rewrite bind_run.
  destruct (generateRandomU64 (qrngClient this) (gameWallet this) s)
    as [[e|v] s1] eqn:Hu; [discriminate|].
  destruct (generateRandomU64_outcome _ _ _ _ _ Hu) as (evs & Hc & _ & Hone & Hv).
  destruct (JsNum.BigInt sides) as [n|]; [|discriminate].
  unfold JsNum.rem. destruct (n =? 0) eqn:Hn; [discriminate|].
  apply Z.eqb_neq in Hn. intros [= <- <-].
  exists n, (Z.rem v n). repeat split; eauto; try lia.
  - apply Z.rem_nonneg; lia.
  - rewrite <- (Z.abs_eq (Z.rem v n)) by (apply Z.rem_nonneg; lia).
    apply Z.rem_bound_abs. exact Hn.
Qed.

(** X12. [rollDice] asks for the random number before it looks at [sides]:
    with zero sides, or a number of sides that is not an integer, a
    request that went through is paid and the roll is then rejected with a
    RangeError. *)
Theorem dice_without_sides_is_paid_then_rejected
    (this : GameFiApp) (sides : float) (s s' : Session) (randomNumber : Z) :
  generateRandomU64 (qrngClient this) (gameWallet this) s
  = (inr randomNumber, s') ->
  JsNum.BigInt sides = Some 0 \/ JsNum.BigInt sides = None ->
  (exists cause,
      rollDice this sides s = (inl (Foreign cause), s')
      /\ (cause = division_by_zero \/ cause = not_an_integer))
  /\ exists evs, calls s' = calls s ++ evs /\ submissions evs = 1%nat.
Proof.
  intros Hu Hsides.
  destruct (generateRandomU64_outcome _ _ _ _ _ Hu) as (evs & Hc & _ & Hone & _).
  split; [|eauto].
  unfold rollDice. rewrite bind_run, Hu.
  destruct Hsides as [-> | ->]; eauto.
Qed.

(** The items of each rarity, as [GAME_ITEMS.filter] finds them: never
    none. *)
Lemma every_rarity_has_items (r : Rarity) :
  List.filter (fun item => bool_decide (rarity item = r)) GAME_ITEMS <> []
  /\ Forall (fun item => rarity item = r /\ In item GAME_ITEMS)
       (List.filter (fun item => bool_decide (rarity item = r)) GAME_ITEMS).
Proof.
  split; [destruct r; discriminate|].
  apply List.Forall_forall. intros item Hin.
  apply List.filter_In in Hin as [Hin Hr].
  apply bool_decide_eq_true in Hr. auto.
Qed.

(** The loop of [generateLootDrop], [n] items to go. *)
Lemma lootLoop_outcome (this : GameFiApp) (n : nat) :
  forall (loot : list GameItem) (s s' : Session)
         (r : Thrown + list GameItem),
    lootLoop this n loot s = (r, s') ->
    exists evs,
      calls s' = calls s ++ evs
      /\ match r with
         | inl e => exists message, e = QrngError message
         | inr result =>
             submissions evs = (2 * n)%nat
             /\ exists drops,
                 result = loot ++ drops
                 /\ length drops = n
                 /\ Forall (fun item => In item GAME_ITEMS) drops
         end.
Proof.
  induction n as [|n IH]; intros loot s s' r; cbn [lootLoop].
  - intros [= <- <-]. exists []. rewrite app_nil_r. split; [reflexivity|].
    split; [reflexivity|]. exists []. rewrite app_nil_r. auto.
  - rewrite bind_run.
    destruct (generateRandomDouble (qrngClient this) (gameWallet this) s)
      as [[e|rarityRoll] s1] eqn:Hd.
    { intros [= <- <-].
      destruct (generateRandomDouble_outcome _ _ _ _ _ Hd) as (evs & Hc & _ & Hr).
      eauto. }
    destruct (generateRandomDouble_outcome _ _ _ _ _ Hd)
      as (evs1 & Hc1 & _ & Hone1).
    cbv zeta. rewrite bind_run.
    destruct (generateRandomU64 (qrngClient this) (gameWallet this) s1)
      as [[e|itemRandom] s2] eqn:Hu.
    { intros [= <- <-].
      destruct (generateRandomU64_outcome _ _ _ _ _ Hu) as (evs & Hc & _ & Hr).
      exists (evs1 ++ evs). split; [|exact Hr].
      rewrite Hc, Hc1. now rewrite app_assoc. }
    destruct (generateRandomU64_outcome _ _ _ _ _ Hu)
      as (evs2 & Hc2 & _ & Hone2 & Hv).
    set (rolled := rarity_of_roll _).
    destruct (every_rarity_has_items rolled) as [Hne Hall].
    destruct (rem_is_an_index _ itemRandom (proj1 Hv) Hne)
      as (i & item & -> & _ & -> & Hitem & _).
    intros Hl. apply IH in Hl. destruct Hl as (evs3 & Hc3 & Hr).
    exists (evs1 ++ evs2 ++ evs3). split.
    { rewrite Hc3, Hc2, Hc1. now rewrite !app_assoc. }
    destruct r as [e|result]; [exact Hr|].
    destruct Hr as (Hsub & drops & -> & Hlen & Hdrops).
    split; [rewrite !submissions_app; lia|].
    exists (item :: drops). split; [now rewrite <- app_assoc|].
    split; [simpl; lia|]. constructor; [|exact Hdrops].
    apply list_elem_of_lookup_2 in Hitem. apply list_elem_of_In in Hitem.
    rewrite List.Forall_forall in Hall. now apply Hall.
Qed.

(** X13. [generateLootDrop] for a count of [n] items: when it resolves, the
    loot holds [n] items (none for a negative count), each of them one of
    [GAME_ITEMS] (never [undefined]), and exactly two requests were paid
    per item; when it rejects, it is with the QrngError of a failed
    request: the item lookup itself cannot fail. *)
Theorem loot_drop_costs_two_requests_per_item
    (this : GameFiApp) (count : Z) (s s' : Session)
    (r : Thrown + list GameItem) :
  generateLootDrop this count s = (r, s') ->
  exists evs,
    calls s' = calls s ++ evs
    /\ match r with
       | inl e => exists message, e = QrngError message
       | inr loot =>
           length loot = Z.to_nat count
           /\ Forall (fun item => In item GAME_ITEMS) loot
           /\ submissions evs = (2 * Z.to_nat count)%nat
       end.
Proof.
  unfold generateLootDrop. intros Hl. apply lootLoop_outcome in Hl.
  destruct Hl as (evs & Hc & Hr). exists evs. split; [exact Hc|].
  destruct r as [e|loot]; [exact Hr|].
  destruct Hr as (Hsub & drops & -> & Hlen & Hall). auto.
Qed.

End GameFiExample.

Section LootTable.
Import GameFi.

(** X14. Over the rolls 1 to 100 the tests of [generateLootDrop] give each
    rarity as many rolls as [RARITY_CHANCES] promises out of 100: 1
    legendary, 4 epic, 10 rare, 25 uncommon and 60 common, the roll [k]
    being legendary for [k <= 1], epic up to 5, rare up to 15, uncommon up
    to 40 and common above. *)
Theorem loot_rolls_match_the_rarity_chances (k : Z) (r : GameFi.Rarity) :
  1 <= k <= 100 ->
  GameFi.rarity_of_roll (Js.Number_of_bigint k)
  = (if k <=? 1 then GameFi.legendary
     else if k <=? 5 then GameFi.epic
     else if k <=? 15 then GameFi.rare
     else if k <=? 40 then GameFi.uncommon
     else GameFi.common)
  /\ Js.Number_of_bigint
       (Z.of_nat
          (length
             (List.filter
                (fun roll : nat =>
                   bool_decide
                     (GameFi.rarity_of_roll
                        (Js.Number_of_bigint (Z.of_nat roll)) = r))
                (seq 1 100))))
     = GameFi.RARITY_CHANCES r.
Proof.
  intros Hk. split.
  - rewrite <- (Z2Nat.id k) by lia.
    assert (Hn : (1 <= Z.to_nat k <= 100)%nat) by lia.
    revert Hn. generalize (Z.to_nat k). clear k Hk. intros n Hn.
    destruct n as [|n]; [lia|].
    do 100 (destruct n as [|n]; [reflexivity|]). lia.
  - destruct r; vm_compute; reflexivity.
Qed.

End LootTable.

(** ** The NFT example *)

Lemma firstReached_member (randomValue totalWeight : float)
    (opts : list Nft.TraitOption) :
  forall (cumulativeWeight : float) (option : Nft.TraitOption),
    Nft.firstReached randomValue totalWeight cumulativeWeight opts = Some option ->
    In option opts.
Proof.
  induction opts as [|o opts IH]; intros c option; simpl; [discriminate|].
  destruct (_ <=? _)%float.
  - intros [= <-]. now left.
  - intros Hrest. right. now apply (IH _ _ Hrest).
Qed.

Section NftExample.
Context {host : Web3.Host}.
Import Web3 Types Client Trace Errors Nft.

(** X15. [selectRandomTrait] pays one request and, whatever double comes
    back (NaN included), resolves to one of the options of the category
    when it has any, and to [undefined] only for a category without
    options. *)
Theorem selected_trait_is_an_option_of_the_category
    (this : NFTCollectionGenerator) (category : TraitCategory)
    (s s' : Session) (picked : option TraitOption) :
  selectRandomTrait this category s = (inr picked, s') ->
  match picked with
  | Some option => In option (options category)
  | None => options category = []
  end
  /\ exists evs, calls s' = calls s ++ evs /\ submissions evs = 1%nat.
Proof.
  unfold selectRandomTrait. rewrite bind_run.
  destruct (generateRandomDouble (qrngClient this) (creatorWallet this) s)
    as [[e|randomValue] s1] eqn:Hd; [discriminate|].
  destruct (generateRandomDouble_outcome _ _ _ _ _ Hd) as (evs & Hc & _ & Hone).
  cbv zeta.
  destruct (firstReached _ _ _ _) as [option|] eqn:Hfirst; intros [= <- <-].
  - split; [|eauto]. now apply firstReached_member in Hfirst.
  - split; [|eauto].
    destruct (options category) as [|o opts] eqn:Hopts; simpl; [reflexivity|].
    now left.
Qed.

(** X16. [getRandomMintIndex]: when it resolves, [maxIndex] is a non-zero
    integer [n] and the index is [Number(r)] for a remainder
    [0 <= r < |n|], at the price of one request. *)
Theorem mint_index_is_a_remainder
    (this : NFTCollectionGenerator) (maxIndex : float) (s s' : Session)
    (index : float) :
  getRandomMintIndex this maxIndex s = (inr index, s') ->
  exists n r,
    JsNum.BigInt maxIndex = Some n
    /\ n <> 0
    /\ 0 <= r < Z.abs n
    /\ index = Js.Number_of_bigint r
    /\ exists evs, calls s' = calls s ++ evs /\ submissions evs = 1%nat.
Proof.
  unfold getRandomMintIndex. rewrite bind_run.
  destruct (generateRandomU64 (qrngClient this) (creatorWallet this) s)
    as [[e|v] s1] eqn:Hu; [discriminate|].
  destruct (generateRandomU64_outcome _ _ _ _ _ Hu) as (evs & Hc & _ & Hone & Hv).
  destruct (JsNum.BigInt maxIndex) as [n|]; [|discriminate].
  unfold JsNum.rem. destruct (n =? 0) eqn:Hn; [discriminate|].
  apply Z.eqb_neq in Hn. intros [= <- <-].
  exists n, (Z.rem v n). repeat split; eauto; try lia.
  - apply Z.rem_nonneg; lia.
  - rewrite <- (Z.abs_eq (Z.rem v n)) by (apply Z.rem_nonneg; lia).
    apply Z.rem_bound_abs. exact Hn.
Qed.

(** X17. [simulateMint] on an empty collection: the request for the mint
    index is made first, and once it went through (and was paid) the mint
    is rejected with the RangeError of a division by zero. *)
Theorem minting_from_an_empty_collection
    (this : NFTCollectionGenerator) (userWallet : PublicKey)
    (mockTxId : string) (s s' : Session) (randomValue : Z) :
  generateRandomU64 (qrngClient this) (creatorWallet this) s
  = (inr randomValue, s') ->
  simulateMint this [] userWallet mockTxId s
  = (inl (Foreign division_by_zero), s')
  /\ exists evs, calls s' = calls s ++ evs /\ submissions evs = 1%nat.
Proof.
  intros Hu.
  destruct (generateRandomU64_outcome _ _ _ _ _ Hu) as (evs & Hc & _ & Hone & _).
  split; [|eauto].
  unfold simulateMint, getRandomMintIndex. rewrite !bind_run, Hu. reflexivity.
Qed.

End NftExample.

(** ** The integration guides *)

Section GuideExample.
Context {host : Web3.Host}.
Import Web3 Types Client Trace Guide.

(** X18. The decoding of [getRandomNumber] never yields a double: return
    data of eight bytes or more is always read as a u64, of one to seven
    bytes as a boolean (its first byte being 1), and empty data, a
    [returnData] that is not an array, or an encoding other than 'base64'
    end in the final [throw]. *)
Theorem guide_decoding_never_yields_a_double
    (returnData : option ReturnDataValue) (data : Js.Buffer) :
  (forall v, read_return_data returnData <> Some (Integration.randomDouble v))
  /\ (forall fields, read_return_data (Some (AnObject fields)) = None)
  /\ (forall encoded encoding rest,
         read_return_data (Some (AnArray (encoded :: encoding :: rest)))
         = if bool_decide (encoding = "base64"%string)
              && negb (bool_decide (encoded = ""%string))
           then Integration.extract (base64_decode encoded)
           else None)
  /\ (forall v, Integration.extract data <> Some (Integration.randomDouble v))
  /\ ((8 <= length data)%nat ->
      exists big,
        Js.readBigUInt64LE data 0 = Some big
        /\ Integration.extract data
           = Some (Integration.randomU64 (Js.Number_of_bigint big)))
  /\ ((1 <= length data < 8)%nat ->
      Integration.extract data
      = Some (Integration.randomBoolean
                (bool_decide (Js.index data 0 = Some 1))))
  /\ (data = [] -> Integration.extract data = None).
Proof.
  assert (Hex : forall d v,
             Integration.extract d <> Some (Integration.randomDouble v)).
  { intros d v. unfold Integration.extract.
    destruct (8 <=? length d)%nat.
    - destruct (Js.readBigUInt64LE d 0); discriminate.
    - destruct (1 <=? length d)%nat; discriminate. }
  split; [|split; [|split; [|split; [|split; [|split]]]]].
  - intros v. unfold read_return_data.
    destruct returnData as [rd|]; [|discriminate].
    destruct (_ && _); [apply Hex|discriminate].
  - reflexivity.
  - reflexivity.
  - apply Hex.
  - intros Hlen. unfold Integration.extract.
    destruct (8 <=? length data)%nat eqn:H8; [|apply Nat.leb_gt in H8; lia].
    destruct (readBigUInt64LE_in_bounds data Hlen) as [big Hbig].
    exists big. now rewrite Hbig.
  - intros Hlen. unfold Integration.extract.
    destruct (8 <=? length data)%nat eqn:H8; [apply Nat.leb_le in H8; lia|].
    destruct (1 <=? length data)%nat eqn:H1; [reflexivity|].
    apply Nat.leb_gt in H1. lia.
  - intros ->. reflexivity.
Qed.

(** X19. The request of the guide's [requestRandomNumber] is the SDK's: its
    transaction is the compute-budget instruction followed by exactly the
    instruction a [QrngClient] with default options builds for
    GENERATE_RANDOM_U64 on the same accounts, signed by the payer, and
    submitting it is the only remote call. *)
Theorem guide_request_is_the_sdk_request
    (setComputeUnitLimit : Z -> TransactionInstruction)
    (payer : Signer) (userTokenAccount treasuryTokenAccount : TokenAccount)
    (s : Session) :
  let sdk := new_QrngClient (mkOptions None None None) in
  calls (snd (requestRandomNumber setComputeUnitLimit payer userTokenAccount
                treasuryTokenAccount s))
  = calls s
    ++ [ CallSendAndConfirmTransaction
           [ setComputeUnitLimit 200000;
             mkInstruction
               (request_keys sdk (publicKey payer) userTokenAccount
                  treasuryTokenAccount)
               (programId sdk)
               (Js.Buffer_from_array [tag_value Types.GENERATE_RANDOM_U64]) ]
           [payer] ].
Proof.
  destruct s as [w l]. unfold requestRandomNumber. unfold_client. simpl.
  destruct (sendAndConfirmTransaction _ _ w) as [[e|sig] w1]; reflexivity.
Qed.

(** X20. [generateRandomU64] reads the first eight bytes of the return data
    and nothing else: on a buffer of eight bytes or more it resolves to a
    value below [2 ^ 64] that depends on those bytes only, and the eight
    8-bit values the integration guide extracts from that value are those
    eight bytes, in order. *)
Theorem u64_is_the_first_eight_bytes
    (this : QrngClient) (wallet : Signer) (s s' : Session) (buf : Js.Buffer) :
  generateRandom this wallet Types.GENERATE_RANDOM_U64 s = (inr buf, s') ->
  (8 <= length buf)%nat ->
  exists v,
    generateRandomU64 this wallet s = (inr v, s')
    /\ 0 <= v < 2 ^ 64
    /\ Js.readBigUInt64LE (take 8 buf) 0 = Some v
    /\ byte_values v
       = (fun b => Js.Number_of_bigint (Js.byte_val b)) <$> take 8 buf.
Proof.
  intros Hg Hlen.
  rewrite (generateRandomU64_after _ _ _ _ _ Hg).
  destruct (length buf <? 8)%nat eqn:Hlt; [apply Nat.ltb_lt in Hlt; lia|].
  destruct (readBigUInt64LE_in_bounds buf Hlen) as [v Hv]. rewrite Hv.
  exists v. split; [reflexivity|].
  split; [now apply (readBigUInt64LE_range buf)|].
  do 8 (destruct buf as [|? buf]; [simpl in Hlen; lia|]).
  unfold Js.readBigUInt64LE, Js.index in *. simpl in Hv |- *.
  split; [exact Hv|]. injection Hv as <-.
  unfold byte_values. simpl.
  rewrite Z.shiftl_mul_pow2 by lia.
  repeat match goal with
         | |- context [Js.byte_val ?x] =>
             let H := fresh in
             pose proof (byte_val_range x) as H;
             generalize dependent (Js.byte_val x); intros
         end.
  change 255 with (Z.ones 8).
  rewrite !Z.land_ones, !Z.shiftr_div_pow2 by lia.
  repeat f_equal; Z.div_mod_to_equations; lia.
Qed.

(** The payload of a submitted request, by the method that made it. *)
Lemma submitted_payload
    (this : QrngClient) (wallet : Signer) (t : QrngInstructionType)
    (w : world) (tx : Transaction) (signers : list Signer) :
  In (CallSendAndConfirmTransaction tx signers)
     (calls (snd (generateRandom this wallet t (mkSession w [])))) ->
  exists accounts,
    tx = [ mkInstruction accounts (programId this)
             (Js.Buffer_from_array [tag_value t]) ].
Proof.
  intros Hin.
  destruct (generateRandom_submission this wallet t w tx signers Hin)
    as (uta & w1 & tta & w2 & bal & w3 & _ & _ & _ & _ & -> & _).
  eauto.
Qed.

(** X21. Each public method sends its own tag and no other: every
    transaction submitted by [generateRandomU64] carries the payload
    [01], by [generateRandomDouble] the payload [02], by
    [generateRandomBoolean] the payload [03]; none of them ever sends
    INITIALIZE_PROGRAM ([00]). *)
Theorem public_methods_send_their_own_tag
    (this : QrngClient) (wallet : Signer) (w : world)
    (tx : Transaction) (signers : list Signer) :
  (In (CallSendAndConfirmTransaction tx signers)
      (calls (snd (generateRandomU64 this wallet (mkSession w [])))) ->
   exists accounts, tx = [ mkInstruction accounts (programId this) [x01] ])
  /\ (In (CallSendAndConfirmTransaction tx signers)
         (calls (snd (generateRandomDouble this wallet (mkSession w [])))) ->
      exists accounts, tx = [ mkInstruction accounts (programId this) [x02] ])
  /\ (In (CallSendAndConfirmTransaction tx signers)
         (calls (snd (generateRandomBoolean this wallet (mkSession w [])))) ->
      exists accounts, tx = [ mkInstruction accounts (programId this) [x03] ]).
Proof.
  split; [|split]; intros Hin.
  - rewrite generateRandomU64_calls in Hin.
    now apply submitted_payload in Hin.
  - rewrite generateRandomDouble_calls in Hin.
    now apply submitted_payload in Hin.
  - rewrite generateRandomBoolean_calls in Hin.
    now apply submitted_payload in Hin.
Qed.

End GuideExample.

(** ** The bonus yield of the DeFi example *)

Lemma firstReachedIndex_in_range (randomValue totalWeight : float)
    (participants : list DeFi.RewardParticipant) :
  forall (cumulativeWeight : float) (j i : nat),
    DeFi.firstReachedIndex randomValue totalWeight cumulativeWeight j
      participants = Some i ->
    (j <= i < j + length participants)%nat.
Proof.
  induction participants as [|p rest IH]; intros c j i; simpl; [discriminate|].
  destruct (_ <=? _)%float.
  - intros [= <-]. lia.
  - intros Hrest. apply IH in Hrest. lia.
Qed.

Section BonusYield.
Context {host : Web3.Host}.
Import Web3 Types Client Trace Errors DeFi.

Lemma bonusLoop_outcome (this : DeFiProtocol) (totalWeight bonusAmount : float)
    (n : nat) :
  forall (remaining : list RewardParticipant) (selected : list Reward)
         (s s' : Session) (r : Thrown + list Reward),
    (n <= length remaining)%nat ->
    bonusLoop this n totalWeight bonusAmount remaining selected s = (r, s') ->
    exists evs,
      calls s' = calls s ++ evs
      /\ match r with
         | inl e => exists message, e = QrngError message
         | inr result =>
             submissions evs = n
             /\ exists chosen rest,
                 result = selected
                          ++ ((fun p => mkReward (wallet p) bonusAmount) <$> chosen)
                 /\ length chosen = n
                 /\ chosen ++ rest ≡ₚ remaining
         end.
Proof.
  induction n as [|n IH]; intros remaining selected s s' r Hn;
    cbn [bonusLoop].
  - intros [= <- <-]. exists []. rewrite app_nil_r. split; [reflexivity|].
    split; [reflexivity|]. exists [], remaining. simpl.
    rewrite app_nil_r. auto.
  - destruct (0 <? length remaining)%nat eqn:Hpos;
      [|apply Nat.ltb_ge in Hpos; lia].
    apply Nat.ltb_lt in Hpos. rewrite bind_run.
    destruct (generateRandomDouble (qrngClient this) (protocolWallet this) s)
      as [[e|randomValue] s1] eqn:Hd.
    { intros [= <- <-].
      destruct (generateRandomDouble_outcome _ _ _ _ _ Hd) as (evs & Hc & _ & Hr).
      eauto. }
    destruct (generateRandomDouble_outcome _ _ _ _ _ Hd)
      as (evs1 & Hc1 & _ & Hone).
    cbv zeta.
    set (selectedIndex :=
           match firstReachedIndex randomValue totalWeight 0 0 remaining with
           | Some j => j
           | None => (length remaining - 1)%nat
           end).
    assert (Hidx : (selectedIndex < length remaining)%nat).
    { unfold selectedIndex.
      destruct (firstReachedIndex _ _ _ _ _) as [j|] eqn:Hj; [|lia].
      apply firstReachedIndex_in_range in Hj. lia. }
    destruct (lookup_lt_is_Some_2 remaining selectedIndex Hidx) as [p Hp].
    rewrite Hp. intros Hl. apply IH in Hl; [|rewrite length_delete by eauto; lia].
    destruct Hl as (evs2 & Hc2 & Hr).
    exists (evs1 ++ evs2). split; [rewrite Hc2, Hc1; now rewrite app_assoc|].
    destruct r as [e|result]; [exact Hr|].
    destruct Hr as (Hsub & chosen & rest' & -> & Hch & Hperm).
    split; [rewrite submissions_app; lia|].
    exists (p :: chosen), rest'. split; [simpl; now rewrite <- app_assoc|].
    split; [simpl; lia|]. simpl. rewrite Hperm.
    symmetry. now apply delete_Permutation.
Qed.

(** X22. [distributeBonusYield]: when it resolves, there are
    [min(numberOfRecipients, participants.length)] rewards (none for a
    negative number), every reward is the same share
    [totalBonusAmount / numberOfRecipients] (so fewer participants than
    recipients leave part of the bonus undistributed), the recipients are
    participants, none rewarded more often than it is listed, and each
    reward cost one request. A rejection is the QrngError of a failed
    request. *)
Theorem bonus_yield_is_shared_equally
    (this : DeFiProtocol) (participants : list RewardParticipant)
    (totalBonusAmount : float) (numberOfRecipients : Z)
    (s s' : Session) (r : Thrown + list Reward) :
  distributeBonusYield this participants totalBonusAmount numberOfRecipients s
  = (r, s') ->
  exists evs,
    calls s' = calls s ++ evs
    /\ match r with
       | inl e => exists message, e = QrngError message
       | inr rewards =>
           length rewards
           = Z.to_nat (Z.min numberOfRecipients (Z.of_nat (length participants)))
           /\ Forall (fun reward =>
                        amount reward
                        = (totalBonusAmount
                           / JsNum.of_Z numberOfRecipients false)%float)
                     rewards
           /\ (exists rest,
                  (recipient <$> rewards) ++ rest ≡ₚ wallet <$> participants)
           /\ submissions evs = length rewards
       end.
Proof.
  unfold distributeBonusYield. cbv zeta.
  set (totalWeight := foldl _ _ _).
  set (bonusAmount := (totalBonusAmount / _)%float).
  intros Hl.
  destruct (Z_le_gt_dec numberOfRecipients (Z.of_nat (length participants)))
    as [Hle|Hgt].
  - apply bonusLoop_outcome in Hl; [|lia].
    destruct Hl as (evs & Hc & Hr). exists evs. split; [exact Hc|].
    destruct r as [e|rewards]; [exact Hr|].
    destruct Hr as (Hsub & chosen & rest & -> & Hch & Hperm). simpl.
    rewrite length_fmap.
    split; [lia|]. split.
    { apply Forall_fmap. apply Forall_forall. intros; reflexivity. }
    split; [|lia].
    exists (wallet <$> rest). rewrite <- list_fmap_compose.
    rewrite <- fmap_app. now rewrite Hperm.
  - (* more recipients than participants: the loop stops on the empty array *)
    assert (Hsplit : exists k, Z.to_nat numberOfRecipients
                               = (length participants + k)%nat)
      by (exists (Z.to_nat numberOfRecipients - length participants)%nat; lia).
    destruct Hsplit as [k Hk]. rewrite Hk in Hl.
    assert (Hstop : forall (m : nat) (sel : list Reward) (s0 : Session),
               bonusLoop this m totalWeight bonusAmount [] sel s0
               = (inr sel, s0)) by (intros [|m] sel s0; reflexivity).
    assert (Hgen : forall (remaining : list RewardParticipant)
                          (selected : list Reward) (s0 s1 : Session) r0,
               bonusLoop this (length remaining + k) totalWeight bonusAmount
                 remaining selected s0 = (r0, s1) ->
               bonusLoop this (length remaining) totalWeight bonusAmount
                 remaining selected s0 = (r0, s1)).
    { intros remaining.
      remember (length remaining) as len eqn:Hlen.
      revert remaining Hlen.
      induction len as [|len IH]; intros remaining Hlen selected s0 s1 r0.
      - destruct remaining; [|discriminate]. simpl.
        rewrite Hstop. auto.
      - cbn [Nat.add bonusLoop].
        destruct (0 <? length remaining)%nat; [|auto].
        rewrite !bind_run.
        destruct (generateRandomDouble _ _ s0) as [[e|rv] s2]; [auto|].
        cbv zeta.
        destruct (remaining !! _) as [p|] eqn:Hp; [|auto].
        apply IH. rewrite length_delete by eauto. lia. }
    apply Hgen in Hl. apply bonusLoop_outcome in Hl; [|lia].
    destruct Hl as (evs & Hc & Hr). exists evs. split; [exact Hc|].
    destruct r as [e|rewards]; [exact Hr|].
    destruct Hr as (Hsub & chosen & rest & -> & Hch & Hperm). simpl.
    rewrite length_fmap.
    split; [lia|]. split.
    { apply Forall_fmap. apply Forall_forall. intros; reflexivity. }
    split; [|lia].
    exists (wallet <$> rest). rewrite <- list_fmap_compose.
    rewrite <- fmap_app. now rewrite Hperm.
Qed.

End BonusYield.

Lemma bonus_yield_is_shared_equally_witness :
  exists rest,
    (DeFi.recipient
       <$> [ DeFi.mkReward "staker-2" 50; DeFi.mkReward "staker-3" 50 ]%float)
      ++ rest
    ≡ₚ DeFi.wallet <$> Scenario.stakers.
Proof.
  destruct (bonus_yield_is_shared_equally
              (host := Scripted.host Scripted.healthy)
              Scenario.protocol Scenario.stakers 100 2
              (Scripted.session Scripted.healthy
                 [Scripted.a_half; Scripted.a_half])
              (snd (DeFi.distributeBonusYield
                      (host := Scripted.host Scripted.healthy)
                      Scenario.protocol Scenario.stakers 100 2
                      (Scripted.session Scripted.healthy
                         [Scripted.a_half; Scripted.a_half])))
              (inr [ DeFi.mkReward "staker-2" 50; DeFi.mkReward "staker-3" 50 ]%float)
              eq_refl)
    as (evs & _ & _ & _ & Hrest & _).
  exact Hrest.
Defined.

(** ** The rarest NFT *)

Ltac compare_cases :=
  repeat match goal with
         | |- context [Z.compare ?x ?y] =>
             destruct (Z.compare_spec x y); simpl; try congruence; try lia
         | |- context [Pos.compare_cont Eq ?x ?y] =>
             change (Pos.compare_cont Eq x y) with (Pos.compare x y);
             destruct (Pos.compare_spec x y); simpl; try congruence; try lia
         end.

Lemma SFltb_chain (a c e : spec_float) :
  SFltb a e = false -> SFltb a c = true -> SFltb c e = false.
Proof.
  unfold SFltb, SFcompare.
  destruct a as [[]|[]| |[] ma ea], c as [[]|[]| |[] mc ec],
           e as [[]|[]| |[] me ee]; simpl; try congruence; compare_cases.
Qed.

Lemma SFltb_trans (a c e : spec_float) :
  SFltb a c = true -> SFltb c e = true -> SFltb a e = true.
Proof.
  unfold SFltb, SFcompare.
  destruct a as [[]|[]| |[] ma ea], c as [[]|[]| |[] mc ec],
           e as [[]|[]| |[] me ee]; simpl; try congruence; compare_cases.
Qed.

Lemma ltb_chain (a c e : float) :
  (a <? e)%float = false -> (a <? c)%float = true -> (c <? e)%float = false.
Proof. rewrite !FloatAxioms.ltb_spec. apply SFltb_chain. Qed.

Lemma ltb_trans (a c e : float) :
  (a <? c)%float = true -> (c <? e)%float = true -> (a <? e)%float = true.
Proof. rewrite !FloatAxioms.ltb_spec. apply SFltb_trans. Qed.

Lemma ltb_irrefl (a : float) : (a <? a)%float = false.
Proof.
  rewrite FloatAxioms.ltb_spec. unfold SFltb, SFcompare.
  destruct (Prim2SF a) as [[]|[]| |[] m e]; simpl; try reflexivity;
    rewrite Z.compare_refl; simpl;
    change (Pos.compare_cont Eq m m) with (Pos.compare m m);
    rewrite Pos.compare_refl; reflexivity.
Qed.

Lemma rarest_fold (nfts : list Nft.NFT) :
  forall acc : Nft.NFT,
    let rarest :=
      foldl (fun rarest current =>
               if (Nft.rarityScore rarest <? Nft.rarityScore current)%float
               then current else rarest) acc nfts in
    (rarest = acc \/ rarest ∈ nfts)
    /\ (rarest = acc
        \/ (Nft.rarityScore acc <? Nft.rarityScore rarest)%float = true)
    /\ Forall (fun x =>
                 (Nft.rarityScore rarest <? Nft.rarityScore x)%float = false)
              nfts.
Proof.
  induction nfts as [|current rest IH]; intros acc; cbn [foldl].
  - cbv zeta. split; [now left|]. split; [now left|constructor].
  - cbv zeta.
    destruct (Nft.rarityScore acc <? Nft.rarityScore current)%float eqn:Hlt.
    + destruct (IH current) as (Hmem & Hup & Hall). cbv zeta in *.
      set (r := foldl _ current rest) in *.
      split; [right; destruct Hmem as [->|Hin]; [left|now right]|].
      split.
      * right. destruct Hup as [->|Hup]; [exact Hlt|].
        exact (ltb_trans _ _ _ Hlt Hup).
      * constructor; [|exact Hall].
        destruct Hup as [->|Hup]; [apply ltb_irrefl|].
        exact (ltb_chain _ _ _ (ltb_irrefl _) Hup).
    + destruct (IH acc) as (Hmem & Hup & Hall). cbv zeta in *.
      set (r := foldl _ acc rest) in *.
      split; [destruct Hmem as [->|Hin]; [now left|right; now right]|].
      split; [exact Hup|].
      constructor; [|exact Hall].
      destruct Hup as [->|Hup]; [exact Hlt|].
      exact (ltb_chain _ _ _ Hlt Hup).
Qed.

(** X23. [findRarestNFT]: of an empty collection it is [undefined]; otherwise
    it is an NFT of the collection and no NFT of the collection has a
    greater rarity score. *)
Theorem rarest_nft_has_the_greatest_score (nfts : list Nft.NFT) :
  match Nft.findRarestNFT nfts with
  | None => nfts = []
  | Some rarest =>
      rarest ∈ nfts
      /\ Forall (fun x =>
                   (Nft.rarityScore rarest <? Nft.rarityScore x)%float = false)
                nfts
  end.
Proof.
  unfold Nft.findRarestNFT.
  destruct nfts as [|first rest]; [reflexivity|].
  change ((first :: rest) !! 0%nat) with (Some first).
  destruct (rarest_fold (first :: rest) first) as (Hmem & _ & Hall).
  cbv zeta in *. split; [|exact Hall].
  destruct Hmem as [->|Hin]; [left|exact Hin].
Qed.

(** ** The examples' properties at work on the scripted cluster *)

Section Witnesses.
Import Scripted Scenario.

Lemma committee_is_drawn_without_replacement_witness :
  exists rest, ["Val-C"; "Val-B"]%string ++ rest ≡ₚ validators.
Proof.
  destruct (committee_is_drawn_without_replacement (host := host healthy)
              protocol validators 2 "prop-1" (session healthy [five; one])
              (snd (DeFi.selectGovernanceCommittee (host := host healthy)
                      protocol validators 2 "prop-1"
                      (session healthy [five; one])))
              (inr ["Val-C"; "Val-B"]%string) eq_refl)
    as (evs & _ & _ & Hrest & _).
  exact Hrest.
Defined.

Lemma liquidation_selection_witness :
  Forall (fun position => (DeFi.healthFactor position <? 1)%float = true)
    (take 2 (rev positions)).
Proof.
  destruct (liquidation_selection (host := host healthy)
              protocol positions 2 (session healthy [five; one])
              (snd (DeFi.selectPositionsForLiquidation (host := host healthy)
                      protocol positions 2 (session healthy [five; one])))
              (inr (take 2 (rev positions))) eq_refl)
    as (evs & _ & Hall & _).
  exact Hall.
Defined.

Lemma empty_oracle_sample_is_a_type_error_witness :
  DeFi.getRandomOracleSample (host := host healthy) protocol
    [DeFi.mkFeed "Pyth" 1%float] 0 (session healthy [five])
  = (inl (Client.Foreign Errors.undefined_property), session healthy [five]).
Proof.
  apply (empty_oracle_sample_is_a_type_error (host := host healthy)).
  right. lia.
Defined.


Lemma dice_roll_is_a_remainder_plus_one_witness :
  exists n r,
    JsNum.BigInt 6 = Some n /\ n <> 0 /\ 0 <= r < Z.abs n
    /\ 6%float = (Js.Number_of_bigint r + 1)%float.
Proof.
  destruct (dice_roll_is_a_remainder_plus_one (host := host healthy)
              game 6 (session healthy [five])
              (snd (GameFi.rollDice (host := host healthy) game 6
                      (session healthy [five])))
              6%float eq_refl)
    as (n & r & Hn & Hnz & Hr & Hroll & _).
  exists n, r. auto.
Defined.

Lemma dice_without_sides_is_paid_then_rejected_witness :
  exists cause,
    GameFi.rollDice (host := host healthy) game 0 (session healthy [five])
    = (inl (Client.Foreign cause),
       snd (Client.generateRandomU64 (host := host healthy)
              (GameFi.qrngClient game) (GameFi.gameWallet game)
              (session healthy [five])))
    /\ (cause = Errors.division_by_zero \/ cause = Errors.not_an_integer).
Proof.
  apply (dice_without_sides_is_paid_then_rejected (host := host healthy)
           game 0 (session healthy [five]) _ 5).
  - reflexivity.
  - left. reflexivity.
Defined.

Lemma loot_drop_costs_two_requests_per_item_witness :
  exists evs,
    Client.calls
      (snd (GameFi.generateLootDrop (host := host healthy) game 2
              (session healthy [a_half; five; a_half; one])))
    = [] ++ evs
    /\ Trace.submissions evs = 4%nat.
Proof.
  destruct (loot_drop_costs_two_requests_per_item (host := host healthy)
              game 2 (session healthy [a_half; five; a_half; one])
              (snd (GameFi.generateLootDrop (host := host healthy) game 2
                      (session healthy [a_half; five; a_half; one])))
              (inr [ GameFi.mkItem 7 "Leather Armor" GameFi.common 3;
                     GameFi.mkItem 2 "Iron Dagger" GameFi.common 8 ])
              eq_refl)
    as (evs & Hc & _ & _ & Hsub).
  exists evs. split; assumption.
Defined.

Lemma loot_rolls_match_the_rarity_chances_witness :
  GameFi.rarity_of_roll (Js.Number_of_bigint 5) = GameFi.epic.
Proof.
  apply (loot_rolls_match_the_rarity_chances 5 GameFi.epic). lia.
Defined.

Lemma selected_trait_is_an_option_of_the_category_witness :
  In (Nft.mkOption "Night Sky" 30 30) (Nft.options background).
Proof.
  apply (selected_trait_is_an_option_of_the_category (host := host healthy)
           generator background (session healthy [a_half])
           (snd (Nft.selectRandomTrait (host := host healthy) generator
                   background (session healthy [a_half])))
           (Some (Nft.mkOption "Night Sky" 30 30)) eq_refl).
Defined.

Lemma mint_index_is_a_remainder_witness :
  exists n r,
    JsNum.BigInt 3 = Some n /\ n <> 0 /\ 0 <= r < Z.abs n
    /\ 2%float = Js.Number_of_bigint r.
Proof.
  destruct (mint_index_is_a_remainder (host := host healthy)
              generator 3 (session healthy [five])
              (snd (Nft.getRandomMintIndex (host := host healthy) generator 3
                      (session healthy [five])))
              2%float eq_refl)
    as (n & r & Hn & Hnz & Hr & Hi & _).
  exists n, r. auto.
Defined.

Lemma minting_from_an_empty_collection_witness :
  Nft.simulateMint (host := host healthy) generator [] "user" "MINT1"
    (session healthy [five])
  = (inl (Client.Foreign Errors.division_by_zero),
     snd (Client.generateRandomU64 (host := host healthy)
            (Nft.qrngClient generator) (Nft.creatorWallet generator)
            (session healthy [five]))).
Proof.
  apply (minting_from_an_empty_collection (host := host healthy)
           generator "user" "MINT1" (session healthy [five]) _ 5).
  reflexivity.
Defined.

Lemma u64_is_the_first_eight_bytes_witness :
  exists v,
    Client.generateRandomU64 (host := host healthy) (client healthy)
      Demo.wallet (session healthy [returning "AQIDBAUGBwgJCg=="])
    = (inr v,
       snd (Client.generateRandom (host := host healthy) (client healthy)
              Demo.wallet Types.GENERATE_RANDOM_U64
              (session healthy [returning "AQIDBAUGBwgJCg=="])))
    /\ Guide.byte_values v
       = (fun b => Js.Number_of_bigint (Js.byte_val b))
           <$> [x01; x02; x03; x04; x05; x06; x07; x08].
Proof.
  destruct (u64_is_the_first_eight_bytes (host := host healthy)
              (client healthy) Demo.wallet
              (session healthy [returning "AQIDBAUGBwgJCg=="])
              (snd (Client.generateRandom (host := host healthy)
                      (client healthy) Demo.wallet Types.GENERATE_RANDOM_U64
                      (session healthy [returning "AQIDBAUGBwgJCg=="])))
              [x01; x02; x03; x04; x05; x06; x07; x08; x09; x0a]
              eq_refl)
    as (v & Hrun & _ & _ & Hbytes).
  - simpl. lia.
  - exists v. split; assumption.
Defined.

Lemma public_methods_send_their_own_tag_witness :
  (exists accounts,
      [ Web3.mkInstruction
          (Client.request_keys (client healthy) "WaLLet"
             (Web3.mkTokenAccount "user-ata")
             (Web3.mkTokenAccount "treasury-ata"))
          (Client.programId (client healthy)) [x01] ]
      = [ Web3.mkInstruction accounts (Client.programId (client healthy)) [x01] ]).
Proof.
  apply (proj1 (public_methods_send_their_own_tag (host := host healthy)
                  (client healthy) Demo.wallet [five] _ [Demo.wallet])).
  do 3 right. left. reflexivity.
Defined.

Lemma guide_decoding_never_yields_a_double_witness :
  exists big,
    Js.readBigUInt64LE [x01; x02; x03; x04; x05; x06; x07; x08] 0 = Some big
    /\ Integration.extract [x01; x02; x03; x04; x05; x06; x07; x08]
       = Some (Integration.randomU64 (Js.Number_of_bigint big)).
Proof.
  destruct (guide_decoding_never_yields_a_double (host := host healthy)
              None [x01; x02; x03; x04; x05; x06; x07; x08])
    as (_ & _ & _ & _ & Hlong & _).
  apply Hlong. simpl. lia.
Defined.

End Witnesses.
